(** * The 3MF importer of Assimp: [XmlSerializer] in D3MFImporter.cpp

    A shallow embedding of [Assimp::D3MF::XmlSerializer], the class that walks
    the XML resource tree of a 3MF package and fills an [aiScene], together
    with the properties of it that the specification states.

    Layout:
    - [Xml]: the pugixml handles the importer reads ([XmlNode], attributes);
    - [LibC]: [atoi], [strtol] and [to_string];
    - [StdMap], [StdVector]: [std::map] and [std::vector] as the code uses them;
    - the Assimp scene types ([aiMesh], [aiMaterial], [aiNode], [aiScene]);
    - [D3MF]: the member functions of [XmlSerializer], in a state and error
      monad: the state is the serializer object, the error is an access
      outside an array, which C++ leaves undefined;
    - an instance of the Assimp parameters over the rationals, and sample
      documents, to run the importer on;
    - the notions that the statements use;
    - lemmas on the models, then the properties of the importer: colours,
      the scene, the material dictionary, material references, objects. *)

From Stdlib Require Import ZArith List String Ascii Bool Lia QArith.
From Stdlib Require Import DecimalString.
Import ListNotations.
Local Open Scope string_scope.
Local Open Scope list_scope.
Local Open Scope Z_scope.
Set Warnings "-register-all".

Set Implicit Arguments.

(** ** Machine integers *)

Definition UINT_MOD : Z := 2 ^ 32.
Definition SIZE_MOD : Z := 2 ^ 64.
Definition LONG_MAX : Z := 2 ^ 63 - 1.
Definition LONG_MIN : Z := - 2 ^ 63.

(** Conversion to [unsigned int]. *)
Definition to_uint (z : Z) : Z := z mod UINT_MOD.

(** Conversion to [int] (two's complement). *)
Definition to_int (z : Z) : Z := (z + 2 ^ 31) mod UINT_MOD - 2 ^ 31.

(** Conversion to [size_t]. *)
Definition to_size_t (z : Z) : Z := z mod SIZE_MOD.

(** [v.size()] *)
Definition size {A} (v : list A) : Z := Z.of_nat (List.length v).

(** ** pugixml *)

Module Xml.

(** An element of the parsed document: its name, its attributes in document
    order, its value and its children in document order
    ([first_child] / [next_sibling]). *)
Inductive XmlNode : Type :=
  Node (name : string) (attributes : list (string * string))
       (value : string) (children : list XmlNode).

Definition name (n : XmlNode) : string := let 'Node x _ _ _ := n in x.
Definition attributes (n : XmlNode) := let 'Node _ x _ _ := n in x.
Definition value (n : XmlNode) : string := let 'Node _ _ x _ := n in x.
Definition children (n : XmlNode) : list XmlNode := let 'Node _ _ _ x := n in x.

(** [xml_attribute]: a handle that is empty when the attribute is absent. *)
Definition xml_attribute := option string.

Fixpoint lookup_attribute (l : list (string * string)) (a : string) : xml_attribute :=
  match l with
  | [] => None
  | (k, v) :: l' => if String.eqb k a then Some v else lookup_attribute l' a
  end.

(** [node.attribute(name)] *)
Definition attribute (n : XmlNode) (a : string) : xml_attribute :=
  lookup_attribute (attributes n) a.

(** [attr.empty()] *)
Definition empty (a : xml_attribute) : bool :=
  match a with Some _ => false | None => true end.

(** [attr.as_string()]: the value, or the default argument, the empty
    string, for an empty handle.  The result is a [const char *] that is
    never null; [Some] is a non-null pointer. *)
Definition as_string (a : xml_attribute) : option string :=
  match a with Some v => Some v | None => Some "" end.

(** [attr.as_string()] assigned to a [std::string]. *)
Definition as_std_string (a : xml_attribute) : string :=
  match a with Some v => v | None => "" end.

(** [node.child(name)]: the first child of that name; an empty handle
    ([None]) when there is none, or when [node] is itself empty. *)
Definition child (n : option XmlNode) (a : string) : option XmlNode :=
  match n with
  | None => None
  | Some n => List.find (fun c => String.eqb (name c) a) (children n)
  end.

(** The nodes that [first_child()] and [next_sibling()] enumerate; an empty
    handle has none. *)
Definition child_nodes (n : option XmlNode) : list XmlNode :=
  match n with None => [] | Some n => children n end.

End Xml.
Import Xml.

(** ** The C library *)

Module LibC.

Definition code (c : ascii) : Z := Z.of_N (N_of_ascii c).

(** [isspace] in the C locale. *)
Definition isspace (c : ascii) : bool :=
  (code c =? 32) || ((9 <=? code c) && (code c <=? 13)).

(** The value of a character as a digit, for bases up to 36. *)
Definition digit_value (c : ascii) : option Z :=
  let n := code c in
  if (48 <=? n) && (n <=? 57) then Some (n - 48)
  else if (97 <=? n) && (n <=? 122) then Some (n - 87)
  else if (65 <=? n) && (n <=? 90) then Some (n - 55)
  else None.

Fixpoint skip_spaces (s : string) : string :=
  match s with
  | String c s' => if isspace c then skip_spaces s' else s
  | EmptyString => s
  end.

(** The digits of [s] in [base], up to the first character that is none. *)
Fixpoint digits (base : Z) (acc : Z) (s : string) : Z :=
  match s with
  | String c s' =>
      match digit_value c with
      | Some d => if d <? base then digits base (acc * base + d) s' else acc
      | None => acc
      end
  | EmptyString => acc
  end.

Definition is_x (c : ascii) : bool := (code c =? 120) || (code c =? 88).

(** After the sign: for base 16 an optional [0x] or [0X]. *)
Definition magnitude (base : Z) (s : string) : Z :=
  match s with
  | String c0 (String c1 rest) =>
      if (base =? 16) && (code c0 =? 48) && is_x c1
      then digits base 0 rest
      else digits base 0 s
  | _ => digits base 0 s
  end.

Definition clamp_long (z : Z) : Z :=
  if z <? LONG_MIN then LONG_MIN else if LONG_MAX <? z then LONG_MAX else z.

(** [strtol(s, nullptr, base)] for a 64-bit [long]. *)
Definition strtol (s : string) (base : Z) : Z :=
  match skip_spaces s with
  | String c s' =>
      if code c =? 45 then clamp_long (- magnitude base s')
      else if code c =? 43 then clamp_long (magnitude base s')
      else clamp_long (magnitude base (String c s'))
  | EmptyString => 0
  end.

(** [atoi(s)], which is [(int) strtol(s, nullptr, 10)].  C leaves the result
    undefined when the number does not fit an [int]; the conversion written
    here is the one the cast performs. *)
Definition atoi (s : string) : Z := to_int (strtol s 10).

(** [to_string] of an [unsigned int]: its decimal digits. *)
Definition to_string (z : Z) : string :=
  NilEmpty.string_of_uint (N.to_uint (Z.to_N z)).

(** [strlen] *)
Definition strlen (s : string) : Z := Z.of_nat (String.length s).

(** [s[i]] of a C string: past the last character is the terminating NUL. *)
Definition char_at (s : string) (i : nat) : ascii :=
  match String.get i s with Some c => c | None => zero end.

End LibC.

(** ** Outcomes

    A value; an access outside an array, which C++ leaves undefined; or a
    loop whose 32-bit counter can never reach its bound. *)

Inductive result (A : Type) : Type :=
| Ok (a : A)
| OutOfBounds
| Diverges.
Arguments OutOfBounds {A}.
Arguments Diverges {A}.

(** ** std::vector *)

Module StdVector.

(** [v[i]] where [i] is an [int]: the index is converted to [size_t], and
    the access is defined only below [v.size()]. *)
Definition at_int {A} (v : list A) (i : Z) : result A :=
  let u := to_size_t i in
  if u <? size v then
    match nth_error v (Z.to_nat u) with
    | Some x => Ok x
    | None => OutOfBounds
    end
  else OutOfBounds.

(** [p = new T[n]()] followed by [std::copy(v.begin(), v.end(), p)], where
    [n] is [v.size()] converted to [unsigned int]: the copy stays inside
    the array exactly when the conversion kept the size. *)
Definition copy_to_new_array {A} (n : Z) (v : list A) : result (list A) :=
  if size v <=? n then Ok v else OutOfBounds.

End StdVector.

(** ** std::map with [unsigned int] keys

    The entries are kept sorted by key, which is the order in which a
    [std::map] is iterated. *)

Module StdMap.

Section Map.
Context {V : Type}.

Definition t := list (Z * V).

Definition empty : t := [].

(** [m.find(k)], [None] standing for [m.end()]. *)
Fixpoint find (k : Z) (m : t) : option V :=
  match m with
  | [] => None
  | (k', v) :: m' => if k =? k' then Some v else find k m'
  end.

(** The place of a new key among the sorted entries. *)
Fixpoint insert_sorted (k : Z) (v : V) (m : t) : t :=
  match m with
  | [] => [(k, v)]
  | (k', v') :: m' =>
      if k <? k' then (k, v) :: m else (k', v') :: insert_sorted k v m'
  end.

(** [m.insert(std::make_pair(k, v))]: nothing is stored when the key is
    already there. *)
Definition insert (k : Z) (v : V) (m : t) : t :=
  match find k m with
  | Some _ => m
  | None => insert_sorted k v m
  end.

(** [m[k]]: the entry, after inserting a default value when the key is
    not there. *)
Definition subscript (dflt : V) (k : Z) (m : t) : V * t :=
  match find k m with
  | Some v => (v, m)
  | None => (dflt, insert k dflt m)
  end.

Definition keys (m : t) : list Z := map fst m.

End Map.
Arguments t : clear implicits.

End StdMap.

(** ** The Assimp scene types

    Only the members that the importer reads or writes.  The real type
    [ai_real] is a parameter [R]. *)

Module aiString.
Definition MAXLEN : Z := 1024.

(** [aiString::Set(const std::string &)]: a string of [MAXLEN] characters
    or more is ignored. *)
Definition set (s : string) (old : string) : string :=
  if LibC.strlen s >? MAXLEN - 1 then old else s.

(** [aiString(const std::string &)]: a longer string is cut. *)
Definition of_string (s : string) : string :=
  String.substring 0 (Z.to_nat (MAXLEN - 1)) s.
End aiString.

Module aiVector3D.
Record t (R : Type) : Type := mk { x : R; y : R; z : R }.
End aiVector3D.

Module aiColor4D.
Record t (R : Type) : Type := mk { r : R; g : R; b : R; a : R }.
Arguments mk {R}.
Arguments r {R}.
Arguments g {R}.
Arguments b {R}.
Arguments a {R}.
Definition set_r {R} (v : R) (c : t R) := mk v (g c) (b c) (a c).
Definition set_g {R} (v : R) (c : t R) := mk (r c) v (b c) (a c).
Definition set_b {R} (v : R) (c : t R) := mk (r c) (g c) v (a c).
Definition set_a {R} (v : R) (c : t R) := mk (r c) (g c) (b c) v.
End aiColor4D.

Module aiFace.
Record t : Type := mk { mNumIndices : Z; mIndices : list Z }.
End aiFace.

Definition aiPrimitiveType_TRIANGLE : Z := 4.

Module aiMesh.
Record t (R : Type) : Type := mk {
  mName : string;
  mNumVertices : Z;
  mVertices : list (aiVector3D.t R);
  mNumFaces : Z;
  mFaces : list aiFace.t;
  mPrimitiveTypes : Z;
  mMaterialIndex : Z
}.
Arguments mk {R}.
Arguments mName {R}.
Arguments mNumVertices {R}.
Arguments mVertices {R}.
Arguments mNumFaces {R}.
Arguments mFaces {R}.
Arguments mPrimitiveTypes {R}.
Arguments mMaterialIndex {R}.

Definition set_mName {R} (v : string) (m : t R) :=
  mk v (mNumVertices m) (mVertices m) (mNumFaces m) (mFaces m)
     (mPrimitiveTypes m) (mMaterialIndex m).
Definition set_vertices {R} (n : Z) (v : list (aiVector3D.t R)) (m : t R) :=
  mk (mName m) n v (mNumFaces m) (mFaces m)
     (mPrimitiveTypes m) (mMaterialIndex m).
Definition set_faces {R} (n : Z) (v : list aiFace.t) (p : Z) (m : t R) :=
  mk (mName m) (mNumVertices m) (mVertices m) n v p (mMaterialIndex m).
Definition set_mMaterialIndex {R} (v : Z) (m : t R) :=
  mk (mName m) (mNumVertices m) (mVertices m) (mNumFaces m) (mFaces m)
     (mPrimitiveTypes m) v.
End aiMesh.

Module aiMaterial.
Inductive key : Type := AI_MATKEY_NAME | AI_MATKEY_COLOR_DIFFUSE.

Inductive property (R : Type) : Type :=
| PString (s : string)
| PColor (c : aiColor4D.t R).
Arguments PString {R}.
Arguments PColor {R}.

Definition key_eqb (k1 k2 : key) : bool :=
  match k1, k2 with
  | AI_MATKEY_NAME, AI_MATKEY_NAME => true
  | AI_MATKEY_COLOR_DIFFUSE, AI_MATKEY_COLOR_DIFFUSE => true
  | _, _ => false
  end.

(** A material is its property list; [new aiMaterial] has none. *)
Definition t (R : Type) : Type := list (key * property R).

(** [AddProperty]: a property of the same key is replaced, otherwise the
    new one is appended. *)
Fixpoint AddProperty {R} (k : key) (p : property R) (m : t R) : t R :=
  match m with
  | [] => [(k, p)]
  | (k', p') :: m' =>
      if key_eqb k k' then (k, p) :: m' else (k', p') :: AddProperty k p m'
  end.

Definition has_key {R} (k : key) (m : t R) : bool :=
  existsb (fun e => key_eqb k (fst e)) m.
End aiMaterial.

Module aiNode.
(** What [mParent] points to: the importer only ever stores the root. *)
Inductive parent : Type := SceneRoot.

(** A null entry of [mChildren] is [None]. *)
Inductive t : Type :=
  mk (mName : string) (mParent : option parent)
     (mNumMeshes : Z) (mMeshes : list Z)
     (mNumChildren : Z) (mChildren : list (option t)).

Definition mName (n : t) := let 'mk x _ _ _ _ _ := n in x.
Definition mParent (n : t) := let 'mk _ x _ _ _ _ := n in x.
Definition mNumMeshes (n : t) := let 'mk _ _ x _ _ _ := n in x.
Definition mMeshes (n : t) := let 'mk _ _ _ x _ _ := n in x.
Definition mNumChildren (n : t) := let 'mk _ _ _ _ x _ := n in x.
Definition mChildren (n : t) := let 'mk _ _ _ _ _ x := n in x.

Definition set_mName (v : string) (n : t) :=
  mk v (mParent n) (mNumMeshes n) (mMeshes n) (mNumChildren n) (mChildren n).
Definition set_mParent (v : option parent) (n : t) :=
  mk (mName n) v (mNumMeshes n) (mMeshes n) (mNumChildren n) (mChildren n).
Definition set_meshes (k : Z) (v : list Z) (n : t) :=
  mk (mName n) (mParent n) k v (mNumChildren n) (mChildren n).
Definition set_children (k : Z) (v : list (option t)) (n : t) :=
  mk (mName n) (mParent n) (mNumMeshes n) (mMeshes n) k v.
End aiNode.

Module aiMetadata.
(** The key and value arrays; an entry that was never set is [None]. *)
Definition t : Type := list (option (string * string)).

Definition Alloc (n : Z) : t := repeat None (Z.to_nat n).

Fixpoint write (i : nat) (e : string * string) (m : t) : t :=
  match m, i with
  | [], _ => []
  | _ :: m', O => Some e :: m'
  | x :: m', S i' => x :: write i' e m'
  end.

(** [Set(index, key, value)]: an index past the table is refused. *)
Definition set (index : Z) (k : string) (v : string) (m : t) : t :=
  if index <? size m then write (Z.to_nat index) (aiString.of_string k, v) m
  else m.
End aiMetadata.

Module aiScene.
Record t (R : Type) : Type := mk {
  mRootNode : option aiNode.t;
  mMetaData : option aiMetadata.t;
  mNumMeshes : Z;
  mMeshes : list (aiMesh.t R);
  mNumMaterials : Z;
  (** A slot of [mMaterials] that was never written is [None]. *)
  mMaterials : list (option (option (aiMaterial.t R)))
}.
Arguments mk {R}.
Arguments mRootNode {R}.
Arguments mMetaData {R}.
Arguments mNumMeshes {R}.
Arguments mMeshes {R}.
Arguments mNumMaterials {R}.
Arguments mMaterials {R}.

Definition set_mRootNode {R} (v : option aiNode.t) (s : t R) :=
  mk v (mMetaData s) (mNumMeshes s) (mMeshes s) (mNumMaterials s) (mMaterials s).
Definition set_mMetaData {R} (v : option aiMetadata.t) (s : t R) :=
  mk (mRootNode s) v (mNumMeshes s) (mMeshes s) (mNumMaterials s) (mMaterials s).
Definition set_meshes {R} (n : Z) (v : list (aiMesh.t R)) (s : t R) :=
  mk (mRootNode s) (mMetaData s) n v (mNumMaterials s) (mMaterials s).
Definition set_mNumMaterials {R} (n : Z) (s : t R) :=
  mk (mRootNode s) (mMetaData s) (mNumMeshes s) (mMeshes s) n (mMaterials s).
Definition set_mMaterials {R} (v : list (option (option (aiMaterial.t R)))) (s : t R) :=
  mk (mRootNode s) (mMetaData s) (mNumMeshes s) (mMeshes s) (mNumMaterials s) v.
End aiScene.

(** What the importer takes from the Assimp headers: the arithmetic of
    [ai_real], [ai_strtof], and the values that the default constructors of
    [aiColor4D], [aiMesh] and [aiNode] produce. *)
Class AssimpEnv (ai_real : Type) : Type := {
  (** [static_cast<ai_real>(long)] *)
  real_of_long : Z -> ai_real;
  (** [/] on [ai_real] *)
  real_div : ai_real -> ai_real -> ai_real;
  (** [ai_real(255.0)] *)
  real_255 : ai_real;
  ai_strtof : string -> ai_real;
  (** [aiColor4D diffuse;] *)
  new_aiColor4D : aiColor4D.t ai_real;
  (** [new aiMesh()] *)
  new_aiMesh : aiMesh.t ai_real;
  (** [new aiNode()] *)
  new_aiNode : aiNode.t
}.

(** Modelled from the spec: the tag and attribute names of 3MFXmlTags.h, which
    the specification lists as the recognised vocabulary. *)
Module XmlTag.
Definition model := "model".
Definition resources := "resources".
Definition object := "object".
Definition build := "build".
Definition basematerials := "basematerials".
Definition meta := "metadata".
Definition meta_name := "name".
Definition mesh := "mesh".
Definition vertices := "vertices".
Definition vertex := "vertex".
Definition triangles := "triangles".
Definition triangle := "triangle".
Definition x := "x".
Definition y := "y".
Definition z := "z".
Definition v1 := "v1".
Definition v2 := "v2".
Definition v3 := "v3".
Definition id := "id".
Definition pid := "pid".
Definition pindex := "pindex".
Definition p1 := "p1".
Definition basematerials_id := "id".
Definition basematerials_base := "base".
Definition basematerials_name := "name".
Definition basematerials_displaycolor := "displaycolor".
End XmlTag.

(** ** XmlSerializer *)

Module D3MF.

Section Serializer.
Context {ai_real : Type} {E : AssimpEnv ai_real}.

Abbreviation mesh := (aiMesh.t ai_real).
Abbreviation material := (aiMaterial.t ai_real).
Abbreviation color := (aiColor4D.t ai_real).
Abbreviation scene := (aiScene.t ai_real).

Record MetaEntry : Type := mkMetaEntry { name : string; value : string }.

(** One element of a group's vector: the global index and the material
    pointer, [None] for [nullptr]. *)
Definition material_entry : Type := Z * option material.

(** The members of the serializer object. *)
Record XmlSerializer : Type := mkXmlSerializer {
  mMetaData : list MetaEntry;
  mMeshes : list mesh;
  mBasematerialsDictionnary : StdMap.t (list material_entry);
  mMaterialCount : Z;
  (** the root of the document that [mXmlParser] holds *)
  mXmlParser : XmlNode
}.

(** The constructor. *)
Definition new_XmlSerializer (xmlParser : XmlNode) : XmlSerializer :=
  mkXmlSerializer [] [] StdMap.empty 0 xmlParser.

Definition set_mMetaData (v : list MetaEntry) (s : XmlSerializer) :=
  mkXmlSerializer v (mMeshes s) (mBasematerialsDictionnary s)
                  (mMaterialCount s) (mXmlParser s).
Definition set_mMeshes (v : list mesh) (s : XmlSerializer) :=
  mkXmlSerializer (mMetaData s) v (mBasematerialsDictionnary s)
                  (mMaterialCount s) (mXmlParser s).
Definition set_mBasematerialsDictionnary
    (v : StdMap.t (list material_entry)) (s : XmlSerializer) :=
  mkXmlSerializer (mMetaData s) (mMeshes s) v (mMaterialCount s) (mXmlParser s).
Definition set_mMaterialCount (v : Z) (s : XmlSerializer) :=
  mkXmlSerializer (mMetaData s) (mMeshes s) (mBasematerialsDictionnary s)
                  v (mXmlParser s).

(** *** The monad of the member functions *)

Definition M (A : Type) : Type := XmlSerializer -> result (A * XmlSerializer).

Definition ret {A} (a : A) : M A := fun s => Ok (a, s).

Definition bind {A B} (m : M A) (k : A -> M B) : M B :=
  fun s => match m s with
           | Ok (a, s') => k a s'
           | OutOfBounds => OutOfBounds
           | Diverges => Diverges
           end.

Definition get : M XmlSerializer := fun s => Ok (s, s).
Definition put (s : XmlSerializer) : M unit := fun _ => Ok (tt, s).
Definition modify (f : XmlSerializer -> XmlSerializer) : M unit :=
  fun s => Ok (tt, f s).

Definition lift {A} (r : result A) : M A :=
  fun s => match r with
           | Ok a => Ok (a, s)
           | OutOfBounds => OutOfBounds
           | Diverges => Diverges
           end.

Notation "x <- m ;; k" := (bind m (fun x => k))
  (at level 61, m at next level, right associativity).
Notation "m ;;; k" := (bind m (fun _ => k))
  (at level 61, right associativity).

(** A [for] loop over sibling nodes that carries the loop's locals. *)
Fixpoint for_each {A B} (body : B -> A -> M B) (l : list A) (b : B) : M B :=
  match l with
  | [] => ret b
  | x :: l' => b' <- body b x ;; for_each body l' b'
  end.

(** [mBasematerialsDictionnary[k]] *)
Definition dictionnary_subscript (k : Z) : M (list material_entry) :=
  s <- get ;;
  let '(v, d) := StdMap.subscript [] k (mBasematerialsDictionnary s) in
  put (set_mBasematerialsDictionnary d s) ;;;
  ret v.

(** [mBasematerialsDictionnary.find(k) != mBasematerialsDictionnary.end()] *)
Definition dictionnary_has (k : Z) (s : XmlSerializer) : bool :=
  match StdMap.find k (mBasematerialsDictionnary s) with
  | Some _ => true
  | None => false
  end.

(** *** Attributes *)

Definition getNodeAttribute (node : XmlNode) (attribute : string) (value : string)
  : bool * string :=
  let objectAttribute := Xml.attribute node attribute in
  if negb (Xml.empty objectAttribute)
  then (true, Xml.as_std_string objectAttribute)
  else (false, value).

(** *** Colours *)

(** The two characters at [buf] as the string [comp]. *)
Definition comp_at (color : string) (i : nat) : string :=
  String (LibC.char_at color i) (String (LibC.char_at color (S i)) EmptyString).

Definition component (color : string) (i : nat) : ai_real :=
  real_div (real_of_long (LibC.strtol (comp_at color i) 16)) real_255.

Definition parseColor (color : option string) (diffuse : aiColor4D.t ai_real)
  : bool * aiColor4D.t ai_real :=
  match color with
  | None => (false, diffuse)
  | Some color =>
      let len := LibC.strlen color in
      if negb (9 =? len) && negb (7 =? len) then (false, diffuse)
      else if negb (Ascii.eqb "#" (LibC.char_at color 0)) then (false, diffuse)
      else
        let diffuse := aiColor4D.set_r (component color 1) diffuse in
        let diffuse := aiColor4D.set_g (component color 3) diffuse in
        let diffuse := aiColor4D.set_b (component color 5) diffuse in
        if 7 =? len then (true, diffuse)
        else
          let diffuse := aiColor4D.set_a (component color 7) diffuse in
          (true, diffuse)
  end.

Definition assignDiffuseColor (node : XmlNode) (mat : material) : material :=
  let color :=
    Xml.as_string (Xml.attribute node XmlTag.basematerials_displaycolor) in
  let diffuse := new_aiColor4D in
  let '(ok, diffuse) := parseColor color diffuse in
  if ok
  then aiMaterial.AddProperty aiMaterial.AI_MATKEY_COLOR_DIFFUSE
                              (aiMaterial.PColor diffuse) mat
  else mat.

(** *** Materials *)

Definition readMaterialDef (node : XmlNode) (basematerialsId : Z)
  : M (option material) :=
  s <- get ;;
  let nodeName := Xml.name node in
  if String.eqb nodeName XmlTag.basematerials_base then
    let name := Xml.as_string (Xml.attribute node XmlTag.basematerials_name) in
    let strId := LibC.to_string basematerialsId in
    let stdMatName := ("id" ++ strId ++ "_")%string in
    let stdMatName :=
      match name with
      | Some name => (stdMatName ++ name)%string
      | None =>
          (stdMatName ++ "basemat_"
             ++ LibC.to_string (to_uint (mMaterialCount s - basematerialsId)))%string
      end in
    let matName := aiString.set stdMatName "" in
    let mat : material :=
      aiMaterial.AddProperty aiMaterial.AI_MATKEY_NAME
                             (aiMaterial.PString matName) [] in
    ret (Some (assignDiffuseColor node mat))
  else ret None.

(** The body of the loop of [ReadBaseMaterials]; [materials] is the local
    vector. *)
Definition ReadBaseMaterials_step (id : Z) (materials : list material_entry)
    (currentNode : XmlNode) : M (list material_entry) :=
  if String.eqb (Xml.name currentNode) XmlTag.basematerials_base then
    s <- get ;;
    mat <- readMaterialDef currentNode id ;;
    modify (fun s => set_mMaterialCount (to_uint (mMaterialCount s + 1)) s) ;;;
    ret (materials ++ [(mMaterialCount s, mat)])
  else ret materials.

Definition ReadBaseMaterials (node : XmlNode) : M unit :=
  let baseMaterialId :=
    Xml.as_string (Xml.attribute node XmlTag.basematerials_id) in
  match baseMaterialId with
  | Some baseMaterialId =>
      let id := to_uint (LibC.atoi baseMaterialId) in
      materials <- for_each (ReadBaseMaterials_step id) (Xml.children node) [] ;;
      modify (fun s =>
        set_mBasematerialsDictionnary
          (StdMap.insert id materials (mBasematerialsDictionnary s)) s)
  | None => ret tt
  end.

(** *** Metadata *)

Definition ReadMetadata (node : XmlNode) : M unit :=
  let name := Xml.as_std_string (Xml.attribute node XmlTag.meta_name) in
  let value := Xml.value node in
  if String.eqb name "" then ret tt
  else modify (fun s => set_mMetaData (mMetaData s ++ [mkMetaEntry name value]) s).

(** *** Geometry *)

Definition ReadVertex (node : XmlNode) : aiVector3D.t ai_real :=
  aiVector3D.mk
    (ai_strtof (Xml.as_std_string (Xml.attribute node XmlTag.x)))
    (ai_strtof (Xml.as_std_string (Xml.attribute node XmlTag.y)))
    (ai_strtof (Xml.as_std_string (Xml.attribute node XmlTag.z))).

Definition ImportVertices (node : XmlNode) (m : mesh) : M mesh :=
  let vertices :=
    map ReadVertex
        (filter (fun c => String.eqb (Xml.name c) XmlTag.vertex) (Xml.children node)) in
  let n := to_uint (size vertices) in
  a <- lift (StdVector.copy_to_new_array n vertices) ;;
  ret (aiMesh.set_vertices n a m).

Definition ReadTriangle (node : XmlNode) : aiFace.t :=
  let index a := to_uint (LibC.atoi (Xml.as_std_string (Xml.attribute node a))) in
  aiFace.mk 3 [index XmlTag.v1; index XmlTag.v2; index XmlTag.v3].

(** The material reference of one triangle: the [if] inside the loop of
    [ImportTriangles]. *)
Definition triangle_material (currentNode : XmlNode) (m : mesh) : M mesh :=
  let pidToken := Xml.as_string (Xml.attribute currentNode XmlTag.pid) in
  let p1Token := Xml.as_string (Xml.attribute currentNode XmlTag.p1) in
  match pidToken, p1Token with
  | Some pidToken, Some p1Token =>
      s <- get ;;
      if dictionnary_has (to_uint (LibC.atoi pidToken)) s then
        let pid := LibC.atoi pidToken in
        let p1 := LibC.atoi p1Token in
        group <- dictionnary_subscript (to_uint pid) ;;
        entry <- lift (StdVector.at_int group p1) ;;
        ret (aiMesh.set_mMaterialIndex (fst entry) m)
      else ret m
  | _, _ => ret m
  end.

(** The body of the loop of [ImportTriangles]; the locals are [faces] and
    the mesh behind the pointer. *)
Definition ImportTriangles_step (st : list aiFace.t * mesh) (currentNode : XmlNode)
  : M (list aiFace.t * mesh) :=
  let '(faces, m) := st in
  if String.eqb (Xml.name currentNode) XmlTag.triangle then
    let faces := faces ++ [ReadTriangle currentNode] in
    m <- triangle_material currentNode m ;;
    ret (faces, m)
  else ret (faces, m).

Definition ImportTriangles (node : XmlNode) (m : mesh) : M mesh :=
  st <- for_each ImportTriangles_step (Xml.children node) ([], m) ;;
  let '(faces, m) := st in
  let n := to_uint (size faces) in
  a <- lift (StdVector.copy_to_new_array n faces) ;;
  ret (aiMesh.set_faces n a aiPrimitiveType_TRIANGLE m).

Definition ReadMesh_step (m : mesh) (currentNode : XmlNode) : M mesh :=
  let currentName := Xml.name currentNode in
  if String.eqb currentName XmlTag.vertices then ImportVertices currentNode m
  else if String.eqb currentName XmlTag.triangles then ImportTriangles currentNode m
  else ret m.

Definition ReadMesh (node : XmlNode) : M mesh :=
  for_each ReadMesh_step (Xml.children node) new_aiMesh.

(** *** Objects *)

(** The material reference of the object, applied to a mesh that [ReadMesh]
    returned: the [if] inside the loop of [ReadObject]. *)
Definition object_material (hasPid hasPindex : bool) (pid pindex : string)
    (m : mesh) : M mesh :=
  s <- get ;;
  if hasPid && hasPindex && dictionnary_has (to_uint (LibC.atoi pid)) s then
    let iPid := LibC.atoi pid in
    let iPindex := LibC.atoi pindex in
    group <- dictionnary_subscript (to_uint iPid) ;;
    entry <- lift (StdVector.at_int group iPindex) ;;
    ret (aiMesh.set_mMaterialIndex (fst entry) m)
  else ret m.

(** The body of the loop of [ReadObject]; the locals are [meshIds] and
    [meshIdx]. *)
Definition ReadObject_step (id : string) (hasPid hasPindex : bool)
    (pid pindex : string) (st : list Z * Z) (currentNode : XmlNode)
  : M (list Z * Z) :=
  let '(meshIds, meshIdx) := st in
  if String.eqb (Xml.name currentNode) XmlTag.mesh then
    m <- ReadMesh currentNode ;;
    let m := aiMesh.set_mName (aiString.set id (aiMesh.mName m)) m in
    m <- object_material hasPid hasPindex pid pindex m ;;
    modify (fun s => set_mMeshes (mMeshes s ++ [m]) s) ;;;
    ret (meshIds ++ [meshIdx], meshIdx + 1)
  else ret (meshIds, meshIdx).

(** The result is the node pointer, [None] for [nullptr]. *)
Definition ReadObject (node : XmlNode) (sc : scene) : M (option aiNode.t) :=
  let nodePtr := new_aiNode in
  let '(hasId, id) := getNodeAttribute node XmlTag.id "" in
  let '(hasPid, pid) := getNodeAttribute node XmlTag.pid "" in
  let '(hasPindex, pindex) := getNodeAttribute node XmlTag.pindex "" in
  if negb hasId then ret None
  else
    let parent :=
      match aiScene.mRootNode sc with
      | Some _ => Some aiNode.SceneRoot
      | None => None
      end in
    let nodePtr := aiNode.set_mParent parent nodePtr in
    let nodePtr := aiNode.set_mName (aiString.set id (aiNode.mName nodePtr)) nodePtr in
    s <- get ;;
    let meshIdx := to_size_t (size (mMeshes s)) in
    st <- for_each (ReadObject_step id hasPid hasPindex pid pindex)
                   (Xml.children node) ([], meshIdx) ;;
    let '(meshIds, _) := st in
    let n := to_uint (size meshIds) in
    a <- lift (StdVector.copy_to_new_array n (map to_uint meshIds)) ;;
    ret (Some (aiNode.set_meshes n a nodePtr)).

(** *** The scene *)

(** The dispatch on the tag name inside the loop of [ImportXml]; the local is
    [children]. *)
Definition ImportXml_step (sc : scene) (children : list (option aiNode.t))
    (currentNode : XmlNode) : M (list (option aiNode.t)) :=
  let currentNodeName := Xml.name currentNode in
  if String.eqb currentNodeName XmlTag.object then
    n <- ReadObject currentNode sc ;;
    ret (children ++ [n])
  else if String.eqb currentNodeName XmlTag.build then ret children
  else if String.eqb currentNodeName XmlTag.basematerials then
    ReadBaseMaterials currentNode ;;;
    ret children
  else if String.eqb currentNodeName XmlTag.meta then
    ReadMetadata currentNode ;;;
    ret children
  else ret children.

(** [for (size_t i = 0; i < numMeta; ++i) scene->mMetaData->Set(i, ...)] *)
Fixpoint import_metadata (i : Z) (l : list MetaEntry) (t : aiMetadata.t)
  : aiMetadata.t :=
  match l with
  | [] => t
  | e :: l' =>
      import_metadata (i + 1) l'
        (aiMetadata.set (to_uint i) (name e) (aiString.of_string (value e)) t)
  end.

Fixpoint write_slot {A} (i : nat) (x : A) (l : list (option A)) : list (option A) :=
  match l, i with
  | [], _ => []
  | _ :: l', O => Some x :: l'
  | y :: l', S i' => y :: write_slot i' x l'
  end.

(** [scene->mMaterials[e.first] = e.second] *)
Definition install_material (arr : list (option (option material)))
    (e : material_entry) : result (list (option (option material))) :=
  if fst e <? size arr then Ok (write_slot (Z.to_nat (fst e)) (snd e) arr)
  else OutOfBounds.

Fixpoint install_entries (arr : list (option (option material)))
    (group : list material_entry) : result (list (option (option material))) :=
  match group with
  | [] => Ok arr
  | e :: group' =>
      match install_material arr e with
      | Ok arr' => install_entries arr' group'
      | OutOfBounds => OutOfBounds
      | Diverges => Diverges
      end
  end.

(** The inner loop, whose counter is an [unsigned int]. *)
Definition install_group (arr : list (option (option material)))
    (group : list material_entry) : result (list (option (option material))) :=
  match install_entries arr group with
  | Ok arr' => if size group <? UINT_MOD then Ok arr' else Diverges
  | OutOfBounds => OutOfBounds
  | Diverges => Diverges
  end.

(** The outer loop, over the dictionary in key order. *)
Fixpoint install_groups (arr : list (option (option material)))
    (d : StdMap.t (list material_entry)) : result (list (option (option material))) :=
  match d with
  | [] => Ok arr
  | (_, group) :: d' =>
      match install_group arr group with
      | Ok arr' => install_groups arr' d'
      | OutOfBounds => OutOfBounds
      | Diverges => Diverges
      end
  end.

Definition update_root (f : aiNode.t -> aiNode.t) (sc : scene) : scene :=
  match aiScene.mRootNode sc with
  | Some root => aiScene.set_mRootNode (Some (f root)) sc
  | None => sc
  end.

(** The argument is the scene pointer, [None] for [nullptr]; the result is
    the scene it points to afterwards. *)
Definition ImportXml (sc : option scene) : M (option scene) :=
  match sc with
  | None => ret None
  | Some sc =>
      let sc := aiScene.set_mRootNode (Some new_aiNode) sc in
      s <- get ;;
      let node := Xml.child (Some (mXmlParser s)) "model" in
      match node with
      | None => ret (Some sc)
      | Some _ =>
          let resNode := Xml.child node "resources" in
          children <- for_each (ImportXml_step sc) (Xml.child_nodes resNode) [] ;;
          let sc :=
            update_root (fun root =>
              if String.length (aiNode.mName root) =? 0
              then aiNode.set_mName (aiString.set "3MF" (aiNode.mName root)) root
              else root)%nat sc in
          s <- get ;;
          (* import the metadata *)
          let sc :=
            match mMetaData s with
            | [] => sc
            | _ :: _ =>
                let numMeta := to_size_t (size (mMetaData s)) in
                aiScene.set_mMetaData
                  (Some (import_metadata 0 (mMetaData s)
                           (aiMetadata.Alloc (to_uint numMeta)))) sc
            end in
          (* import the meshes *)
          let numMeshes := to_uint (size (mMeshes s)) in
          meshes <- lift (StdVector.copy_to_new_array numMeshes (mMeshes s)) ;;
          let sc := aiScene.set_meshes numMeshes meshes sc in
          (* import the materials *)
          let sc := aiScene.set_mNumMaterials (to_uint (mMaterialCount s)) sc in
          materials <-
            (if negb (0 =? aiScene.mNumMaterials sc) then
               a <- lift (install_groups
                            (repeat None (Z.to_nat (aiScene.mNumMaterials sc)))
                            (mBasematerialsDictionnary s)) ;;
               ret a
             else ret (aiScene.mMaterials sc)) ;;
          let sc := aiScene.set_mMaterials materials sc in
          (* create the scene-graph *)
          let numChildren := to_uint (size children) in
          a <- lift (StdVector.copy_to_new_array numChildren children) ;;
          ret (Some (update_root (aiNode.set_children numChildren a) sc))
      end
  end.

End Serializer.

End D3MF.

Import D3MF.

(** ** An instance to run the importer on

    [ai_real] is read as the rationals, so that [/] is exact; [ai_strtof]
    keeps the integral part of its text.  The default constructors of
    [aiColor4D], [aiMesh] and [aiNode] value-initialise every member. *)

Definition QEnv : AssimpEnv Q := {|
  real_of_long := inject_Z;
  real_div := Qdiv;
  real_255 := 255%Q;
  ai_strtof := fun s => inject_Z (LibC.strtol s 10);
  new_aiColor4D := aiColor4D.mk 0%Q 0%Q 0%Q 0%Q;
  new_aiMesh := aiMesh.mk "" 0 [] 0 [] 0 0;
  new_aiNode := aiNode.mk "" None 0 [] 0 []
|}.
#[local] Existing Instance QEnv.

(** A scene as [new aiScene()] leaves it. *)
Definition blank_scene {R} : aiScene.t R := aiScene.mk None None 0 [] 0 [].

Module Sample.

Definition elem (tag : string) (attrs : list (string * string))
    (children : list XmlNode) : XmlNode :=
  Node tag attrs "" children.

Definition document (resources : list XmlNode) : XmlNode :=
  Node "" [] "" [elem "model" [] [elem "resources" [] resources]].

Definition base (nm : string) : XmlNode := elem "base" [("name", nm)] [].

Definition triangle (attrs : list (string * string)) : XmlNode :=
  elem "triangle" ([("v1", "0"); ("v2", "1"); ("v3", "2")] ++ attrs) [].

Definition mesh_of (triangles : list XmlNode) : XmlNode :=
  elem "mesh" []
    [elem "vertices" []
       [elem "vertex" [("x", "0"); ("y", "0"); ("z", "0")] [];
        elem "vertex" [("x", "1"); ("y", "0"); ("z", "0")] [];
        elem "vertex" [("x", "0"); ("y", "1"); ("z", "0")] []];
     elem "triangles" [] triangles].

(** [InternReadFile] on a parsed document: a fresh serializer, a fresh
    scene. *)
Definition import (doc : XmlNode) :=
  @ImportXml Q QEnv (Some blank_scene) (new_XmlSerializer doc).

(** The material index of every mesh of the imported scene. *)
Definition material_indices (doc : XmlNode) : result (list Z) :=
  match import doc with
  | Ok (Some sc, _) => Ok (map aiMesh.mMaterialIndex (aiScene.mMeshes sc))
  | Ok (None, _) => Ok []
  | OutOfBounds => OutOfBounds
  | Diverges => Diverges
  end.

(** The scenario of the specification: one red material, one triangle. *)
Definition red_triangle : XmlNode :=
  document
    [elem "basematerials" [("id", "1")]
       [elem "base" [("name", "Red"); ("displaycolor", "#FF0000")] []];
     elem "object" [("id", "1"); ("pid", "1"); ("pindex", "0")]
       [mesh_of [triangle []]]].

End Sample.

(** ** What the specification calls a valid colour string *)

(** The value of a hexadecimal digit: its place among the sixteen digits,
    in lower or in upper case. *)
Fixpoint place (c : ascii) (digits : string) (i : Z) : option Z :=
  match digits with
  | EmptyString => None
  | String d digits' => if Ascii.eqb c d then Some i else place c digits' (i + 1)
  end.

Definition hex_digit (c : ascii) : option Z :=
  match place c "0123456789abcdef" 0 with
  | Some v => Some v
  | None => place c "0123456789ABCDEF" 0
  end.

Definition is_hex (c : ascii) : bool :=
  match hex_digit c with Some _ => true | None => false end.

Fixpoint all_hex (s : string) : bool :=
  match s with
  | String c s' => is_hex c && all_hex s'
  | EmptyString => true
  end.

(** ["#RRGGBB"] or ["#RRGGBBAA"]. *)
Definition is_color (s : string) : bool :=
  match s with
  | String "#" digits =>
      all_hex digits
      && ((String.length digits =? 6)%nat || (String.length digits =? 8)%nat)
  | _ => false
  end.

(** The byte that the two hexadecimal digits at [i] and [i + 1] denote. *)
Definition byte_at (s : string) (i : nat) : Z :=
  match hex_digit (LibC.char_at s i), hex_digit (LibC.char_at s (S i)) with
  | Some h, Some l => 16 * h + l
  | _, _ => 0
  end.

(** ** The material indices that a sequence of groups is given *)

(** The number of [base] children: the members of the group. *)
Definition base_count (node : XmlNode) : nat :=
  List.length
    (filter (fun c => String.eqb (Xml.name c) XmlTag.basematerials_base)
            (Xml.children node)).

(** The key under which [ReadBaseMaterials] files the group. *)
Definition group_id (node : XmlNode) : Z :=
  to_uint (LibC.atoi (Xml.as_std_string (Xml.attribute node XmlTag.basematerials_id))).

(** The local vector [materials] at the end of the loop of
    [ReadBaseMaterials]. *)
Definition declared_materials {ai_real : Type} {E : AssimpEnv ai_real}
    (node : XmlNode) (s : @XmlSerializer ai_real)
  : list (@material_entry ai_real) :=
  match for_each (ReadBaseMaterials_step (group_id node)) (Xml.children node) [] s with
  | Ok (materials, _) => materials
  | _ => []
  end.

(** [ReadBaseMaterials] on each group in turn: the global indices given to
    the members of each group, and the serializer afterwards. *)
Fixpoint read_groups {ai_real : Type} {E : AssimpEnv ai_real}
    (groups : list XmlNode) (s : @XmlSerializer ai_real)
  : list (list Z) * @XmlSerializer ai_real :=
  match groups with
  | [] => ([], s)
  | g :: groups' =>
      match ReadBaseMaterials g s with
      | Ok (_, s1) =>
          let '(rest, s2) := read_groups groups' s1 in
          (map fst (declared_materials g s) :: rest, s2)
      | _ => ([], s)
      end
  end.

(** [c], [c + 1], ... : [n] consecutive values of the counter. *)
Fixpoint counter_values (c : Z) (n : nat) : list Z :=
  match n with
  | O => []
  | S n' => c :: counter_values (c + 1) n'
  end.

(** ** Further notions that the statements use *)

(** The 256 characters. *)
Definition all_ascii : list ascii := map ascii_of_nat (seq 0 256).

(** Whether [strtol] in base 16 reads a pair of hexadecimal digits as the
    byte they denote. *)
Definition hex_pair_agrees (c1 c2 : ascii) : bool :=
  match hex_digit c1, hex_digit c2 with
  | Some h, Some l =>
      LibC.strtol (String c1 (String c2 EmptyString)) 16 =? 16 * h + l
  | _, _ => true
  end.

(** No meshes, no materials, no metadata. *)
Definition scene_is_empty {R} (sc : aiScene.t R) : Prop :=
  aiScene.mMetaData sc = None
  /\ aiScene.mNumMeshes sc = 0 /\ aiScene.mMeshes sc = []
  /\ aiScene.mNumMaterials sc = 0 /\ aiScene.mMaterials sc = [].

(** The test of the loop of [ReadBaseMaterials]. *)
Definition is_base (c : XmlNode) : bool :=
  String.eqb (Xml.name c) XmlTag.basematerials_base.

(** The number of [base] nodes among siblings. *)
Definition members (cs : list XmlNode) : nat := List.length (filter is_base cs).

(** The number of [base] nodes in a sequence of groups. *)
Definition total_members (groups : list XmlNode) : nat :=
  list_sum (map base_count groups).

(** The test of the loop of [ReadObject]. *)
Definition is_mesh (c : XmlNode) : bool := String.eqb (Xml.name c) XmlTag.mesh.

(** The number of [mesh] children of an object. *)
Definition mesh_children (node : XmlNode) : nat :=
  List.length (filter is_mesh (Xml.children node)).

(** The values of a counter that starts at [c], cut into blocks of the given
    sizes. *)
Fixpoint consecutive_blocks (c : Z) (sizes : list nat) : list (list Z) :=
  match sizes with
  | [] => []
  | n :: sizes' => counter_values c n :: consecutive_blocks (c + Z.of_nat n) sizes'
  end.

Section Notions.
Context {ai_real : Type} {E : AssimpEnv ai_real}.

(** The byte at [i] divided by [255.0]. *)
Definition channel (color : string) (i : nat) : ai_real :=
  real_div (real_of_long (byte_at color i)) real_255.

(** What a reference [pid], [p1] does to a mesh, given the dictionary: the
    common content of the two [if] statements, in [ImportTriangles] and in
    [ReadObject]. *)
Definition resolve (d : StdMap.t (list (@material_entry ai_real))) (pid p1 : string)
    (m : aiMesh.t ai_real) : result (aiMesh.t ai_real) :=
  match StdMap.find (to_uint (LibC.atoi pid)) d with
  | Some group =>
      match StdVector.at_int group (LibC.atoi p1) with
      | Ok entry => Ok (aiMesh.set_mMaterialIndex (fst entry) m)
      | OutOfBounds => OutOfBounds
      | Diverges => Diverges
      end
  | None => Ok m
  end.

(** A computation that only reads the dictionary: its outcome is the same in
    all serializers that hold the same dictionary, and it leaves the
    serializer as it found it. *)
Definition reads_dictionary {A} (m : @M ai_real A) : Prop :=
  forall s : @XmlSerializer ai_real, exists r : result A,
    forall s2, mBasematerialsDictionnary s2 = mBasematerialsDictionnary s ->
               m s2 = lift r s2.

End Notions.

(** ** Sample documents *)

Module DictionarySamples.
Import Sample.

Definition two_members : XmlNode :=
  elem "basematerials" [("id", "1")] [base "A"; base "B"].

Definition three_members : XmlNode :=
  elem "basematerials" [("id", "2")] [base "C"; base "D"; base "E"].

Definition first_declaration : XmlNode :=
  elem "basematerials" [("id", "1")] [base "A"].

Definition second_declaration : XmlNode :=
  elem "basematerials" [("id", "1")] [base "B"].

Definition fresh : @XmlSerializer Q := new_XmlSerializer (document []).

(** The serializer that a member function leaves behind. *)
Definition after {A} (r : result (A * @XmlSerializer Q)) : @XmlSerializer Q :=
  match r with Ok (_, s) => s | _ => fresh end.

Definition declared_once : @XmlSerializer Q :=
  after (ReadBaseMaterials first_declaration fresh).

Definition declared_twice : @XmlSerializer Q :=
  after (ReadBaseMaterials second_declaration declared_once).

End DictionarySamples.

Module ReferenceSamples.
Import Sample.

Definition material_A : aiMaterial.t Q :=
  [(aiMaterial.AI_MATKEY_NAME, aiMaterial.PString "id1_A")].
Definition material_B : aiMaterial.t Q :=
  [(aiMaterial.AI_MATKEY_NAME, aiMaterial.PString "id1_B")].

(** Group 1 with members "A" and "B": global indices 0 and 1. *)
Definition group_1 : XmlNode :=
  elem "basematerials" [("id", "1")] [base "A"; base "B"].

Definition entry_A : @material_entry Q := (0, Some material_A).
Definition entry_B : @material_entry Q := (1, Some material_B).

Definition group_1_entries : list (@material_entry Q) := [entry_A; entry_B].

(** The serializer once [group_1] has been read. *)
Definition declared : @XmlSerializer Q :=
  DictionarySamples.after (ReadBaseMaterials group_1 DictionarySamples.fresh).

(** A mesh whose one triangle refers to member 1 of group 1. *)
Definition mesh_p1_1 : XmlNode := mesh_of [triangle [("pid", "1"); ("p1", "1")]].

(** An object that refers to member 0 of group 1 and owns that mesh. *)
Definition object_pindex_0 : XmlNode :=
  elem "object" [("id", "7"); ("pid", "1"); ("pindex", "0")] [mesh_p1_1].

Definition object_over_triangle : XmlNode := document [group_1; object_pindex_0].

(** The material index that the triangles of a mesh leave, before the object
    is consulted. *)
Definition triangle_assigned (mesh_node : XmlNode) (s : @XmlSerializer Q)
  : option Z :=
  match ReadMesh mesh_node s with
  | Ok (m, _) => Some (aiMesh.mMaterialIndex m)
  | _ => None
  end.

(** The mesh that [ReadMesh] returns for [mesh_p1_1]. *)
Definition mesh_read : aiMesh.t Q :=
  match @ReadMesh Q QEnv mesh_p1_1 declared with
  | Ok (m, _) => m
  | _ => @new_aiMesh Q QEnv
  end.

(** Two groups, so that the only member of group 1 has global index 1. *)
Definition group_2_then_1 : list XmlNode :=
  [elem "basematerials" [("id", "2")] [base "A"];
   elem "basematerials" [("id", "1")] [base "B"]].

(** A triangle with [pid] and without [p1]. *)
Definition triangle_no_p1 : XmlNode := triangle [("pid", "1")].

Definition pid_without_p1 : XmlNode :=
  document (group_2_then_1
            ++ [elem "object" [("id", "7")] [mesh_of [triangle_no_p1]]]).

(** Two groups, the second with id 0, and a triangle with neither [pid] nor
    [p1]. *)
Definition group_5_then_0 : list XmlNode :=
  [elem "basematerials" [("id", "5")] [base "A"];
   elem "basematerials" [("id", "0")] [base "B"]].

Definition triangle_plain : XmlNode := triangle [].

Definition no_reference_group_0 : XmlNode :=
  document (group_5_then_0
            ++ [elem "object" [("id", "7")] [mesh_of [triangle_plain]]]).

(** The serializers once those groups have been read. *)
Definition declared_2_then_1 : @XmlSerializer Q :=
  snd (read_groups group_2_then_1 DictionarySamples.fresh).
Definition declared_5_then_0 : @XmlSerializer Q :=
  snd (read_groups group_5_then_0 DictionarySamples.fresh).

(** A triangle that refers to position 5 of group 1, which has 2 members. *)
Definition triangle_p1_5 : XmlNode := triangle [("pid", "1"); ("p1", "5")].

Definition triangle_out_of_range : XmlNode :=
  document [group_1; elem "object" [("id", "7")] [mesh_of [triangle_p1_5]]].

(** An object that refers to position 5 of group 1. *)
Definition object_out_of_range : XmlNode :=
  document [group_1;
            elem "object" [("id", "7"); ("pid", "1"); ("pindex", "5")]
                 [mesh_of [triangle []]]].

(** An object without [id], followed by an object with one. *)
Definition object_without_id : XmlNode :=
  document [elem "object" [] [mesh_of [triangle []]];
            elem "object" [("id", "7")] [mesh_of [triangle []]]].

(** [mNumChildren] of the root, and the name of each entry of [mChildren],
    [None] for a null entry. *)
Definition root_children (doc : XmlNode) : option (Z * list (option string)) :=
  match import doc with
  | Ok (Some sc, _) =>
      match aiScene.mRootNode sc with
      | Some root =>
          Some (aiNode.mNumChildren root,
                map (option_map aiNode.mName) (aiNode.mChildren root))
      | None => None
      end
  | _ => None
  end.

(** The names of the meshes of the imported scene. *)
Definition mesh_names (doc : XmlNode) : option (list string) :=
  match import doc with
  | Ok (Some sc, _) => Some (map aiMesh.mName (aiScene.mMeshes sc))
  | _ => None
  end.

End ReferenceSamples.

(** ** Notions for the geometry, the walk and the assembly *)

(** The tests of the loops of [ImportTriangles] and [ImportVertices]. *)
Definition is_triangle (c : XmlNode) : bool :=
  String.eqb (Xml.name c) XmlTag.triangle.

Definition is_vertex (c : XmlNode) : bool :=
  String.eqb (Xml.name c) XmlTag.vertex.

(** The faces and the vertices that the children of a node spell out, in
    document order. *)
Definition faces_of (node : XmlNode) : list aiFace.t :=
  map ReadTriangle (filter is_triangle (Xml.children node)).

Definition vertices_of {ai_real : Type} {E : AssimpEnv ai_real} (node : XmlNode)
  : list (aiVector3D.t ai_real) :=
  map ReadVertex (filter is_vertex (Xml.children node)).

(** A face as [ReadTriangle] builds it: three indices, each an
    [unsigned int]. *)
Definition is_triangle_face (f : aiFace.t) : Prop :=
  aiFace.mNumIndices f = 3
  /\ List.length (aiFace.mIndices f) = 3%nat
  /\ Forall (fun i => 0 <= i < UINT_MOD) (aiFace.mIndices f).

(** Two meshes that differ at most in their material index. *)
Definition same_geometry {R} (m1 m2 : aiMesh.t R) : Prop :=
  m2 = aiMesh.set_mMaterialIndex (aiMesh.mMaterialIndex m2) m1.

(** The last of the siblings that carries a given tag. *)
Definition last_child (tag : string) (cs : list XmlNode) : option XmlNode :=
  List.find (fun c => String.eqb (Xml.name c) tag) (rev cs).

Section MeshNotions.
Context {ai_real : Type} {E : AssimpEnv ai_real}.

(** What the loop of [ReadMesh] leaves in the mesh, read off the last
    [vertices] child and the last [triangles] child. *)
Definition vertices_from (cs : list XmlNode) (m0 m : aiMesh.t ai_real) : Prop :=
  match last_child XmlTag.vertices cs with
  | Some v =>
      aiMesh.mVertices m = vertices_of v
      /\ aiMesh.mNumVertices m = Z.of_nat (List.length (vertices_of v))
  | None =>
      aiMesh.mVertices m = aiMesh.mVertices m0
      /\ aiMesh.mNumVertices m = aiMesh.mNumVertices m0
  end.

Definition faces_from (cs : list XmlNode) (m0 m : aiMesh.t ai_real) : Prop :=
  match last_child XmlTag.triangles cs with
  | Some t =>
      aiMesh.mFaces m = faces_of t
      /\ aiMesh.mNumFaces m = Z.of_nat (List.length (faces_of t))
      /\ aiMesh.mPrimitiveTypes m = aiPrimitiveType_TRIANGLE
  | None =>
      aiMesh.mFaces m = aiMesh.mFaces m0
      /\ aiMesh.mNumFaces m = aiMesh.mNumFaces m0
      /\ aiMesh.mPrimitiveTypes m = aiMesh.mPrimitiveTypes m0
  end.

End MeshNotions.

From Stdlib Require Import Permutation.

Section SerializerNotions.
Context {ai_real : Type} {E : AssimpEnv ai_real}.

(** The global indices held in a dictionary, group by group in key order. *)
Definition dictionary_indices (d : StdMap.t (list (@material_entry ai_real)))
  : list Z :=
  List.concat (map (fun kv => map fst (snd kv)) d).

(** The counter is an [unsigned int], and the global indices held in the
    dictionary are pairwise distinct values below the counter. *)
Definition dictionary_ok (s : @XmlSerializer ai_real) : Prop :=
  0 <= mMaterialCount s < UINT_MOD
  /\ NoDup (dictionary_indices (mBasematerialsDictionnary s))
  /\ Forall (fun i => 0 <= i < mMaterialCount s)
            (dictionary_indices (mBasematerialsDictionnary s)).

(** A material index that is the one of a new mesh, or a slot below [n]. *)
Definition material_index_ok (n : Z) (m : aiMesh.t ai_real) : Prop :=
  aiMesh.mMaterialIndex m = aiMesh.mMaterialIndex new_aiMesh
  \/ 0 <= aiMesh.mMaterialIndex m < n.

(** The material index of a mesh is the one it started with, or one of the
    dictionary. *)
Definition index_from (s : @XmlSerializer ai_real) (m0 m : aiMesh.t ai_real)
  : Prop :=
  aiMesh.mMaterialIndex m = aiMesh.mMaterialIndex m0
  \/ In (aiMesh.mMaterialIndex m)
        (dictionary_indices (mBasematerialsDictionnary s)).

End SerializerNotions.

(** ** Notions for the walk over the resources *)

(** The tags on which the loop of [ImportXml] dispatches. *)
Definition is_object (c : XmlNode) : bool := String.eqb (Xml.name c) XmlTag.object.

Definition is_basematerials (c : XmlNode) : bool :=
  String.eqb (Xml.name c) XmlTag.basematerials.

Definition is_meta (c : XmlNode) : bool := String.eqb (Xml.name c) XmlTag.meta.

(** The [name] attribute of a [metadata] node, as [ReadMetadata] reads it. *)
Definition meta_name_of (c : XmlNode) : string :=
  Xml.as_std_string (Xml.attribute c XmlTag.meta_name).

(** The entries that the [metadata] nodes among siblings contribute: those
    with a name that is not empty, in document order. *)
Definition meta_entries (nodes : list XmlNode) : list MetaEntry :=
  map (fun c => mkMetaEntry (meta_name_of c) (Xml.value c))
      (filter (fun c => is_meta c && negb (String.eqb (meta_name_of c) "")) nodes).

(** The number of [base] members in the [basematerials] nodes among
    siblings. *)
Definition walk_members (nodes : list XmlNode) : nat :=
  total_members (filter is_basematerials nodes).

(** A node whose mesh indices are positions below [k], as many as its mesh
    count says. *)
Definition node_refs_ok (k : Z) (n : aiNode.t) : Prop :=
  aiNode.mNumMeshes n = size (aiNode.mMeshes n)
  /\ Forall (fun i => 0 <= i < k) (aiNode.mMeshes n).

(** The same for every entry of a [children] vector that is not null. *)
Definition children_refs_ok (k : Z) (children : list (option aiNode.t)) : Prop :=
  Forall (fun c => match c with Some n => node_refs_ok k n | None => True end)
         children.

(** ** Notions for the assembly of the scene *)

Section AssemblyNotions.
Context {ai_real : Type} {E : AssimpEnv ai_real}.

(** The root node at the end of [ImportXml]: a new node, named "3MF" when
    it had no name, with the children. *)
Definition assembled_root (children : list (option aiNode.t)) : aiNode.t :=
  aiNode.set_children (size children) children
    (if (String.length (aiNode.mName new_aiNode) =? 0)%nat
     then aiNode.set_mName (aiString.set "3MF" (aiNode.mName new_aiNode)) new_aiNode
     else new_aiNode).

(** The metadata table of the scene for the entries of the serializer. *)
Definition assembled_metadata (entries : list MetaEntry)
    (before : option aiMetadata.t) : option aiMetadata.t :=
  match entries with
  | [] => before
  | _ :: _ =>
      Some (import_metadata 0 entries
              (aiMetadata.Alloc (to_uint (to_size_t (size entries)))))
  end.

(** The resources that [ImportXml] walks over. *)
Definition resources_of (doc : XmlNode) : list XmlNode :=
  Xml.child_nodes (Xml.child (Xml.child (Some doc) "model") "resources").

End AssemblyNotions.


(** ** Notions for triangles, colours and materials *)

Section ReferenceNotions.
Context {ai_real : Type} {E : AssimpEnv ai_real}.

(** The key under which a triangle looks its group up: [atoi] of its [pid]
    text, the empty text when the attribute is missing. *)
Definition triangle_group (c : XmlNode) : Z :=
  to_uint (LibC.atoi (Xml.as_std_string (Xml.attribute c XmlTag.pid))).

(** The position inside the group that a triangle asks for. *)
Definition triangle_position (c : XmlNode) : Z :=
  LibC.atoi (Xml.as_std_string (Xml.attribute c XmlTag.p1)).

(** A node that is no triangle, or a triangle whose group is not in the
    dictionary. *)
Definition no_declared_reference (s : @XmlSerializer ai_real) (c : XmlNode)
  : Prop :=
  is_triangle c = true ->
  StdMap.find (triangle_group c) (mBasematerialsDictionnary s) = None.

(** The reference of a node stays inside the vector that it indexes: its
    group is not in the dictionary, or its position, converted to
    [size_t], is below the size of the group. *)
Definition reference_in_bounds (s : @XmlSerializer ai_real) (c : XmlNode)
  : Prop :=
  match StdMap.find (triangle_group c) (mBasematerialsDictionnary s) with
  | Some group => to_size_t (triangle_position c) < size group
  | None => True
  end.

(** The material that [readMaterialDef] builds for a [base] node of group
    [id]: the name "id<id>_<name>", then the diffuse colour if
    [displaycolor] parses. *)
Definition material_of (id : Z) (c : XmlNode) : aiMaterial.t ai_real :=
  assignDiffuseColor c
    [(aiMaterial.AI_MATKEY_NAME,
      aiMaterial.PString
        (aiString.set
           (("id" ++ LibC.to_string id ++ "_")
              ++ Xml.as_std_string (Xml.attribute c XmlTag.basematerials_name))%string
           ""))].

(** The text of [displaycolor], the empty text when the attribute is
    missing. *)
Definition displaycolor_of (c : XmlNode) : string :=
  Xml.as_std_string (Xml.attribute c XmlTag.basematerials_displaycolor).

(** What [parseColor] looks at before it accepts a string. *)
Definition color_shape (color : string) : bool :=
  ((LibC.strlen color =? 7) || (LibC.strlen color =? 9))
  && match String.get 0 color with
     | Some c => Ascii.eqb c "#"
     | None => false
     end.

End ReferenceNotions.

(** The tags that the loop of [ImportXml] acts on. *)
Definition is_resource (c : XmlNode) : bool :=
  is_object c || is_basematerials c || is_meta c.

(** ** Notions for the contents of the scene *)

(** The [mesh] children of an object, each with the id of the object; an
    object without [id] contributes none. *)
Definition object_meshes (o : XmlNode) : list (string * XmlNode) :=
  match Xml.attribute o XmlTag.id with
  | Some id => map (pair id) (filter is_mesh (Xml.children o))
  | None => []
  end.

(** The [mesh] nodes of all the objects among [nodes], in document order. *)
Definition mesh_sources (nodes : list XmlNode) : list (string * XmlNode) :=
  flat_map object_meshes (filter is_object nodes).

Section SceneNotions.
Context {ai_real : Type} {E : AssimpEnv ai_real}.

(** The mesh [m] holds what [ReadMesh] reads from the [mesh] node
    [snd src], and is named after the object id [fst src]. *)
Definition mesh_read_from (src : string * XmlNode) (m : aiMesh.t ai_real) : Prop :=
  aiMesh.mName m = aiString.set (fst src) (aiMesh.mName new_aiMesh)
  /\ vertices_from (Xml.children (snd src)) new_aiMesh m
  /\ faces_from (Xml.children (snd src)) new_aiMesh m.

(** The entry [c] of the [children] vector is what [ReadObject] returns for
    the object [o] under a scene with a root: null without [id]; otherwise
    a node named after the id, below the root, with one mesh index per
    [mesh] child and no children of its own. *)
Definition child_of (o : XmlNode) (c : option aiNode.t) : Prop :=
  match Xml.attribute o XmlTag.id, c with
  | Some id, Some n =>
      aiNode.mName n = aiString.set id (aiNode.mName new_aiNode)
      /\ aiNode.mParent n = Some aiNode.SceneRoot
      /\ aiNode.mNumMeshes n = Z.of_nat (mesh_children o)
      /\ aiNode.mNumChildren n = aiNode.mNumChildren new_aiNode
      /\ aiNode.mChildren n = aiNode.mChildren new_aiNode
  | None, None => True
  | _, _ => False
  end.

(** The material index of [m] is the one of a new mesh, or the global
    index of an entry of the dictionary of [s] that is in its slot of
    [materials]. *)
Definition material_installed (s : @XmlSerializer ai_real)
    (materials : list (option (option (aiMaterial.t ai_real))))
    (m : aiMesh.t ai_real) : Prop :=
  aiMesh.mMaterialIndex m = aiMesh.mMaterialIndex new_aiMesh
  \/ exists k group e,
       In (k, group) (mBasematerialsDictionnary s)
       /\ In e group
       /\ aiMesh.mMaterialIndex m = fst e
       /\ nth_error materials (Z.to_nat (aiMesh.mMaterialIndex m))
          = Some (Some (snd e)).

End SceneNotions.

(** ** Sample runs for the geometry, the walk and the assembly *)

Module ExtraSamples.
Import Sample.

(** The value that a member function returned, [dflt] if it did not. *)
Definition value_of {A} (r : result (A * @XmlSerializer Q)) (dflt : A) : A :=
  match r with Ok (a, _) => a | _ => dflt end.

(** Two metadata nodes, one of them without a name; a [build] node; group 1
    with two members, the first with a colour; object "7", which refers to
    member 1 and whose one triangle refers to member 0. *)
Definition resources : list XmlNode :=
  [Node "metadata" [("name", "Title")] "Cube" [];
   Node "metadata" [] "ignored" [];
   elem "build" [] [];
   elem "basematerials" [("id", "1")]
     [elem "base" [("name", "A"); ("displaycolor", "#FF0000")] []; base "B"];
   elem "object" [("id", "7"); ("pid", "1"); ("pindex", "1")]
     [mesh_of [triangle [("pid", "1"); ("p1", "0")]]]].

Definition full : XmlNode := document resources.

Definition start : @XmlSerializer Q := new_XmlSerializer full.

Definition full_run := @ImportXml Q QEnv (Some blank_scene) start.

Definition full_scene : aiScene.t Q :=
  match value_of full_run None with Some sc => sc | None => blank_scene end.

Definition full_state : @XmlSerializer Q := DictionarySamples.after full_run.

(** A [triangles] node: a triangle that refers to member 1, then one that
    refers to member 0, then one without reference to a declared group. *)
Definition referring_last : XmlNode := triangle [("pid", "1"); ("p1", "0")].

Definition triangles_node : XmlNode :=
  elem "triangles" []
    [triangle [("pid", "1"); ("p1", "1")]; referring_last;
     triangle [("pid", "9"); ("p1", "0")]].

Definition triangles_run :=
  @ImportTriangles Q triangles_node (@new_aiMesh Q QEnv) ReferenceSamples.declared.

Definition triangles_mesh : aiMesh.t Q := value_of triangles_run (@new_aiMesh Q QEnv).

(** A mesh node and what [ReadMesh] and [ReadObject] make of it. *)
Definition mesh_node : XmlNode := mesh_of [triangle []; triangle []].

Definition mesh_run := @ReadMesh Q QEnv mesh_node ReferenceSamples.declared.

Definition mesh_read : aiMesh.t Q := value_of mesh_run (@new_aiMesh Q QEnv).

Definition object_node : XmlNode := elem "object" [("id", "7")] [mesh_node; mesh_node].

Definition object_run :=
  @ReadObject Q QEnv object_node blank_scene ReferenceSamples.declared.

Definition object_read : aiNode.t :=
  match value_of object_run None with Some n => n | None => @new_aiNode Q QEnv end.

Definition object_state : @XmlSerializer Q := DictionarySamples.after object_run.

(** Resources without any group: an object that refers to group 1 all the
    same. *)
Definition early_resources : list XmlNode :=
  [elem "object" [("id", "7"); ("pid", "1"); ("pindex", "0")]
     [mesh_of [triangle [("pid", "1"); ("p1", "0")]]]].

Definition early_run :=
  for_each (@ImportXml_step Q QEnv blank_scene) early_resources [] start.

Definition early_children : list (option aiNode.t) := value_of early_run [].

Definition early_state : @XmlSerializer Q := DictionarySamples.after early_run.

(** The walk over the tail of [resources], from the serializer that the
    group has been read into. *)
Definition late_resources : list XmlNode :=
  [elem "basematerials" [("id", "1")] [base "Z"];
   elem "object" [("id", "8")] [mesh_node]].

Definition late_run :=
  for_each (@ImportXml_step Q QEnv blank_scene) late_resources []
           ReferenceSamples.declared.

Definition late_children : list (option aiNode.t) := value_of late_run [].

Definition late_state : @XmlSerializer Q := DictionarySamples.after late_run.

End ExtraSamples.

(** ** The models at work *)

Section Examples.

Example atoi_examples :
  LibC.atoi "12" = 12 /\ LibC.atoi "" = 0 /\ LibC.atoi "  -7x" = -7
  /\ LibC.atoi "abc" = 0 /\ to_uint (LibC.atoi "-1") = 4294967295.
Proof. repeat split. Qed.

Example strtol_examples :
  LibC.strtol "ff" 16 = 255 /\ LibC.strtol "0x" 16 = 0
  /\ LibC.strtol "7G" 16 = 7 /\ LibC.strtol " 1" 16 = 1.
Proof. repeat split. Qed.

Example to_string_examples :
  LibC.to_string 0 = "0" /\ LibC.to_string 120 = "120".
Proof. repeat split. Qed.

Example map_insert_keeps_order :
  StdMap.insert 1 "b" (StdMap.insert 2 "a" (StdMap.insert 1 "c" StdMap.empty))
  = [(1, "c"); (2, "a")].
Proof. reflexivity. Qed.

(** The scenario of the specification: the mesh refers to the slot of the
    one material; an undeclared group leaves the index of a new mesh. *)
Example red_triangle_material :
  Sample.material_indices Sample.red_triangle = Ok [0]
  /\ Sample.material_indices
       (Sample.document
          [Sample.elem "object" [("id", "1")]
             [Sample.mesh_of [Sample.triangle [("pid", "9"); ("p1", "0")]]]])
     = Ok [0].
Proof. split; vm_compute; reflexivity. Qed.

End Examples.

(** ** Lemmas on the library models *)

Section LibraryFacts.

Lemma size_nil {A} : size (@nil A) = 0.
Proof. reflexivity. Qed.

Lemma size_app {A} (l1 l2 : list A) : size (l1 ++ l2) = size l1 + size l2.
Proof. unfold size. rewrite length_app. lia. Qed.

Lemma size_nonneg {A} (l : list A) : 0 <= size l.
Proof. unfold size. lia. Qed.

Lemma to_uint_small z : 0 <= z < UINT_MOD -> to_uint z = z.
Proof. intros H. unfold to_uint. apply Z.mod_small. exact H. Qed.

Lemma to_uint_range z : 0 <= to_uint z < UINT_MOD.
Proof. unfold to_uint, UINT_MOD. apply Z.mod_pos_bound. lia. Qed.

Lemma all_ascii_complete c : In c all_ascii.
Proof.
  unfold all_ascii. rewrite <- (ascii_nat_embedding c).
  apply in_map. apply in_seq. pose proof (nat_ascii_bounded c). lia.
Qed.

Lemma hex_pairs_checked :
  forallb (fun c1 => forallb (hex_pair_agrees c1) all_ascii) all_ascii = true.
Proof. vm_compute. reflexivity. Qed.

(** [strtol] in base 16 on two hexadecimal digits is the byte they denote. *)
Lemma strtol_hex_pair c1 c2 h l :
  hex_digit c1 = Some h -> hex_digit c2 = Some l ->
  LibC.strtol (String c1 (String c2 EmptyString)) 16 = 16 * h + l.
Proof.
  intros H1 H2.
  pose proof hex_pairs_checked as H.
  rewrite forallb_forall in H. specialize (H c1 (all_ascii_complete c1)).
  rewrite forallb_forall in H. specialize (H c2 (all_ascii_complete c2)).
  unfold hex_pair_agrees in H. rewrite H1, H2 in H.
  apply Z.eqb_eq. exact H.
Qed.

End LibraryFacts.

(** ** Colours *)

Section Colours.
Context {ai_real : Type} {E : AssimpEnv ai_real}.

Lemma component_hex color i h l :
  hex_digit (LibC.char_at color i) = Some h ->
  hex_digit (LibC.char_at color (S i)) = Some l ->
  component color i = channel color i.
Proof.
  intros Hh Hl. unfold component, channel, comp_at, byte_at.
  rewrite (strtol_hex_pair _ _ Hh Hl), Hh, Hl. reflexivity.
Qed.

Lemma is_hex_digit c : is_hex c = true -> exists h, hex_digit c = Some h.
Proof.
  unfold is_hex. destruct (hex_digit c) as [h|]; [eauto | discriminate].
Qed.

(** A valid colour string, spelled out character by character. *)
Lemma is_color_inv color :
  is_color color = true ->
  (exists c1 c2 c3 c4 c5 c6,
      color = String "#" (String c1 (String c2 (String c3 (String c4
                (String c5 (String c6 EmptyString))))))
      /\ forallb is_hex [c1; c2; c3; c4; c5; c6] = true)
  \/ (exists c1 c2 c3 c4 c5 c6 c7 c8,
      color = String "#" (String c1 (String c2 (String c3 (String c4
                (String c5 (String c6 (String c7 (String c8 EmptyString))))))))
      /\ forallb is_hex [c1; c2; c3; c4; c5; c6; c7; c8] = true).
Proof.
  unfold is_color. destruct color as [|c0 d]; [discriminate|].
  destruct (Ascii.eqb_spec c0 "#"%char) as [->|Hne].
  2:{ intros H. exfalso.
      destruct c0 as [[] [] [] [] [] [] [] []]; try discriminate H.
      apply Hne. reflexivity. }
  intros H. apply andb_true_iff in H. destruct H as [Hhex Hlen].
  destruct d as [|c1 [|c2 [|c3 [|c4 [|c5 [|c6 d]]]]]]; try discriminate Hlen.
  destruct d as [|c7 d].
  - left. exists c1, c2, c3, c4, c5, c6. split; [reflexivity|].
    simpl in *. exact Hhex.
  - destruct d as [|c8 [|c9 d]]; try discriminate Hlen.
    right. exists c1, c2, c3, c4, c5, c6, c7, c8. split; [reflexivity|].
    simpl in *. exact Hhex.
Qed.

End Colours.

Section ColourClaims.
Context {ai_real : Type} {E : AssimpEnv ai_real}.

Ltac hex_facts H :=
  simpl in H; repeat rewrite andb_true_iff in H;
  repeat match type of H with _ /\ _ => destruct H as [?H0 H] end;
  repeat match goal with
         | Hc : is_hex ?c = true |- _ =>
             let h := fresh "h" in
             destruct (is_hex_digit c Hc) as [h ?]; clear Hc
         end.

(** C5 (amended): for a colour string of the form "#RRGGBB" or "#RRGGBBAA",
    [parseColor] succeeds; red, green and blue are the decoded bytes divided
    by 255.0; alpha is the decoded fourth byte divided by 255.0 in the long
    form, and in the short form it is left as it was in the colour object
    that the caller passed: [parseColor] never assigns it there. *)
Theorem parseColor_valid (color : string) (diffuse : aiColor4D.t ai_real) :
  is_color color = true ->
  parseColor (Some color) diffuse =
    (true,
     aiColor4D.mk (channel color 1) (channel color 3) (channel color 5)
       (if LibC.strlen color =? 7 then aiColor4D.a diffuse else channel color 7)).
Proof.
  intros Hc.
  destruct (is_color_inv color Hc)
    as [(c1 & c2 & c3 & c4 & c5 & c6 & -> & Hhex)
       |(c1 & c2 & c3 & c4 & c5 & c6 & c7 & c8 & -> & Hhex)];
    hex_facts Hhex.
  - unfold parseColor. cbn -[component channel].
    repeat (erewrite component_hex by (cbn -[hex_digit]; eassumption)).
    reflexivity.
  - unfold parseColor. cbn -[component channel].
    repeat (erewrite component_hex by (cbn -[hex_digit]; eassumption)).
    reflexivity.
Qed.

(** C8: a string whose length is neither 7 nor 9, or that does not start
    with '#', makes [parseColor] report failure with the colour object
    untouched, and [assignDiffuseColor] leaves the material as it was: no
    diffuse colour is added. *)
Theorem parseColor_rejects (color : string) (diffuse : aiColor4D.t ai_real) :
  ~ (LibC.strlen color = 7 \/ LibC.strlen color = 9)
  \/ String.get 0 color <> Some "#"%char ->
  parseColor (Some color) diffuse = (false, diffuse)
  /\ forall (node : XmlNode) (mat : aiMaterial.t ai_real),
       Xml.as_string (Xml.attribute node XmlTag.basematerials_displaycolor)
         = Some color ->
       assignDiffuseColor node mat = mat.
Proof.
  intros H.
  assert (Hp : forall d, parseColor (Some color) d = (false, d)).
  { intros d. unfold parseColor.
    destruct (9 =? LibC.strlen color) eqn:H9;
      destruct (7 =? LibC.strlen color) eqn:H7; cbn [negb andb];
      try reflexivity.
    - apply Z.eqb_eq in H9, H7. lia.
    - apply Z.eqb_eq in H9.
      destruct H as [H|H]; [exfalso; apply H; right; lia|].
      unfold LibC.char_at.
      destruct (String.get 0 color) as [c|] eqn:Hg.
      + destruct (Ascii.eqb_spec "#"%char c) as [<-|Hne];
          [exfalso; apply H; reflexivity | reflexivity].
      + reflexivity.
    - apply Z.eqb_eq in H7.
      destruct H as [H|H]; [exfalso; apply H; left; lia|].
      unfold LibC.char_at.
      destruct (String.get 0 color) as [c|] eqn:Hg.
      + destruct (Ascii.eqb_spec "#"%char c) as [<-|Hne];
          [exfalso; apply H; reflexivity | reflexivity].
      + reflexivity. }
  split; [apply Hp|].
  intros node mat Hattr. unfold assignDiffuseColor.
  rewrite Hattr, Hp. reflexivity.
Qed.

End ColourClaims.

(** *** On the rationals *)

(** C5 (as stated) fails: on "#FF0000", with the colour object that
    [assignDiffuseColor] passes (a default-constructed [aiColor4D], all
    zero), [parseColor] succeeds and alpha is 0, not 1.0; the property that
    [assignDiffuseColor] adds carries that alpha. *)
Lemma parseColor_short_alpha_counterexample :
  is_color "#FF0000" = true
  /\ (exists c,
        @parseColor Q QEnv (Some "#FF0000") (@new_aiColor4D Q QEnv) = (true, c)
        /\ ~ (aiColor4D.a c == 1)%Q)
  /\ @assignDiffuseColor Q QEnv
       (Sample.elem "base" [("displaycolor", "#FF0000")] []) []
     = [(aiMaterial.AI_MATKEY_COLOR_DIFFUSE,
         aiMaterial.PColor (aiColor4D.mk (255 # 255) (0 # 255) (0 # 255) 0%Q))].
Proof.
  split; [reflexivity|]. split.
  - eexists. split; [vm_compute; reflexivity|].
    cbn. intros H. discriminate H.
  - vm_compute. reflexivity.
Qed.

(** [parseColor_valid] on "#FF0000", with a colour whose alpha is 1. *)
Lemma parseColor_valid_witness :
  is_color "#FF0000" = true
  /\ @parseColor Q QEnv (Some "#FF0000") (aiColor4D.mk 0%Q 0%Q 0%Q 1%Q) =
       (true,
        aiColor4D.mk (@channel Q QEnv "#FF0000" 1) (@channel Q QEnv "#FF0000" 3)
                     (@channel Q QEnv "#FF0000" 5) 1%Q).
Proof.
  split; [reflexivity|].
  apply (@parseColor_valid Q QEnv "#FF0000" (aiColor4D.mk 0%Q 0%Q 0%Q 1%Q)).
  reflexivity.
Defined.

(** [parseColor_rejects] on "red". *)
Lemma parseColor_rejects_witness :
  @parseColor Q QEnv (Some "red") (@new_aiColor4D Q QEnv) = (false, @new_aiColor4D Q QEnv)
  /\ @assignDiffuseColor Q QEnv (Sample.elem "base" [("displaycolor", "red")] []) []
     = [].
Proof.
  assert (H : ~ (LibC.strlen "red" = 7 \/ LibC.strlen "red" = 9)
              \/ String.get 0 "red" <> Some "#"%char).
  { left. vm_compute. intros [H|H]; discriminate H. }
  destruct (@parseColor_rejects Q QEnv "red" (@new_aiColor4D Q QEnv) H) as [H1 H2].
  split; [exact H1|].
  apply H2. reflexivity.
Defined.

(** ** The scene *)

Section SceneClaims.
Context {ai_real : Type} {E : AssimpEnv ai_real}.

(** C10: with a null scene pointer [ImportXml] returns at once: whatever the
    document, the serializer is left as it was and there is no scene, so no
    root node, mesh, material or metadata is produced. *)
Theorem ImportXml_null_scene (s : XmlSerializer) :
  ImportXml None s = Ok (None, s).
Proof. reflexivity. Qed.

(** C9: when the document has no [model] element, or its [model] has no
    [resources] element, the import of a fresh scene ends normally: the
    scene has a root node and no meshes, materials or metadata, and the
    serializer has collected nothing. *)
Theorem ImportXml_structural_absence (doc : XmlNode) (sc : aiScene.t ai_real) :
  scene_is_empty sc ->
  Xml.child (Some doc) "model" = None
  \/ (exists m, Xml.child (Some doc) "model" = Some m
                /\ Xml.child (Some m) "resources" = None) ->
  exists sc',
    ImportXml (Some sc) (new_XmlSerializer doc) = Ok (Some sc', new_XmlSerializer doc)
    /\ aiScene.mRootNode sc' <> None
    /\ scene_is_empty sc'.
Proof.
  intros (Hmd & Hnm & Hm & Hnmat & Hmat) [Hmodel | (m & Hmodel & Hres)].
  - eexists. unfold ImportXml, bind, get.
    cbn [mXmlParser new_XmlSerializer]. rewrite Hmodel.
    split; [reflexivity|]. split; [discriminate|].
    unfold scene_is_empty. cbn. auto.
  - eexists. unfold ImportXml, bind, get.
    cbn [mXmlParser new_XmlSerializer]. rewrite Hmodel, Hres.
    cbn. split; [reflexivity|].
    unfold update_root. cbn.
    split; [discriminate|].
    unfold scene_is_empty. cbn. auto.
Qed.

End SceneClaims.

(** [ImportXml_structural_absence] on a document without [model]. *)
Lemma ImportXml_structural_absence_witness :
  exists sc',
    @ImportXml Q QEnv (Some blank_scene) (new_XmlSerializer (Node "" [] "" []))
      = Ok (Some sc', new_XmlSerializer (Node "" [] "" []))
    /\ aiScene.mRootNode sc' <> None
    /\ scene_is_empty sc'.
Proof.
  apply (@ImportXml_structural_absence Q QEnv (Node "" [] "" []) blank_scene).
  - unfold scene_is_empty. cbn. auto.
  - left. reflexivity.
Defined.

(** ** Facts about [std::map] *)

Module StdMapFacts.
Import StdMap.

Section Facts.
Context {V : Type}.
Implicit Types (m : StdMap.t V) (k : Z) (v : V).

Lemma find_insert_sorted_same k v m :
  find k m = None -> find k (insert_sorted k v m) = Some v.
Proof.
  induction m as [|[k' v'] m IH]; cbn; intros H.
  - rewrite Z.eqb_refl. reflexivity.
  - destruct (k =? k') eqn:Hk; [discriminate|].
    destruct (k <? k'); cbn.
    + rewrite Z.eqb_refl. reflexivity.
    + rewrite Hk. apply IH. exact H.
Qed.

Lemma find_insert_sorted_other k k' v m :
  k' <> k -> find k' (insert_sorted k v m) = find k' m.
Proof.
  intros Hne. induction m as [|[k0 v0] m IH]; cbn.
  - apply Z.eqb_neq in Hne. rewrite Hne. reflexivity.
  - destruct (k <? k0); cbn.
    + apply Z.eqb_neq in Hne. rewrite Hne. reflexivity.
    + rewrite IH. reflexivity.
Qed.

(** [insert] on a key that is there changes nothing. *)
Lemma insert_present k v v0 m : find k m = Some v0 -> insert k v m = m.
Proof. intros H. unfold insert. rewrite H. reflexivity. Qed.

Lemma find_insert_absent k v m :
  find k m = None -> find k (insert k v m) = Some v.
Proof.
  intros H. unfold insert. rewrite H. apply find_insert_sorted_same. exact H.
Qed.

Lemma find_insert_other k k' v m :
  k' <> k -> find k' (insert k v m) = find k' m.
Proof.
  intros H. unfold insert. destruct (find k m); [reflexivity|].
  apply find_insert_sorted_other. exact H.
Qed.

(** [m[k]] on a key that is there reads the entry and changes nothing. *)
Lemma subscript_present dflt k v m :
  find k m = Some v -> subscript dflt k m = (v, m).
Proof. intros H. unfold subscript. rewrite H. reflexivity. Qed.

End Facts.
End StdMapFacts.

(** ** The material dictionary *)

Section Dictionary.
Context {ai_real : Type} {E : AssimpEnv ai_real}.
Implicit Types (s : @XmlSerializer ai_real).

Lemma set_mMaterialCount_same s : set_mMaterialCount (mMaterialCount s) s = s.
Proof. destruct s. reflexivity. Qed.

Lemma set_mBasematerialsDictionnary_same s :
  set_mBasematerialsDictionnary (mBasematerialsDictionnary s) s = s.
Proof. destruct s. reflexivity. Qed.

Lemma as_string_std a : Xml.as_string a = Some (Xml.as_std_string a).
Proof. destruct a; reflexivity. Qed.

(** [readMaterialDef] always returns and leaves the serializer alone. *)
Lemma readMaterialDef_total node id s :
  exists mat, readMaterialDef node id s = Ok (mat, s).
Proof.
  unfold readMaterialDef, bind, get.
  destruct (String.eqb (Xml.name node) XmlTag.basematerials_base);
    eexists; reflexivity.
Qed.

(** One turn of the loop: a [base] child takes the current value of the
    counter and advances it; any other child is skipped. *)
Lemma ReadBaseMaterials_step_spec id acc c s :
  exists mat,
    ReadBaseMaterials_step id acc c s =
      if is_base c
      then Ok (acc ++ [(mMaterialCount s, mat)],
               set_mMaterialCount (to_uint (mMaterialCount s + 1)) s)
      else Ok (acc, s).
Proof.
  unfold ReadBaseMaterials_step, is_base.
  destruct (readMaterialDef_total c id s) as [mat Hmat].
  exists mat.
  destruct (String.eqb (Xml.name c) XmlTag.basematerials_base); [|reflexivity].
  unfold bind, get, modify, ret. rewrite Hmat. reflexivity.
Qed.

(** The loop always ends, and touches nothing but the counter. *)
Lemma ReadBaseMaterials_loop_total id cs acc s :
  exists materials c,
    for_each (ReadBaseMaterials_step id) cs acc s
      = Ok (materials, set_mMaterialCount c s).
Proof.
  revert acc s. induction cs as [|x cs IH]; intros acc s.
  - exists acc, (mMaterialCount s). cbn. unfold ret.
    rewrite set_mMaterialCount_same. reflexivity.
  - cbn [for_each]. unfold bind.
    destruct (ReadBaseMaterials_step_spec id acc x s) as [mat ->].
    destruct (is_base x).
    + destruct (IH (acc ++ [(mMaterialCount s, mat)])
                   (set_mMaterialCount (to_uint (mMaterialCount s + 1)) s))
        as (ms & c & ->).
      exists ms, c. destruct s. reflexivity.
    + apply IH.
Qed.

(** While the counter does not wrap, the members take its consecutive
    values. *)
Lemma ReadBaseMaterials_loop_indices id cs acc s :
  0 <= mMaterialCount s ->
  mMaterialCount s + Z.of_nat (members cs) < UINT_MOD ->
  exists entries,
    for_each (ReadBaseMaterials_step id) cs acc s
      = Ok (acc ++ entries,
            set_mMaterialCount (mMaterialCount s + Z.of_nat (members cs)) s)
    /\ map fst entries = counter_values (mMaterialCount s) (members cs).
Proof.
  revert acc s. induction cs as [|x cs IH]; intros acc s H0 Hlt.
  - exists []. cbn. unfold ret. rewrite app_nil_r, Z.add_0_r.
    rewrite set_mMaterialCount_same. split; reflexivity.
  - cbn [for_each]. unfold bind.
    destruct (ReadBaseMaterials_step_spec id acc x s) as [mat ->].
    unfold members in *. cbn [filter] in *.
    destruct (is_base x); cbn [List.length] in *.
    + rewrite to_uint_small by lia.
      destruct (IH (acc ++ [(mMaterialCount s, mat)])
                   (set_mMaterialCount (mMaterialCount s + 1) s))
        as (entries & Hrun & Hidx).
      * destruct s; cbn in *; lia.
      * destruct s; cbn in *; lia.
      * exists ((mMaterialCount s, mat) :: entries).
        rewrite Hrun. split.
        -- rewrite <- app_assoc. cbn [app]. destruct s; cbn.
           do 2 f_equal. unfold set_mMaterialCount; cbn. f_equal. lia.
        -- cbn [map fst counter_values]. f_equal.
           rewrite Hidx. destruct s; reflexivity.
    + apply IH; assumption.
Qed.

(** [ReadBaseMaterials] always returns; it files the vector it built under
    the group's id with [insert], and advances the counter. *)
Lemma ReadBaseMaterials_spec node s :
  exists c,
    ReadBaseMaterials node s =
      Ok (tt, set_mBasematerialsDictionnary
                (StdMap.insert (group_id node) (declared_materials node s)
                               (mBasematerialsDictionnary s))
                (set_mMaterialCount c s))
    /\ for_each (ReadBaseMaterials_step (group_id node)) (Xml.children node) [] s
       = Ok (declared_materials node s, set_mMaterialCount c s).
Proof.
  unfold ReadBaseMaterials, declared_materials, group_id.
  rewrite as_string_std.
  set (id := to_uint (LibC.atoi (Xml.as_std_string (Xml.attribute node XmlTag.basematerials_id)))).
  destruct (ReadBaseMaterials_loop_total id (Xml.children node) [] s)
    as (ms & c & Hrun).
  exists c. unfold bind, modify. rewrite Hrun. split; reflexivity.
Qed.

End Dictionary.

Section Counter.

Lemma counter_values_length c n : List.length (counter_values c n) = n.
Proof. revert c. induction n as [|n IH]; intros c; cbn; [|rewrite IH]; reflexivity. Qed.

Lemma counter_values_In c n x :
  In x (counter_values c n) <-> c <= x < c + Z.of_nat n.
Proof.
  revert c. induction n as [|n IH]; intros c; cbn [counter_values In].
  - lia.
  - rewrite IH. lia.
Qed.

Lemma counter_values_NoDup c n : NoDup (counter_values c n).
Proof.
  revert c. induction n as [|n IH]; intros c; cbn; constructor.
  - rewrite counter_values_In. lia.
  - apply IH.
Qed.

Lemma counter_values_app c n m :
  counter_values c (n + m) =
    counter_values c n ++ counter_values (c + Z.of_nat n) m.
Proof.
  revert c. induction n as [|n IH]; intros c.
  - cbn. rewrite Z.add_0_r. reflexivity.
  - cbn [Nat.add counter_values app]. rewrite IH.
    replace (c + Z.of_nat (S n)) with (c + 1 + Z.of_nat n) by lia.
    reflexivity.
Qed.

Lemma concat_consecutive_blocks c sizes :
  List.concat (consecutive_blocks c sizes) = counter_values c (list_sum sizes).
Proof.
  revert c. induction sizes as [|n sizes IH]; intros c; [reflexivity|].
  cbn [consecutive_blocks List.concat list_sum fold_right].
  fold (list_sum sizes). rewrite IH, counter_values_app. reflexivity.
Qed.

End Counter.

Section DictionaryClaims.
Context {ai_real : Type} {E : AssimpEnv ai_real}.
Implicit Types (s : @XmlSerializer ai_real).

(** One group, while the counter does not wrap. *)
Lemma ReadBaseMaterials_indices node s :
  0 <= mMaterialCount s ->
  mMaterialCount s + Z.of_nat (base_count node) < UINT_MOD ->
  exists s1,
    ReadBaseMaterials node s = Ok (tt, s1)
    /\ mMaterialCount s1 = mMaterialCount s + Z.of_nat (base_count node)
    /\ map fst (declared_materials node s)
       = counter_values (mMaterialCount s) (base_count node).
Proof.
  intros H0 Hlt.
  destruct (ReadBaseMaterials_spec node s) as (c & Hrun & Hloop).
  destruct (ReadBaseMaterials_loop_indices (group_id node) (Xml.children node) [] s H0 Hlt)
    as (entries & Hrun' & Hidx).
  rewrite Hloop in Hrun'. cbn [app] in Hrun'.
  injection Hrun' as Hms Hs.
  eexists. split; [exact Hrun|]. split.
  - rewrite Hs. destruct s; reflexivity.
  - rewrite Hms. exact Hidx.
Qed.

Lemma read_groups_blocks groups : forall s,
  0 <= mMaterialCount s ->
  mMaterialCount s + Z.of_nat (total_members groups) < UINT_MOD ->
  fst (read_groups groups s)
    = consecutive_blocks (mMaterialCount s) (map base_count groups)
  /\ mMaterialCount (snd (read_groups groups s))
     = mMaterialCount s + Z.of_nat (total_members groups).
Proof.
  induction groups as [|g groups IH]; intros s H0 Hlt.
  - cbn. split; [reflexivity | lia].
  - unfold total_members in *. cbn [map list_sum fold_right] in Hlt.
    fold (list_sum (map base_count groups)) in Hlt.
    destruct (ReadBaseMaterials_indices g s H0) as (s1 & Hrun & Hc & Hidx); [lia|].
    cbn [read_groups map consecutive_blocks list_sum fold_right].
    fold (list_sum (map base_count groups)). rewrite Hrun.
    destruct (IH s1) as [IH1 IH2]; [lia | lia |].
    destruct (read_groups groups s1) as [rest s2] eqn:Hrest.
    cbn [fst snd] in *. split.
    + rewrite Hidx, IH1, Hc. reflexivity.
    + rewrite IH2, Hc. lia.
Qed.

(** C4: while the 32-bit counter does not wrap, the global indices given to
    the members of a sequence of groups are the consecutive values of the one
    counter, in group-then-member order; hence no index is given twice,
    across all groups; and from a counter at 0, two groups of 2 and 3 members
    get [0; 1] and [2; 3; 4]. *)
Theorem material_indices_unique_in_order (groups : list XmlNode) (s : XmlSerializer) :
  0 <= mMaterialCount s ->
  mMaterialCount s + Z.of_nat (total_members groups) < UINT_MOD ->
  fst (read_groups groups s)
    = consecutive_blocks (mMaterialCount s) (map base_count groups)
  /\ List.concat (fst (read_groups groups s))
     = counter_values (mMaterialCount s) (total_members groups)
  /\ NoDup (List.concat (fst (read_groups groups s)))
  /\ mMaterialCount (snd (read_groups groups s))
     = mMaterialCount s + Z.of_nat (total_members groups)
  /\ (mMaterialCount s = 0 -> map base_count groups = [2; 3]%nat ->
      fst (read_groups groups s) = [[0; 1]; [2; 3; 4]]).
Proof.
  intros H0 Hlt.
  destruct (read_groups_blocks groups s H0 Hlt) as [Hb Hc].
  assert (Hcat : List.concat (fst (read_groups groups s))
                 = counter_values (mMaterialCount s) (total_members groups)).
  { rewrite Hb. apply concat_consecutive_blocks. }
  repeat split.
  - exact Hb.
  - exact Hcat.
  - rewrite Hcat. apply counter_values_NoDup.
  - exact Hc.
  - intros Hz Hsz. rewrite Hb, Hz, Hsz. reflexivity.
Qed.

(** A key that is in the dictionary keeps its entry when another group is
    read, whatever the id of that group. *)
Lemma ReadBaseMaterials_keeps_present node s k v :
  StdMap.find k (mBasematerialsDictionnary s) = Some v ->
  exists s1,
    ReadBaseMaterials node s = Ok (tt, s1)
    /\ StdMap.find k (mBasematerialsDictionnary s1) = Some v.
Proof.
  intros Hk.
  destruct (ReadBaseMaterials_spec node s) as (c & Hrun & _).
  eexists. split; [exact Hrun|].
  cbn [mBasematerialsDictionnary set_mBasematerialsDictionnary set_mMaterialCount].
  destruct (Z.eq_dec k (group_id node)) as [->|Hne].
  - rewrite (StdMapFacts.insert_present _ _ _ Hk). exact Hk.
  - rewrite StdMapFacts.find_insert_other by exact Hne. exact Hk.
Qed.

(** A key that is not yet in the dictionary gets the vector of the group. *)
Lemma ReadBaseMaterials_files_absent node s :
  StdMap.find (group_id node) (mBasematerialsDictionnary s) = None ->
  exists s1,
    ReadBaseMaterials node s = Ok (tt, s1)
    /\ StdMap.find (group_id node) (mBasematerialsDictionnary s1)
       = Some (declared_materials node s).
Proof.
  intros Hk.
  destruct (ReadBaseMaterials_spec node s) as (c & Hrun & _).
  eexists. split; [exact Hrun|].
  cbn [mBasematerialsDictionnary set_mBasematerialsDictionnary set_mMaterialCount].
  apply StdMapFacts.find_insert_absent. exact Hk.
Qed.

(** [read_groups] on a first group and the rest. *)
Lemma read_groups_cons g groups s :
  exists s1,
    ReadBaseMaterials g s = Ok (tt, s1)
    /\ mBasematerialsDictionnary s1
       = StdMap.insert (group_id g) (declared_materials g s)
                       (mBasematerialsDictionnary s)
    /\ read_groups (g :: groups) s
       = (map fst (declared_materials g s) :: fst (read_groups groups s1),
          snd (read_groups groups s1)).
Proof.
  destruct (ReadBaseMaterials_spec g s) as (c & Hrun & _).
  eexists. split; [exact Hrun|]. split; [reflexivity|].
  cbn [read_groups]. rewrite Hrun.
  destruct (read_groups groups _) as [rest s2]. reflexivity.
Qed.

(** An entry of the dictionary outlives any sequence of groups. *)
Lemma read_groups_keeps_present groups : forall s k v,
  StdMap.find k (mBasematerialsDictionnary s) = Some v ->
  StdMap.find k (mBasematerialsDictionnary (snd (read_groups groups s))) = Some v.
Proof.
  induction groups as [|g groups IH]; intros s k v Hk; [exact Hk|].
  destruct (read_groups_cons g groups s) as (s1 & Hrun & _ & ->).
  destruct (ReadBaseMaterials_keeps_present g s _ Hk) as (s1' & Hrun' & Hk').
  rewrite Hrun in Hrun'. injection Hrun' as <-.
  cbn [snd]. apply IH. exact Hk'.
Qed.

(** Groups of pairwise distinct ids, none of them declared before: each id
    is mapped to a vector that carries the global indices given to the
    members of its group. *)
Lemma read_groups_dictionary groups : forall s,
  NoDup (map group_id groups) ->
  (forall g, In g groups ->
             StdMap.find (group_id g) (mBasematerialsDictionnary s) = None) ->
  Forall2
    (fun g indices =>
       exists v,
         StdMap.find (group_id g)
                     (mBasematerialsDictionnary (snd (read_groups groups s)))
           = Some v
         /\ map fst v = indices)
    groups (fst (read_groups groups s)).
Proof.
  induction groups as [|g groups IH]; intros s Hnd Hnew; [constructor|].
  destruct (read_groups_cons g groups s) as (s1 & Hrun & Hd & Heq).
  rewrite Heq. cbn [fst snd]. cbn [map] in Hnd.
  apply NoDup_cons_iff in Hnd. destruct Hnd as [Hnotin Hnd].
  constructor.
  - exists (declared_materials g s). split; [|reflexivity].
    apply read_groups_keeps_present. rewrite Hd.
    apply StdMapFacts.find_insert_absent. apply Hnew. left. reflexivity.
  - apply IH; [exact Hnd|].
    intros g' Hin. rewrite Hd.
    rewrite StdMapFacts.find_insert_other.
    + apply Hnew. right. exact Hin.
    + intros Heq'. apply Hnotin. rewrite <- Heq'. apply in_map. exact Hin.
Qed.

(** C3 (amended): when two [basematerials] elements declare the same group
    id, the second declaration does not replace the entry: after both, the
    dictionary maps the id to what it mapped it to after the first, which is
    the vector parsed from the first declaration when the id was new. *)
Theorem redeclared_group_keeps_first (g1 g2 : XmlNode) (s : XmlSerializer) :
  group_id g1 = group_id g2 ->
  exists s1 s2,
    ReadBaseMaterials g1 s = Ok (tt, s1)
    /\ ReadBaseMaterials g2 s1 = Ok (tt, s2)
    /\ StdMap.find (group_id g1) (mBasematerialsDictionnary s2)
       = StdMap.find (group_id g1) (mBasematerialsDictionnary s1)
    /\ (StdMap.find (group_id g1) (mBasematerialsDictionnary s) = None ->
        StdMap.find (group_id g1) (mBasematerialsDictionnary s2)
        = Some (declared_materials g1 s)).
Proof.
  intros Hid.
  destruct (StdMap.find (group_id g1) (mBasematerialsDictionnary s)) as [v|] eqn:Hs.
  - destruct (ReadBaseMaterials_keeps_present g1 s _ Hs) as (s1 & H1 & Hf1).
    destruct (ReadBaseMaterials_keeps_present g2 s1 _ Hf1) as (s2 & H2 & Hf2).
    exists s1, s2. repeat split; try assumption.
    + rewrite Hf1, Hf2. reflexivity.
    + discriminate.
  - destruct (ReadBaseMaterials_files_absent g1 s Hs) as (s1 & H1 & Hf1).
    destruct (ReadBaseMaterials_keeps_present g2 s1 _ Hf1) as (s2 & H2 & Hf2).
    exists s1, s2. repeat split; try assumption.
    + rewrite Hf1, Hf2. reflexivity.
    + intros _. exact Hf2.
Qed.

End DictionaryClaims.

(** [material_indices_unique_in_order] on two groups of 2 and 3 members. *)
Lemma material_indices_unique_in_order_witness :
  fst (@read_groups Q QEnv
         [DictionarySamples.two_members; DictionarySamples.three_members]
         DictionarySamples.fresh)
    = [[0; 1]; [2; 3; 4]]
  /\ NoDup (List.concat
              (fst (@read_groups Q QEnv
                      [DictionarySamples.two_members; DictionarySamples.three_members]
                      DictionarySamples.fresh))).
Proof.
  assert (H0 : 0 <= mMaterialCount DictionarySamples.fresh)
    by (vm_compute; discriminate).
  assert (H1 : mMaterialCount DictionarySamples.fresh
               + Z.of_nat (total_members
                   [DictionarySamples.two_members; DictionarySamples.three_members])
               < UINT_MOD)
    by (vm_compute; reflexivity).
  destruct (@material_indices_unique_in_order Q QEnv
              [DictionarySamples.two_members; DictionarySamples.three_members]
              DictionarySamples.fresh H0 H1)
    as (_ & _ & Hnodup & _ & Hexample).
  split; [apply Hexample; reflexivity | exact Hnodup].
Defined.

(** C3 (as stated) fails: group 1 is declared with member "A" and declared
    again with member "B"; afterwards the dictionary maps 1 to the vector of
    the first declaration, not to the one parsed from the second. *)
Lemma redeclared_group_counterexample :
  group_id DictionarySamples.first_declaration = 1
  /\ group_id DictionarySamples.second_declaration = 1
  /\ ReadBaseMaterials DictionarySamples.first_declaration DictionarySamples.fresh
     = Ok (tt, DictionarySamples.declared_once)
  /\ ReadBaseMaterials DictionarySamples.second_declaration
                       DictionarySamples.declared_once
     = Ok (tt, DictionarySamples.declared_twice)
  /\ StdMap.find 1 (mBasematerialsDictionnary DictionarySamples.declared_twice)
     = Some (declared_materials DictionarySamples.first_declaration
                                DictionarySamples.fresh)
  /\ StdMap.find 1 (mBasematerialsDictionnary DictionarySamples.declared_twice)
     <> Some (declared_materials DictionarySamples.second_declaration
                                 DictionarySamples.declared_once).
Proof.
  repeat split; try (vm_compute; reflexivity).
  vm_compute. intros H. discriminate H.
Qed.

(** [redeclared_group_keeps_first] on the two declarations of group 1. *)
Lemma redeclared_group_keeps_first_witness :
  exists s1 s2,
    ReadBaseMaterials DictionarySamples.first_declaration DictionarySamples.fresh
      = Ok (tt, s1)
    /\ ReadBaseMaterials DictionarySamples.second_declaration s1 = Ok (tt, s2)
    /\ StdMap.find (group_id DictionarySamples.first_declaration)
                   (mBasematerialsDictionnary s2)
       = StdMap.find (group_id DictionarySamples.first_declaration)
                     (mBasematerialsDictionnary s1)
    /\ (StdMap.find (group_id DictionarySamples.first_declaration)
                    (mBasematerialsDictionnary DictionarySamples.fresh) = None ->
        StdMap.find (group_id DictionarySamples.first_declaration)
                    (mBasematerialsDictionnary s2)
        = Some (declared_materials DictionarySamples.first_declaration
                                   DictionarySamples.fresh)).
Proof.
  apply (@redeclared_group_keeps_first Q QEnv
           DictionarySamples.first_declaration
           DictionarySamples.second_declaration
           DictionarySamples.fresh).
  reflexivity.
Defined.

(** ** Material references *)

Section References.
Context {ai_real : Type} {E : AssimpEnv ai_real}.
Implicit Types (s : @XmlSerializer ai_real).

Lemma dictionnary_subscript_present k group s :
  StdMap.find k (mBasematerialsDictionnary s) = Some group ->
  dictionnary_subscript k s = Ok (group, s).
Proof.
  intros H. unfold dictionnary_subscript, bind, get, put, ret.
  rewrite (StdMapFacts.subscript_present _ _ _ H).
  rewrite set_mBasematerialsDictionnary_same. reflexivity.
Qed.

Lemma triangle_material_spec c m s :
  triangle_material c m s =
    lift (resolve (mBasematerialsDictionnary s)
                  (Xml.as_std_string (Xml.attribute c XmlTag.pid))
                  (Xml.as_std_string (Xml.attribute c XmlTag.p1)) m) s.
Proof.
  unfold triangle_material, resolve. rewrite !as_string_std.
  unfold bind at 1. unfold get at 1. unfold dictionnary_has.
  destruct (StdMap.find _ (mBasematerialsDictionnary s)) as [group|] eqn:Hf.
  - unfold bind. rewrite (dictionnary_subscript_present _ _ Hf).
    unfold lift, ret.
    destruct (StdVector.at_int group _); reflexivity.
  - reflexivity.
Qed.

Lemma object_material_spec hasPid hasPindex pid pindex m s :
  object_material hasPid hasPindex pid pindex m s =
    if hasPid && hasPindex
    then lift (resolve (mBasematerialsDictionnary s) pid pindex m) s
    else Ok (m, s).
Proof.
  unfold object_material, resolve.
  unfold bind at 1. unfold get at 1. unfold dictionnary_has.
  destruct (hasPid && hasPindex); [|reflexivity]. cbn [andb].
  destruct (StdMap.find _ (mBasematerialsDictionnary s)) as [group|] eqn:Hf.
  - unfold bind. rewrite (dictionnary_subscript_present _ _ Hf).
    unfold lift, ret.
    destruct (StdVector.at_int group _); reflexivity.
  - reflexivity.
Qed.

Lemma reads_dictionary_ret {A} (a : A) : reads_dictionary (ai_real := ai_real) (ret a).
Proof. intros s. exists (Ok a). reflexivity. Qed.

Lemma reads_dictionary_lift {A} (r : result A) : reads_dictionary (ai_real := ai_real) (lift r).
Proof. intros s. exists r. reflexivity. Qed.

Lemma reads_dictionary_bind {A B} (m : M A) (k : A -> M B) :
  reads_dictionary (ai_real := ai_real) m -> (forall a, reads_dictionary (ai_real := ai_real) (k a)) ->
  reads_dictionary (ai_real := ai_real) (bind m k).
Proof.
  intros Hm Hk s. destruct (Hm s) as [[a| |] Hr].
  - destruct (Hk a s) as [r' Hr']. exists r'. intros s2 Hd.
    unfold bind. rewrite (Hr s2 Hd). cbn. apply Hr'. exact Hd.
  - exists OutOfBounds. intros s2 Hd. unfold bind. rewrite (Hr s2 Hd). reflexivity.
  - exists Diverges. intros s2 Hd. unfold bind. rewrite (Hr s2 Hd). reflexivity.
Qed.

Lemma reads_dictionary_for_each {A B} (body : B -> A -> M B) (l : list A) :
  (forall b x, reads_dictionary (ai_real := ai_real) (body b x)) ->
  forall b, reads_dictionary (ai_real := ai_real) (for_each body l b).
Proof.
  intros Hbody. induction l as [|x l IH]; intros b; cbn [for_each].
  - apply reads_dictionary_ret.
  - apply reads_dictionary_bind; [apply Hbody | exact IH].
Qed.

Lemma reads_dictionary_triangle_material c m :
  reads_dictionary (ai_real := ai_real) (triangle_material c m).
Proof.
  intros s.
  exists (resolve (mBasematerialsDictionnary s)
                  (Xml.as_std_string (Xml.attribute c XmlTag.pid))
                  (Xml.as_std_string (Xml.attribute c XmlTag.p1)) m).
  intros s2 Hd. rewrite triangle_material_spec, Hd. reflexivity.
Qed.

Lemma reads_dictionary_ImportTriangles node m :
  reads_dictionary (ai_real := ai_real) (ImportTriangles node m).
Proof.
  unfold ImportTriangles. apply reads_dictionary_bind.
  - apply reads_dictionary_for_each. intros [faces m'] x.
    unfold ImportTriangles_step.
    destruct (String.eqb (Xml.name x) XmlTag.triangle).
    + apply reads_dictionary_bind;
        [apply reads_dictionary_triangle_material
        | intros; apply reads_dictionary_ret].
    + apply reads_dictionary_ret.
  - intros [faces m']. apply reads_dictionary_bind;
      [apply reads_dictionary_lift | intros; apply reads_dictionary_ret].
Qed.

Lemma reads_dictionary_ImportVertices node m :
  reads_dictionary (ai_real := ai_real) (ImportVertices node m).
Proof.
  unfold ImportVertices. apply reads_dictionary_bind;
    [apply reads_dictionary_lift | intros; apply reads_dictionary_ret].
Qed.

Lemma reads_dictionary_ReadMesh node : reads_dictionary (ai_real := ai_real) (ReadMesh node).
Proof.
  unfold ReadMesh. apply reads_dictionary_for_each. intros m x.
  unfold ReadMesh_step.
  destruct (String.eqb (Xml.name x) XmlTag.vertices);
    [apply reads_dictionary_ImportVertices|].
  destruct (String.eqb (Xml.name x) XmlTag.triangles);
    [apply reads_dictionary_ImportTriangles | apply reads_dictionary_ret].
Qed.

(** If [ReadMesh] returns in one serializer, it returns the same mesh in any
    serializer that holds the same dictionary, and leaves it alone. *)
Lemma ReadMesh_same_dictionary node s m s' s2 :
  ReadMesh node s = Ok (m, s') ->
  mBasematerialsDictionnary s2 = mBasematerialsDictionnary s ->
  ReadMesh node s2 = Ok (m, s2).
Proof.
  intros Hrun Hd.
  destruct (reads_dictionary_ReadMesh node s) as [r Hr].
  rewrite (Hr s eq_refl) in Hrun. rewrite (Hr s2 Hd).
  destruct r; cbn in *; [injection Hrun as -> _; reflexivity | discriminate..].
Qed.

(** A reference to a group that is not in the dictionary changes nothing. *)
Lemma triangle_material_undeclared c m s :
  StdMap.find (to_uint (LibC.atoi (Xml.as_std_string (Xml.attribute c XmlTag.pid))))
              (mBasematerialsDictionnary s) = None ->
  triangle_material c m s = Ok (m, s).
Proof.
  intros H. rewrite triangle_material_spec. unfold resolve. rewrite H. reflexivity.
Qed.

(** The vector of a group that is there is indexed without a test: a
    position inside it sets the material index, a position outside it is an
    access outside the vector. *)
Lemma resolve_declared (d : StdMap.t (list (@material_entry ai_real))) pid p1
    (m : aiMesh.t ai_real) group :
  StdMap.find (to_uint (LibC.atoi pid)) d = Some group ->
  resolve d pid p1 m =
    if to_size_t (LibC.atoi p1) <? size group
    then match nth_error group (Z.to_nat (to_size_t (LibC.atoi p1))) with
         | Some entry => Ok (aiMesh.set_mMaterialIndex (fst entry) m)
         | None => OutOfBounds
         end
    else OutOfBounds.
Proof.
  intros H. unfold resolve, StdVector.at_int. rewrite H.
  destruct (to_size_t (LibC.atoi p1) <? size group); [|reflexivity].
  destruct (nth_error group _); reflexivity.
Qed.

End References.

(** ** Objects *)

Section Objects.
Context {ai_real : Type} {E : AssimpEnv ai_real}.
Implicit Types (s : @XmlSerializer ai_real).

Lemma getNodeAttribute_present node a v dflt :
  Xml.attribute node a = Some v -> getNodeAttribute node a dflt = (true, v).
Proof. intros H. unfold getNodeAttribute. rewrite H. reflexivity. Qed.

Lemma getNodeAttribute_absent node a dflt :
  Xml.attribute node a = None -> getNodeAttribute node a dflt = (false, dflt).
Proof. intros H. unfold getNodeAttribute. rewrite H. reflexivity. Qed.

Lemma set_mMeshes_app s l1 l2 :
  set_mMeshes (mMeshes (set_mMeshes (mMeshes s ++ l1) s) ++ l2)
              (set_mMeshes (mMeshes s ++ l1) s)
  = set_mMeshes (mMeshes s ++ l1 ++ l2) s.
Proof. destruct s. cbn. rewrite app_assoc. reflexivity. Qed.

Lemma set_mMeshes_nil s : set_mMeshes (mMeshes s ++ []) s = s.
Proof. destruct s. cbn. rewrite app_nil_r. reflexivity. Qed.

(** An object without [id]: [ReadObject] returns the null pointer before it
    reads any mesh, and the serializer is as it was. *)
Lemma ReadObject_without_id node sc s :
  Xml.attribute node XmlTag.id = None ->
  ReadObject node sc s = Ok (None, s).
Proof.
  intros H. unfold ReadObject.
  rewrite (getNodeAttribute_absent _ _ _ H).
  destruct (getNodeAttribute node XmlTag.pid "") as [hasPid pid].
  destruct (getNodeAttribute node XmlTag.pindex "") as [hasPindex pindex].
  reflexivity.
Qed.

(** The null pointer that [ReadObject] returned is pushed to [children] like
    any node. *)
Lemma ImportXml_step_object_without_id sc children c s :
  Xml.name c = XmlTag.object ->
  Xml.attribute c XmlTag.id = None ->
  ImportXml_step sc children c s = Ok (children ++ [None], s).
Proof.
  intros Hn Hid. unfold ImportXml_step. rewrite Hn. cbn [String.eqb].
  rewrite String.eqb_refl. unfold bind.
  rewrite (ReadObject_without_id _ _ _ Hid). reflexivity.
Qed.

(** The loop of [ReadObject] for an object whose reference resolves: every
    mesh is pushed with the material index of the referenced entry. *)
Lemma ReadObject_loop id pid pindex group entry s0 cs :
  StdMap.find (to_uint (LibC.atoi pid)) (mBasematerialsDictionnary s0) = Some group ->
  StdVector.at_int group (LibC.atoi pindex) = Ok entry ->
  (forall c, In c cs -> is_mesh c = true ->
             exists m s', ReadMesh c s0 = Ok (m, s')) ->
  forall meshIds meshIdx s,
    mBasematerialsDictionnary s = mBasematerialsDictionnary s0 ->
    exists ids new,
      for_each (ReadObject_step id true true pid pindex) cs (meshIds, meshIdx) s
        = Ok ((meshIds ++ ids, meshIdx + Z.of_nat (List.length new)),
              set_mMeshes (mMeshes s ++ new) s)
      /\ List.length new = List.length (filter is_mesh cs)
      /\ List.length ids = List.length new
      /\ Forall (fun m => aiMesh.mMaterialIndex m = fst entry) new.
Proof.
  intros Hfind Hat. induction cs as [|c cs IH]; intros Hmeshes meshIds meshIdx s Hd.
  - exists [], []. cbn. unfold ret.
    rewrite app_nil_r, Z.add_0_r, set_mMeshes_nil. auto.
  - cbn [for_each filter]. unfold bind at 1. unfold ReadObject_step at 1.
    fold (is_mesh c). destruct (is_mesh c) eqn:Hc.
    + destruct (Hmeshes c (or_introl eq_refl) Hc) as (m & s' & Hrun).
      unfold bind at 1.
      rewrite (ReadMesh_same_dictionary _ _ _ Hrun Hd).
      unfold bind at 1. rewrite object_material_spec. cbn [andb].
      unfold resolve. rewrite Hd, Hfind, Hat. cbn [lift].
      unfold bind at 1. unfold modify at 1. unfold ret at 1.
      set (m2 := aiMesh.set_mMaterialIndex (fst entry) _).
      destruct (IH (fun c' Hin => Hmeshes c' (or_intror Hin))
                   (meshIds ++ [meshIdx]) (meshIdx + 1)
                   (set_mMeshes (mMeshes s ++ [m2]) s))
        as (ids & new & Hloop & Hlen & Hids & Hall).
      { destruct s; exact Hd. }
      exists (meshIdx :: ids), (m2 :: new).
      rewrite Hloop. rewrite set_mMeshes_app. rewrite <- app_assoc.
      cbn [app List.length]. repeat split.
      * do 3 f_equal. lia.
      * rewrite Hlen. reflexivity.
      * rewrite Hids. reflexivity.
      * constructor; [reflexivity | exact Hall].
    + unfold ret at 1.
      apply IH; [intros c' Hin; apply Hmeshes; right; exact Hin | exact Hd].
Qed.

(** C1 (amended): for an object with an [id] whose [pid] names a declared
    group and whose [pindex] is a position of that group, the object-level
    reference is applied to each mesh after [ReadMesh] has processed the
    triangles of that mesh: it overwrites whatever a triangle assigned, and
    the global index of the referenced entry is the final material index of
    every mesh that the object adds. *)
Theorem object_material_is_final (node : XmlNode) (sc : aiScene.t ai_real)
    (s : XmlSerializer) (id pid pindex : string)
    (group : list material_entry) (entry : material_entry) :
  Xml.attribute node XmlTag.id = Some id ->
  Xml.attribute node XmlTag.pid = Some pid ->
  Xml.attribute node XmlTag.pindex = Some pindex ->
  StdMap.find (to_uint (LibC.atoi pid)) (mBasematerialsDictionnary s) = Some group ->
  StdVector.at_int group (LibC.atoi pindex) = Ok entry ->
  (forall c, In c (Xml.children node) -> is_mesh c = true ->
             exists m s', ReadMesh c s = Ok (m, s')) ->
  Z.of_nat (mesh_children node) < UINT_MOD ->
  exists n new,
    ReadObject node sc s = Ok (Some n, set_mMeshes (mMeshes s ++ new) s)
    /\ List.length new = mesh_children node
    /\ aiNode.mNumMeshes n = Z.of_nat (mesh_children node)
    /\ Forall (fun m => aiMesh.mMaterialIndex m = fst entry) new.
Proof.
  intros Hid Hpid Hpindex Hfind Hat Hmeshes Hcount.
  unfold ReadObject.
  rewrite (getNodeAttribute_present _ _ _ Hid),
          (getNodeAttribute_present _ _ _ Hpid),
          (getNodeAttribute_present _ _ _ Hpindex).
  cbn [negb]. unfold bind at 1. unfold get at 1.
  destruct (@ReadObject_loop id pid pindex group entry s (Xml.children node)
              Hfind Hat Hmeshes [] (to_size_t (size (mMeshes s))) s eq_refl)
    as (ids & new & Hloop & Hlen & Hids & Hall).
  unfold bind at 1. rewrite Hloop. cbn [app].
  assert (Hsz : size ids = Z.of_nat (mesh_children node)).
  { unfold size, mesh_children. rewrite Hids, Hlen. reflexivity. }
  unfold StdVector.copy_to_new_array.
  assert (Hsz' : size (map to_uint ids) = size ids).
  { unfold size. rewrite length_map. reflexivity. }
  rewrite Hsz', Hsz.
  assert (Hsmall : to_uint (Z.of_nat (mesh_children node))
                   = Z.of_nat (mesh_children node)).
  { apply to_uint_small. lia. }
  rewrite Hsmall, Z.leb_refl.
  unfold bind, lift, ret.
  eexists. exists new. split; [reflexivity|].
  split; [exact Hlen|]. split; [reflexivity | exact Hall].
Qed.

End Objects.

(** ** The importer on the sample documents *)

(** C1 (as stated) fails: the one triangle of the mesh refers to member 1 of
    group 1 and leaves material index 1; the object refers to member 0; the
    mesh of the imported scene has material index 0, the object's. *)
Lemma triangle_material_overwritten_counterexample :
  ReferenceSamples.triangle_assigned ReferenceSamples.mesh_p1_1
                                     ReferenceSamples.declared = Some 1
  /\ Sample.material_indices ReferenceSamples.object_over_triangle = Ok [0].
Proof. split; vm_compute; reflexivity. Qed.

(** [object_material_is_final] on the object that refers to member 0 while
    its triangle refers to member 1. *)
Lemma object_material_is_final_witness :
  exists n new,
    @ReadObject Q QEnv ReferenceSamples.object_pindex_0 blank_scene
                ReferenceSamples.declared
      = Ok (Some n,
            set_mMeshes (mMeshes ReferenceSamples.declared ++ new)
                        ReferenceSamples.declared)
    /\ List.length new = mesh_children ReferenceSamples.object_pindex_0
    /\ aiNode.mNumMeshes n = Z.of_nat (mesh_children ReferenceSamples.object_pindex_0)
    /\ Forall (fun m => aiMesh.mMaterialIndex m = fst ReferenceSamples.entry_A) new.
Proof.
  assert (Hid : Xml.attribute ReferenceSamples.object_pindex_0 XmlTag.id = Some "7")
    by reflexivity.
  assert (Hpid : Xml.attribute ReferenceSamples.object_pindex_0 XmlTag.pid = Some "1")
    by reflexivity.
  assert (Hpindex :
            Xml.attribute ReferenceSamples.object_pindex_0 XmlTag.pindex = Some "0")
    by reflexivity.
  assert (Hfind :
            StdMap.find (to_uint (LibC.atoi "1"))
                        (mBasematerialsDictionnary ReferenceSamples.declared)
            = Some ReferenceSamples.group_1_entries)
    by (vm_compute; reflexivity).
  assert (Hat : StdVector.at_int ReferenceSamples.group_1_entries (LibC.atoi "0")
                = Ok ReferenceSamples.entry_A)
    by (vm_compute; reflexivity).
  assert (Hmeshes :
            forall c, In c (Xml.children ReferenceSamples.object_pindex_0) ->
                      is_mesh c = true ->
                      exists m s', @ReadMesh Q QEnv c ReferenceSamples.declared
                                   = Ok (m, s')).
  { intros c [Hc|[]] _. subst c.
    change (exists m s', @ReadMesh Q QEnv ReferenceSamples.mesh_p1_1
                                   ReferenceSamples.declared = Ok (m, s')).
    exists ReferenceSamples.mesh_read, ReferenceSamples.declared.
    vm_compute. reflexivity. }
  assert (Hcount :
            Z.of_nat (mesh_children ReferenceSamples.object_pindex_0) < UINT_MOD)
    by (vm_compute; reflexivity).
  exact (@object_material_is_final Q QEnv ReferenceSamples.object_pindex_0
           blank_scene ReferenceSamples.declared "7" "1" "0"
           ReferenceSamples.group_1_entries ReferenceSamples.entry_A
           Hid Hpid Hpindex Hfind Hat Hmeshes Hcount).
Defined.

(** C6, the code at the failing inputs: a triangle that has [pid] and no
    [p1], and a triangle that has neither while a group of id 0 is declared,
    both set the material index of the mesh, here to 1 whatever it was. *)
Theorem triangle_without_attribute_sets_material :
  Xml.attribute ReferenceSamples.triangle_no_p1 XmlTag.p1 = None
  /\ (forall m,
        @triangle_material Q ReferenceSamples.triangle_no_p1 m
                           ReferenceSamples.declared_2_then_1
        = Ok (aiMesh.set_mMaterialIndex 1 m, ReferenceSamples.declared_2_then_1))
  /\ Sample.material_indices ReferenceSamples.pid_without_p1 = Ok [1]
  /\ Xml.attribute ReferenceSamples.triangle_plain XmlTag.pid = None
  /\ Xml.attribute ReferenceSamples.triangle_plain XmlTag.p1 = None
  /\ (forall m,
        @triangle_material Q ReferenceSamples.triangle_plain m
                           ReferenceSamples.declared_5_then_0
        = Ok (aiMesh.set_mMaterialIndex 1 m, ReferenceSamples.declared_5_then_0))
  /\ Sample.material_indices ReferenceSamples.no_reference_group_0 = Ok [1].
Proof.
  repeat split; vm_compute; reflexivity.
Qed.

(** C7, the code at the failing inputs: a triangle, and an object, that refer
    to position 5 of a group of 2 members: the vector is indexed outside its
    bounds, and the import does not end with a scene. *)
Theorem material_position_unguarded :
  (forall m,
     @triangle_material Q ReferenceSamples.triangle_p1_5 m
                        ReferenceSamples.declared = OutOfBounds)
  /\ (forall m,
        @object_material Q true true "1" "5" m ReferenceSamples.declared
        = OutOfBounds)
  /\ Sample.import ReferenceSamples.triangle_out_of_range = OutOfBounds
  /\ Sample.import ReferenceSamples.object_out_of_range = OutOfBounds.
Proof.
  repeat split; vm_compute; reflexivity.
Qed.

(** C2, the code at the failing input: an object without [id] followed by
    object "7": the root has two children, the first of them null; the one
    mesh of the scene is that of object "7". *)
Theorem object_without_id_leaves_null_child :
  ReferenceSamples.root_children ReferenceSamples.object_without_id
    = Some (2, [None; Some "7"])
  /\ ReferenceSamples.mesh_names ReferenceSamples.object_without_id = Some ["7"].
Proof. split; vm_compute; reflexivity. Qed.

(** ** The monad *)

Section MonadFacts.
Context {ai_real : Type}.
Implicit Types (s : @XmlSerializer ai_real).

Lemma bind_Ok {A B} (m : @M ai_real A) (k : A -> M B) s b s' :
  bind m k s = Ok (b, s') ->
  exists a s1, m s = Ok (a, s1) /\ k a s1 = Ok (b, s').
Proof.
  unfold bind. destruct (m s) as [[a s1]| |]; [|discriminate..].
  intros H. exists a, s1. split; [reflexivity | exact H].
Qed.

Lemma lift_Ok {A} (r : result A) s a s' :
  lift r s = Ok (a, s') -> r = Ok a /\ s' = s.
Proof.
  unfold lift. destruct r; [|discriminate..].
  intros H. injection H as -> ->. split; reflexivity.
Qed.

Lemma ret_Ok {A} (x : A) s a s' : ret x s = Ok (a, s') -> a = x /\ s' = s.
Proof. unfold ret. intros H. injection H as -> ->. split; reflexivity. Qed.

(** A loop over [l1 ++ l2] is the loop over [l1] followed by the loop over
    [l2]. *)
Lemma for_each_app {A B} (body : B -> A -> @M ai_real B) l1 l2 b s :
  for_each body (l1 ++ l2) b s
  = bind (for_each body l1 b) (fun b' => for_each body l2 b') s.
Proof.
  revert b s. induction l1 as [|x l1 IH]; intros b s; cbn [app for_each].
  - reflexivity.
  - unfold bind. destruct (body b x s) as [[b' s1]| |]; [|reflexivity..].
    rewrite IH. reflexivity.
Qed.

(** A computation that only reads the dictionary hands the serializer back. *)
Lemma reads_dictionary_state {A} (m : @M ai_real A) s a s' :
  reads_dictionary m -> m s = Ok (a, s') -> s' = s.
Proof.
  intros Hm Hrun. destruct (Hm s) as [r Hr].
  rewrite (Hr s eq_refl) in Hrun. apply lift_Ok in Hrun. apply Hrun.
Qed.

End MonadFacts.

(** ** Geometry *)

Section Geometry.
Context {ai_real : Type} {E : AssimpEnv ai_real}.
Implicit Types (s : @XmlSerializer ai_real) (m : aiMesh.t ai_real).

Lemma same_geometry_refl m : same_geometry m m.
Proof. destruct m. reflexivity. Qed.

Lemma same_geometry_trans m1 m2 m3 :
  same_geometry m1 m2 -> same_geometry m2 m3 -> same_geometry m1 m3.
Proof.
  unfold same_geometry. intros H12 H23. rewrite H23, H12.
  destruct m1. reflexivity.
Qed.

Lemma same_geometry_set i m : same_geometry m (aiMesh.set_mMaterialIndex i m).
Proof. destruct m. reflexivity. Qed.

Lemma ReadTriangle_face node : is_triangle_face (ReadTriangle node).
Proof.
  unfold is_triangle_face, ReadTriangle. cbn.
  repeat split; repeat constructor; apply to_uint_range.
Qed.

Lemma faces_of_faces node : Forall is_triangle_face (faces_of node).
Proof.
  unfold faces_of. apply Forall_forall. intros f Hin.
  apply in_map_iff in Hin. destruct Hin as (c & <- & _). apply ReadTriangle_face.
Qed.

(** What [resolve] returns differs from the mesh it was given at most in the
    material index. *)
Lemma resolve_same_geometry (d : StdMap.t (list (@material_entry ai_real)))
    pid p1 m m' :
  resolve d pid p1 m = Ok m' -> same_geometry m m'.
Proof.
  unfold resolve. destruct (StdMap.find _ d) as [group|].
  - destruct (StdVector.at_int group _) as [e| |]; [|discriminate..].
    intros H. injection H as <-. apply same_geometry_set.
  - intros H. injection H as <-. apply same_geometry_refl.
Qed.

Lemma triangle_material_same_geometry c m s m' s' :
  triangle_material c m s = Ok (m', s') -> s' = s /\ same_geometry m m'.
Proof.
  rewrite triangle_material_spec. intros H. apply lift_Ok in H.
  destruct H as [H ->]. split; [reflexivity|].
  apply resolve_same_geometry in H. exact H.
Qed.

(** The loop of [ImportTriangles]: one face per [triangle] child, in
    document order; the mesh changes at most in its material index. *)
Lemma ImportTriangles_loop cs : forall faces m s faces' m' s',
  for_each ImportTriangles_step cs (faces, m) s = Ok ((faces', m'), s') ->
  s' = s
  /\ faces' = faces ++ map ReadTriangle (filter is_triangle cs)
  /\ same_geometry m m'.
Proof.
  induction cs as [|c cs IH]; intros faces m s faces' m' s' Hrun.
  - cbn in Hrun. apply ret_Ok in Hrun. destruct Hrun as [Heq ->].
    injection Heq as -> ->. rewrite app_nil_r.
    repeat split. apply same_geometry_refl.
  - cbn [for_each] in Hrun. apply bind_Ok in Hrun.
    destruct Hrun as ([faces1 m1] & s1 & Hstep & Hrest).
    unfold ImportTriangles_step in Hstep. cbn [filter]. fold (is_triangle c) in *.
    destruct (is_triangle c).
    + apply bind_Ok in Hstep. destruct Hstep as (m2 & s2 & Htm & Hret).
      apply ret_Ok in Hret. destruct Hret as [Heq ->]. injection Heq as -> ->.
      apply triangle_material_same_geometry in Htm. destruct Htm as [-> Hg].
      apply IH in Hrest. destruct Hrest as (-> & -> & Hg').
      repeat split.
      * rewrite <- app_assoc. reflexivity.
      * exact (same_geometry_trans Hg Hg').
    + apply ret_Ok in Hstep. destruct Hstep as [Heq ->]. injection Heq as -> ->.
      apply IH in Hrest. exact Hrest.
Qed.

Lemma copy_to_new_array_Ok {A} (v a : list A) :
  StdVector.copy_to_new_array (to_uint (size v)) v = Ok a ->
  a = v /\ size v < UINT_MOD /\ to_uint (size v) = size v.
Proof.
  unfold StdVector.copy_to_new_array.
  destruct (size v <=? to_uint (size v)) eqn:Hle; [|discriminate].
  intros H. injection H as <-. apply Z.leb_le in Hle.
  pose proof (to_uint_range (size v)) as Hr.
  pose proof (size_nonneg v) as H0.
  assert (Hlt : size v < UINT_MOD) by lia.
  repeat split; [exact Hlt | apply to_uint_small; lia].
Qed.

Lemma ImportTriangles_inv node m s m' s' :
  ImportTriangles node m s = Ok (m', s') ->
  s' = s
  /\ size (faces_of node) < UINT_MOD
  /\ exists m1,
       same_geometry m m1
       /\ m' = aiMesh.set_faces (size (faces_of node)) (faces_of node)
                                aiPrimitiveType_TRIANGLE m1.
Proof.
  unfold ImportTriangles. intros Hrun. apply bind_Ok in Hrun.
  destruct Hrun as ([faces m1] & s1 & Hloop & Hrest).
  apply ImportTriangles_loop in Hloop. destruct Hloop as (-> & Hf & Hg).
  cbn [app] in Hf. fold (faces_of node) in Hf. subst faces.
  apply bind_Ok in Hrest. destruct Hrest as (a & s2 & Hcopy & Hret).
  apply lift_Ok in Hcopy. destruct Hcopy as [Hcopy ->].
  apply copy_to_new_array_Ok in Hcopy. destruct Hcopy as (-> & Hlt & Hu).
  apply ret_Ok in Hret. destruct Hret as [-> ->]. rewrite Hu.
  split; [reflexivity|]. split; [exact Hlt|].
  exists m1. split; [exact Hg | reflexivity].
Qed.

Lemma ImportVertices_inv node m s m' s' :
  ImportVertices node m s = Ok (m', s') ->
  s' = s
  /\ size (vertices_of node) < UINT_MOD
  /\ m' = aiMesh.set_vertices (size (vertices_of node)) (vertices_of node) m.
Proof.
  unfold ImportVertices. fold (is_vertex). fold (vertices_of node).
  intros Hrun. apply bind_Ok in Hrun. destruct Hrun as (a & s1 & Hcopy & Hret).
  apply lift_Ok in Hcopy. destruct Hcopy as [Hcopy ->].
  apply copy_to_new_array_Ok in Hcopy. destruct Hcopy as (-> & Hlt & Hu).
  apply ret_Ok in Hret. destruct Hret as [-> ->]. rewrite Hu.
  repeat split. exact Hlt.
Qed.

End Geometry.

Section MeshReading.
Context {ai_real : Type} {E : AssimpEnv ai_real}.
Implicit Types (s : @XmlSerializer ai_real) (m : aiMesh.t ai_real).

Lemma same_geometry_fields m1 m2 :
  same_geometry m1 m2 ->
  aiMesh.mName m2 = aiMesh.mName m1
  /\ aiMesh.mVertices m2 = aiMesh.mVertices m1
  /\ aiMesh.mNumVertices m2 = aiMesh.mNumVertices m1
  /\ aiMesh.mFaces m2 = aiMesh.mFaces m1
  /\ aiMesh.mNumFaces m2 = aiMesh.mNumFaces m1
  /\ aiMesh.mPrimitiveTypes m2 = aiMesh.mPrimitiveTypes m1.
Proof.
  unfold same_geometry. intros ->. destruct m1. cbn. repeat split.
Qed.

Lemma last_child_snoc tag cs c :
  last_child tag (cs ++ [c])
  = if String.eqb (Xml.name c) tag then Some c else last_child tag cs.
Proof. unfold last_child. rewrite rev_app_distr. reflexivity. Qed.

(** X1: when [ImportTriangles] returns, the mesh has one face per
    [triangle] child of the node, in document order, each with exactly
    three [unsigned int] indices; the face count is their number, the
    primitive type is TRIANGLE, and the name, the vertices and the
    serializer are as they were. *)
Theorem ImportTriangles_faces (node : XmlNode) m s m' s' :
  ImportTriangles node m s = Ok (m', s') ->
  s' = s
  /\ aiMesh.mFaces m' = faces_of node
  /\ aiMesh.mNumFaces m' = Z.of_nat (List.length (faces_of node))
  /\ Forall is_triangle_face (aiMesh.mFaces m')
  /\ aiMesh.mPrimitiveTypes m' = aiPrimitiveType_TRIANGLE
  /\ aiMesh.mVertices m' = aiMesh.mVertices m
  /\ aiMesh.mNumVertices m' = aiMesh.mNumVertices m
  /\ aiMesh.mName m' = aiMesh.mName m.
Proof.
  intros Hrun. apply ImportTriangles_inv in Hrun.
  destruct Hrun as (-> & _ & m1 & Hg & ->).
  apply same_geometry_fields in Hg.
  destruct Hg as (Hn & Hv & Hnv & _).
  cbn. repeat split; try assumption. apply faces_of_faces.
Qed.

Lemma ReadMesh_loop cs : forall m0 s m s',
  for_each ReadMesh_step cs m0 s = Ok (m, s') ->
  s' = s
  /\ aiMesh.mName m = aiMesh.mName m0
  /\ vertices_from cs m0 m
  /\ faces_from cs m0 m.
Proof.
  induction cs as [|c cs IH] using rev_ind; intros m0 s m s' Hrun.
  - cbn in Hrun. apply ret_Ok in Hrun. destruct Hrun as [-> ->].
    unfold vertices_from, faces_from. cbn. repeat split.
  - rewrite for_each_app in Hrun. apply bind_Ok in Hrun.
    destruct Hrun as (m1 & s1 & Hcs & Hlast).
    apply IH in Hcs. destruct Hcs as (-> & Hn & Hv & Hf).
    cbn [for_each] in Hlast. apply bind_Ok in Hlast.
    destruct Hlast as (m2 & s2 & Hstep & Hret).
    apply ret_Ok in Hret. destruct Hret as [-> ->].
    unfold vertices_from, faces_from in *. rewrite !last_child_snoc.
    unfold ReadMesh_step in Hstep.
    destruct (String.eqb_spec (Xml.name c) XmlTag.vertices) as [Hcv|Hcv].
    + apply ImportVertices_inv in Hstep. destruct Hstep as (-> & _ & ->).
      rewrite Hcv. cbn -[last_child vertices_of].
      repeat split; try assumption.
    + destruct (String.eqb_spec (Xml.name c) XmlTag.triangles) as [Hct|Hct].
      * apply ImportTriangles_inv in Hstep.
        destruct Hstep as (-> & _ & m3 & Hg & ->).
        apply same_geometry_fields in Hg.
        destruct Hg as (Hn3 & Hv3 & Hnv3 & _).
        cbn -[last_child faces_of]. rewrite Hn3, Hv3, Hnv3.
        repeat split; try assumption.
      * apply ret_Ok in Hstep. destruct Hstep as [-> ->].
        repeat split; assumption.
Qed.

(** X2: when [ReadMesh] returns, the vertices of the mesh are those of the
    last [vertices] child of the node, in document order, and its faces
    those of the last [triangles] child; with no such child they are those
    of a new mesh.  The name is that of a new mesh and the serializer is
    as it was. *)
Theorem ReadMesh_geometry (node : XmlNode) s m s' :
  ReadMesh node s = Ok (m, s') ->
  s' = s
  /\ aiMesh.mName m = aiMesh.mName new_aiMesh
  /\ vertices_from (Xml.children node) new_aiMesh m
  /\ faces_from (Xml.children node) new_aiMesh m.
Proof. unfold ReadMesh. apply ReadMesh_loop. Qed.

End MeshReading.

(** ** The invariant of the dictionary *)

Section DictionaryInvariant.
Context {ai_real : Type} {E : AssimpEnv ai_real}.
Implicit Types (s : @XmlSerializer ai_real) (m : aiMesh.t ai_real)
               (d : StdMap.t (list (@material_entry ai_real))).

Lemma find_In {V} k (v : V) (d : StdMap.t V) :
  StdMap.find k d = Some v -> In (k, v) d.
Proof.
  induction d as [|[k' v'] d IH]; cbn; [discriminate|].
  destruct (Z.eqb_spec k k') as [->|Hne].
  - intros H. injection H as ->. left. reflexivity.
  - intros H. right. apply IH. exact H.
Qed.

Lemma dictionary_indices_In d k group e :
  In (k, group) d -> In e group -> In (fst e) (dictionary_indices d).
Proof.
  intros Hd He. unfold dictionary_indices. apply in_concat.
  exists (map fst group). split.
  - apply in_map_iff. exists (k, group). split; [reflexivity | exact Hd].
  - apply in_map. exact He.
Qed.

Lemma dictionary_indices_insert_sorted k group d :
  Permutation (dictionary_indices (StdMap.insert_sorted k group d))
              (map fst group ++ dictionary_indices d).
Proof.
  induction d as [|[k' v'] d IH]; cbn.
  - reflexivity.
  - destruct (k <? k'); cbn.
    + reflexivity.
    + unfold dictionary_indices in *. cbn.
      rewrite IH. rewrite !app_assoc.
      apply Permutation_app_tail. apply Permutation_app_comm.
Qed.

Lemma at_int_In {A} (v : list A) i e : StdVector.at_int v i = Ok e -> In e v.
Proof.
  unfold StdVector.at_int. destruct (to_size_t i <? size v); [|discriminate].
  destruct (nth_error v _) eqn:Hn; [|discriminate].
  intros H. injection H as ->. apply nth_error_In in Hn. exact Hn.
Qed.

(** The material index that [resolve] leaves is the one it found, or one of
    the dictionary. *)
Lemma resolve_index d pid p1 m m' :
  resolve d pid p1 m = Ok m' ->
  aiMesh.mMaterialIndex m' = aiMesh.mMaterialIndex m
  \/ In (aiMesh.mMaterialIndex m') (dictionary_indices d).
Proof.
  unfold resolve. destruct (StdMap.find _ d) as [group|] eqn:Hf.
  - destruct (StdVector.at_int group _) as [e| |] eqn:Hat; [|discriminate..].
    intros H. injection H as <-. right.
    destruct m; cbn.
    apply (dictionary_indices_In _ _ _ _ (find_In _ _ Hf) (at_int_In _ _ Hat)).
  - intros H. injection H as <-. left. reflexivity.
Qed.

(** While the counter does not wrap, [ReadBaseMaterials] keeps the
    invariant of the dictionary and advances the counter by the number of
    members. *)
Lemma ReadBaseMaterials_dictionary_ok node s :
  dictionary_ok s ->
  mMaterialCount s + Z.of_nat (base_count node) < UINT_MOD ->
  exists s1,
    ReadBaseMaterials node s = Ok (tt, s1)
    /\ dictionary_ok s1
    /\ mMaterialCount s1 = mMaterialCount s + Z.of_nat (base_count node)
    /\ mMeshes s1 = mMeshes s
    /\ mMetaData s1 = mMetaData s
    /\ mXmlParser s1 = mXmlParser s.
Proof.
  intros (Hc & Hnd & Hall) Hwrap.
  destruct (ReadBaseMaterials_spec node s) as (c & Hrun & _).
  destruct (ReadBaseMaterials_indices node s (proj1 Hc) Hwrap)
    as (s1 & Hrun' & Hcount & Hidx).
  rewrite Hrun in Hrun'. injection Hrun' as Hs1.
  exists s1. split; [rewrite Hrun, Hs1; reflexivity|].
  assert (Hd : mBasematerialsDictionnary s1
               = StdMap.insert (group_id node) (declared_materials node s)
                               (mBasematerialsDictionnary s)).
  { rewrite <- Hs1. reflexivity. }
  assert (Hframe : mMeshes s1 = mMeshes s /\ mMetaData s1 = mMetaData s
                   /\ mXmlParser s1 = mXmlParser s).
  { rewrite <- Hs1. destruct s; cbn. repeat split. }
  split; [|split; [exact Hcount | exact Hframe]].
  unfold dictionary_ok. rewrite Hd, Hcount. split; [lia|].
  unfold StdMap.insert.
  destruct (StdMap.find (group_id node) (mBasematerialsDictionnary s)) eqn:Hf.
  - split; [exact Hnd|].
    eapply Forall_impl; [|exact Hall]. cbn. intros i Hi. lia.
  - pose proof (dictionary_indices_insert_sorted (group_id node)
                  (declared_materials node s) (mBasematerialsDictionnary s)) as Hp.
    rewrite Hidx in Hp. split.
    + eapply Permutation_NoDup; [symmetry; exact Hp|].
      apply NoDup_app; [apply counter_values_NoDup | exact Hnd |].
      intros i Hi Hold. apply counter_values_In in Hi.
      rewrite Forall_forall in Hall. apply Hall in Hold. lia.
    + eapply Permutation_Forall; [symmetry; exact Hp|].
      apply Forall_app. split.
      * apply Forall_forall. intros i Hi. apply counter_values_In in Hi. lia.
      * eapply Forall_impl; [|exact Hall]. cbn. intros i Hi. lia.
Qed.

End DictionaryInvariant.

(** ** Meshes and objects, whatever their references *)

Section ObjectReading.
Context {ai_real : Type} {E : AssimpEnv ai_real}.
Implicit Types (s : @XmlSerializer ai_real) (m : aiMesh.t ai_real).

Lemma index_from_refl s m : index_from s m m.
Proof. left. reflexivity. Qed.

Lemma index_from_trans s m1 m2 m3 :
  index_from s m1 m2 -> index_from s m2 m3 -> index_from s m1 m3.
Proof.
  unfold index_from. intros [H12|H12] [H23|H23]; try (right; assumption).
  - left. rewrite H23. exact H12.
  - right. rewrite H23. exact H12.
Qed.

Lemma triangle_material_index c m s m' s' :
  triangle_material c m s = Ok (m', s') -> index_from s m m'.
Proof.
  rewrite triangle_material_spec. intros H. apply lift_Ok in H.
  destruct H as [H _]. apply resolve_index in H. exact H.
Qed.

Lemma object_material_inv hasPid hasPindex pid pindex m s m' s' :
  object_material hasPid hasPindex pid pindex m s = Ok (m', s') ->
  s' = s /\ same_geometry m m' /\ index_from s m m'.
Proof.
  rewrite object_material_spec. destruct (hasPid && hasPindex).
  - intros H. apply lift_Ok in H. destruct H as [H ->].
    split; [reflexivity|]. split.
    + apply resolve_same_geometry in H. exact H.
    + apply resolve_index in H. exact H.
  - intros H. injection H as <- <-.
    split; [reflexivity|]. split; [apply same_geometry_refl | apply index_from_refl].
Qed.

Lemma ImportTriangles_loop_index cs : forall faces m s faces' m' s',
  for_each ImportTriangles_step cs (faces, m) s = Ok ((faces', m'), s') ->
  index_from s m m'.
Proof.
  induction cs as [|c cs IH]; intros faces m s faces' m' s' Hrun.
  - cbn in Hrun. apply ret_Ok in Hrun. destruct Hrun as [Heq _].
    injection Heq as _ ->. apply index_from_refl.
  - cbn [for_each] in Hrun. apply bind_Ok in Hrun.
    destruct Hrun as ([faces1 m1] & s1 & Hstep & Hrest).
    unfold ImportTriangles_step in Hstep.
    destruct (String.eqb (Xml.name c) XmlTag.triangle).
    + apply bind_Ok in Hstep. destruct Hstep as (m2 & s2 & Htm & Hret).
      apply ret_Ok in Hret. destruct Hret as [Heq ->]. injection Heq as -> ->.
      pose proof (triangle_material_index _ _ _ Htm) as Hi.
      apply triangle_material_same_geometry in Htm. destruct Htm as [-> _].
      apply IH in Hrest. exact (index_from_trans Hi Hrest).
    + apply ret_Ok in Hstep. destruct Hstep as [Heq ->]. injection Heq as -> ->.
      apply IH in Hrest. exact Hrest.
Qed.

Lemma ImportTriangles_index node m s m' s' :
  ImportTriangles node m s = Ok (m', s') -> index_from s m m'.
Proof.
  unfold ImportTriangles. intros Hrun. apply bind_Ok in Hrun.
  destruct Hrun as ([faces m1] & s1 & Hloop & Hrest).
  pose proof (ImportTriangles_loop_index _ _ _ _ Hloop) as Hi.
  apply bind_Ok in Hrest. destruct Hrest as (a & s2 & _ & Hret).
  apply ret_Ok in Hret. destruct Hret as [-> _].
  destruct Hi as [Hi|Hi]; [left | right]; destruct m1; exact Hi.
Qed.

Lemma ReadMesh_loop_index cs : forall m0 s m s',
  for_each ReadMesh_step cs m0 s = Ok (m, s') -> index_from s m0 m.
Proof.
  induction cs as [|c cs IH]; intros m0 s m s' Hrun.
  - cbn in Hrun. apply ret_Ok in Hrun. destruct Hrun as [-> _].
    apply index_from_refl.
  - cbn [for_each] in Hrun. apply bind_Ok in Hrun.
    destruct Hrun as (m1 & s1 & Hstep & Hrest).
    assert (Hs1 : s1 = s /\ index_from s m0 m1).
    { unfold ReadMesh_step in Hstep.
      destruct (String.eqb (Xml.name c) XmlTag.vertices).
      - apply ImportVertices_inv in Hstep. destruct Hstep as (-> & _ & ->).
        split; [reflexivity|]. left. destruct m0; reflexivity.
      - destruct (String.eqb (Xml.name c) XmlTag.triangles).
        + pose proof (ImportTriangles_index _ _ _ Hstep) as Hi.
          apply ImportTriangles_inv in Hstep. destruct Hstep as (-> & _).
          split; [reflexivity | exact Hi].
        + apply ret_Ok in Hstep. destruct Hstep as [-> ->].
          split; [reflexivity | apply index_from_refl]. }
    destruct Hs1 as [-> Hi]. apply IH in Hrest.
    exact (index_from_trans Hi Hrest).
Qed.

(** The loop of [ReadObject], whatever the object refers to: one mesh is
    pushed per [mesh] child, named after the object, and the local indices
    are the consecutive positions from [meshIdx] on. *)
Lemma ReadObject_loop_inv id hasPid hasPindex pid pindex cs :
  forall meshIds meshIdx s meshIds' meshIdx' s',
  for_each (ReadObject_step id hasPid hasPindex pid pindex) cs
           (meshIds, meshIdx) s = Ok ((meshIds', meshIdx'), s') ->
  exists new,
    s' = set_mMeshes (mMeshes s ++ new) s
    /\ meshIds' = meshIds ++ counter_values meshIdx (List.length new)
    /\ List.length new = List.length (filter is_mesh cs)
    /\ Forall (fun m =>
                 aiMesh.mName m = aiString.set id (aiMesh.mName new_aiMesh)
                 /\ index_from s new_aiMesh m) new.
Proof.
  induction cs as [|c cs IH]; intros meshIds meshIdx s meshIds' meshIdx' s' Hrun.
  - cbn in Hrun. apply ret_Ok in Hrun. destruct Hrun as [Heq ->].
    injection Heq as -> ->. exists []. rewrite set_mMeshes_nil. cbn.
    rewrite app_nil_r. repeat split. constructor.
  - cbn [for_each filter] in Hrun. apply bind_Ok in Hrun.
    destruct Hrun as ([ids1 idx1] & s1 & Hstep & Hrest).
    unfold ReadObject_step in Hstep. fold (is_mesh c) in *.
    cbn [filter]. destruct (is_mesh c).
    + apply bind_Ok in Hstep. destruct Hstep as (m0 & s2 & Hmesh & Hstep).
      pose proof (ReadMesh_loop_index _ _ _ Hmesh) as Hi0.
      apply ReadMesh_loop in Hmesh. destruct Hmesh as (-> & Hname & _ & _).
      apply bind_Ok in Hstep. destruct Hstep as (m1 & s3 & Hobj & Hstep).
      apply object_material_inv in Hobj. destruct Hobj as (-> & Hg & Hi1).
      apply bind_Ok in Hstep. destruct Hstep as ([] & s4 & Hmod & Hret).
      unfold modify in Hmod. injection Hmod as <-.
      apply ret_Ok in Hret. destruct Hret as [Heq ->]. injection Heq as -> ->.
      apply IH in Hrest. destruct Hrest as (new & -> & -> & Hlen & Hall).
      exists (m1 :: new). rewrite set_mMeshes_app. cbn [app List.length].
      repeat split.
      * rewrite <- app_assoc. reflexivity.
      * rewrite Hlen. reflexivity.
      * constructor.
        -- apply same_geometry_fields in Hg. destruct Hg as (Hn & _).
           rewrite Hn. cbn. rewrite Hname. split; [reflexivity|].
           assert (Hi0' : index_from s new_aiMesh
                            (aiMesh.set_mName
                               (aiString.set id (aiMesh.mName m0)) m0)).
           { destruct Hi0 as [Hi0|Hi0]; [left | right]; destruct m0; exact Hi0. }
           rewrite Hname in Hi0'. rewrite Hname in Hi1.
           exact (index_from_trans Hi0' Hi1).
        -- eapply Forall_impl; [|exact Hall]. cbn. intros m [Hn Hi].
           split; [exact Hn|]. destruct s; exact Hi.
    + apply ret_Ok in Hstep. destruct Hstep as [Heq ->]. injection Heq as -> ->.
      apply IH in Hrest. exact Hrest.
Qed.

End ObjectReading.

Section ObjectNodes.
Context {ai_real : Type} {E : AssimpEnv ai_real}.
Implicit Types (s : @XmlSerializer ai_real) (m : aiMesh.t ai_real).

Lemma to_size_t_small z : 0 <= z < UINT_MOD -> to_size_t z = z.
Proof.
  intros H. unfold to_size_t. apply Z.mod_small.
  unfold UINT_MOD, SIZE_MOD in *. lia.
Qed.

Lemma map_to_uint_counter_values c n :
  0 <= c -> c + Z.of_nat n <= UINT_MOD ->
  map to_uint (counter_values c n) = counter_values c n.
Proof.
  revert c. induction n as [|n IH]; intros c H0 Hle; cbn [counter_values map].
  - reflexivity.
  - rewrite to_uint_small by lia. rewrite IH by lia. reflexivity.
Qed.

(** What [ReadObject] returns and leaves, read off its code. *)
Lemma ReadObject_inv node (sc : aiScene.t ai_real) s r s' :
  ReadObject node sc s = Ok (r, s') ->
  match Xml.attribute node XmlTag.id with
  | None => r = None /\ s' = s
  | Some id =>
      exists n new,
        r = Some n
        /\ s' = set_mMeshes (mMeshes s ++ new) s
        /\ List.length new = mesh_children node
        /\ Z.of_nat (mesh_children node) < UINT_MOD
        /\ aiNode.mName n = aiString.set id (aiNode.mName new_aiNode)
        /\ aiNode.mParent n
           = match aiScene.mRootNode sc with
             | Some _ => Some aiNode.SceneRoot
             | None => None
             end
        /\ aiNode.mNumMeshes n = Z.of_nat (mesh_children node)
        /\ aiNode.mMeshes n
           = map to_uint
               (counter_values (to_size_t (size (mMeshes s))) (List.length new))
        /\ aiNode.mNumChildren n = aiNode.mNumChildren new_aiNode
        /\ aiNode.mChildren n = aiNode.mChildren new_aiNode
        /\ Forall (fun m =>
                     aiMesh.mName m = aiString.set id (aiMesh.mName new_aiMesh)
                     /\ index_from s new_aiMesh m) new
  end.
Proof.
  destruct (Xml.attribute node XmlTag.id) as [id|] eqn:Hid.
  2:{ rewrite (ReadObject_without_id _ _ _ Hid). intros H.
      injection H as <- <-. split; reflexivity. }
  unfold ReadObject. rewrite (getNodeAttribute_present _ _ _ Hid).
  destruct (getNodeAttribute node XmlTag.pid "") as [hasPid pid].
  destruct (getNodeAttribute node XmlTag.pindex "") as [hasPindex pindex].
  cbn [negb]. intros Hrun.
  apply bind_Ok in Hrun. destruct Hrun as (s0 & s1 & Hget & Hrun).
  unfold get in Hget. injection Hget as <- <-.
  apply bind_Ok in Hrun. destruct Hrun as ([ids idx] & s2 & Hloop & Hrun).
  apply ReadObject_loop_inv in Hloop.
  destruct Hloop as (new & -> & Hids & Hlen & Hall). cbn [app] in Hids.
  apply bind_Ok in Hrun. destruct Hrun as (a & s3 & Hcopy & Hret).
  apply lift_Ok in Hcopy. destruct Hcopy as [Hcopy ->].
  apply ret_Ok in Hret. destruct Hret as [-> ->].
  assert (Hsz : size (map to_uint ids) = size ids).
  { unfold size. rewrite length_map. reflexivity. }
  unfold StdVector.copy_to_new_array in Hcopy. rewrite Hsz in Hcopy.
  destruct (size ids <=? to_uint (size ids)) eqn:Hle; [|discriminate].
  injection Hcopy as <-. apply Z.leb_le in Hle.
  pose proof (to_uint_range (size ids)) as Hr.
  assert (Hk : size ids = Z.of_nat (mesh_children node)).
  { unfold size, mesh_children. rewrite Hids, counter_values_length, Hlen.
    reflexivity. }
  assert (Hu : to_uint (size ids) = size ids).
  { apply to_uint_small. unfold size in *. lia. }
  exists (aiNode.set_meshes (to_uint (size ids)) (map to_uint ids)
            (aiNode.set_mName (aiString.set id (aiNode.mName
               (aiNode.set_mParent
                  match aiScene.mRootNode sc with
                  | Some _ => Some aiNode.SceneRoot
                  | None => None
                  end new_aiNode)))
               (aiNode.set_mParent
                  match aiScene.mRootNode sc with
                  | Some _ => Some aiNode.SceneRoot
                  | None => None
                  end new_aiNode))), new.
  split; [reflexivity|]. split; [reflexivity|]. split; [exact Hlen|].
  split; [lia|].
  destruct new_aiNode as [nm pa nmsh msh nch ch]. cbn.
  repeat split; try assumption.
  - rewrite Hu. exact Hk.
  - rewrite Hids. reflexivity.
Qed.

(** X3: when [ReadObject] returns a node and the mesh list still fits an
    [unsigned int] count, the object has appended one mesh per [mesh]
    child at the end of the serializer's mesh list and changed nothing
    else; the node's mesh indices are exactly the positions of those
    meshes, in order, and its mesh count is their number. *)
Theorem ReadObject_mesh_references (node : XmlNode) (sc : aiScene.t ai_real)
    s (n : aiNode.t) s' :
  ReadObject node sc s = Ok (Some n, s') ->
  size (mMeshes s') < UINT_MOD ->
  exists new,
    s' = set_mMeshes (mMeshes s ++ new) s
    /\ List.length new = mesh_children node
    /\ aiNode.mNumMeshes n = Z.of_nat (List.length new)
    /\ aiNode.mMeshes n = counter_values (size (mMeshes s)) (List.length new)
    /\ forall k, (k < List.length new)%nat ->
         nth_error (mMeshes s') (Z.to_nat (nth k (aiNode.mMeshes n) 0))
         = nth_error new k.
Proof.
  intros Hrun Hfit. apply ReadObject_inv in Hrun.
  destruct (Xml.attribute node XmlTag.id) as [id|]; [|destruct Hrun; discriminate].
  destruct Hrun as (n0 & new & Heq & -> & Hlen & _ & _ & _ & Hnum & Hidx & _).
  injection Heq as <-. exists new.
  assert (Hsz : size (mMeshes s) + Z.of_nat (List.length new) < UINT_MOD).
  { destruct s; cbn in *. rewrite size_app in Hfit. unfold size in *. lia. }
  pose proof (size_nonneg (mMeshes s)) as H0.
  assert (Hidx' : aiNode.mMeshes n
                  = counter_values (size (mMeshes s)) (List.length new)).
  { rewrite Hidx, to_size_t_small by lia.
    apply map_to_uint_counter_values; lia. }
  split; [reflexivity|]. split; [exact Hlen|].
  split; [rewrite Hnum, Hlen; reflexivity|]. split; [exact Hidx'|].
  intros k Hk. rewrite Hidx'.
  assert (Hnth : forall c j d, (j < d)%nat ->
                   nth j (counter_values c d) 0 = c + Z.of_nat j).
  { intros c j d. revert c j. induction d as [|d IH]; intros c j Hj; [lia|].
    destruct j as [|j]; cbn [counter_values nth]; [lia|].
    rewrite IH by lia. lia. }
  rewrite Hnth by exact Hk.
  replace (Z.to_nat (size (mMeshes s) + Z.of_nat k))
    with (List.length (mMeshes s) + k)%nat by (unfold size; lia).
  destruct s; cbn. rewrite nth_error_app2 by lia.
  f_equal. lia.
Qed.

End ObjectNodes.

(** ** The walk over the resources *)

Section Walk.
Context {ai_real : Type} {E : AssimpEnv ai_real}.
Implicit Types (s : @XmlSerializer ai_real) (m : aiMesh.t ai_real)
               (sc : aiScene.t ai_real).

(** What [ReadBaseMaterials] leaves alone. *)
Lemma ReadBaseMaterials_frame node s u s' :
  ReadBaseMaterials node s = Ok (u, s') ->
  mMeshes s' = mMeshes s /\ mMetaData s' = mMetaData s
  /\ mXmlParser s' = mXmlParser s.
Proof.
  destruct (ReadBaseMaterials_spec node s) as (c & Hrun & _).
  rewrite Hrun. intros H. injection H as _ <-. destruct s. cbn. repeat split.
Qed.

Lemma ReadMetadata_spec node s :
  ReadMetadata node s
  = Ok (tt, if String.eqb (meta_name_of node) ""
            then s
            else set_mMetaData
                   (mMetaData s ++ [mkMetaEntry (meta_name_of node) (Xml.value node)])
                   s).
Proof.
  unfold ReadMetadata. fold (meta_name_of node).
  destruct (String.eqb (meta_name_of node) ""); reflexivity.
Qed.

(** The four ways of one turn of the loop of [ImportXml]. *)
Lemma ImportXml_step_cases sc children c s :
  ImportXml_step sc children c s =
    if is_object c then
      bind (ReadObject c sc) (fun n => ret (children ++ [n])) s
    else if is_basematerials c then
      bind (ReadBaseMaterials c) (fun _ => ret children) s
    else if is_meta c then
      bind (ReadMetadata c) (fun _ => ret children) s
    else Ok (children, s).
Proof.
  unfold ImportXml_step, is_object, is_basematerials, is_meta.
  destruct (String.eqb (Xml.name c) XmlTag.object); [reflexivity|].
  destruct (String.eqb_spec (Xml.name c) XmlTag.build) as [Hb|Hb].
  - rewrite Hb. reflexivity.
  - destruct (String.eqb (Xml.name c) XmlTag.basematerials); [reflexivity|].
    destruct (String.eqb (Xml.name c) XmlTag.meta); reflexivity.
Qed.

Lemma is_object_exclusive c :
  is_object c = true -> is_basematerials c = false /\ is_meta c = false.
Proof.
  unfold is_object, is_basematerials, is_meta. intros H.
  apply String.eqb_eq in H. rewrite H. split; reflexivity.
Qed.

Lemma is_basematerials_exclusive c :
  is_basematerials c = true -> is_object c = false /\ is_meta c = false.
Proof.
  unfold is_object, is_basematerials, is_meta. intros H.
  apply String.eqb_eq in H. rewrite H. split; reflexivity.
Qed.

Lemma is_meta_exclusive c :
  is_meta c = true -> is_object c = false /\ is_basematerials c = false.
Proof.
  unfold is_object, is_basematerials, is_meta. intros H.
  apply String.eqb_eq in H. rewrite H. split; reflexivity.
Qed.

Lemma set_mMetaData_app s l1 l2 :
  mMetaData (set_mMetaData (mMetaData s ++ l1) s) ++ l2
  = mMetaData s ++ l1 ++ l2.
Proof. destruct s. cbn. rewrite app_assoc. reflexivity. Qed.

(** The walk, as far as no invariant is needed: metadata entries are
    collected in document order, meshes are only appended, one entry of
    [children] is pushed per [object] node. *)
Lemma walk_frame sc nodes : forall children s children' s',
  for_each (ImportXml_step sc) nodes children s = Ok (children', s') ->
  mMetaData s' = mMetaData s ++ meta_entries nodes
  /\ mXmlParser s' = mXmlParser s
  /\ (exists new, mMeshes s' = mMeshes s ++ new)
  /\ (exists added,
        children' = children ++ added
        /\ List.length added = List.length (filter is_object nodes)).
Proof.
  induction nodes as [|c nodes IH]; intros children s children' s' Hrun.
  - cbn in Hrun. apply ret_Ok in Hrun. destruct Hrun as [-> ->].
    unfold meta_entries. cbn. rewrite !app_nil_r.
    repeat split; [exists [] | exists []]; rewrite ?app_nil_r; auto.
  - cbn [for_each] in Hrun. apply bind_Ok in Hrun.
    destruct Hrun as (ch1 & s1 & Hstep & Hrest).
    apply IH in Hrest. destruct Hrest as (Hmd & Hxp & (new & Hms) & (added & -> & Hlen)).
    rewrite ImportXml_step_cases in Hstep.
    unfold meta_entries in *. cbn [filter].
    destruct (is_object c) eqn:Hobj.
    + destruct (is_object_exclusive c Hobj) as [_ ->]. cbn [andb].
      apply bind_Ok in Hstep. destruct Hstep as (n & s2 & Hro & Hret).
      apply ret_Ok in Hret. destruct Hret as [-> <-].
      apply ReadObject_inv in Hro.
      assert (Hs1 : mMetaData s1 = mMetaData s /\ mXmlParser s1 = mXmlParser s
                    /\ exists new1, mMeshes s1 = mMeshes s ++ new1).
      { destruct (Xml.attribute c XmlTag.id).
        - destruct Hro as (n0 & new1 & _ & -> & _). destruct s; cbn.
          repeat split. exists new1. reflexivity.
        - destruct Hro as [_ ->]. repeat split. exists []. rewrite app_nil_r.
          reflexivity. }
      destruct Hs1 as (Hmd1 & Hxp1 & new1 & Hms1).
      rewrite Hmd, Hxp, Hms, Hmd1, Hxp1, Hms1.
      repeat split.
      * exists (new1 ++ new). rewrite app_assoc. reflexivity.
      * exists (n :: added). rewrite <- app_assoc. cbn [app List.length].
        split; [reflexivity | rewrite Hlen; reflexivity].
    + destruct (is_basematerials c) eqn:Hbm.
      * destruct (is_basematerials_exclusive c Hbm) as [_ ->]. cbn [andb].
        apply bind_Ok in Hstep. destruct Hstep as (u & s2 & Hrb & Hret).
        apply ret_Ok in Hret. destruct Hret as [-> <-].
        apply ReadBaseMaterials_frame in Hrb. destruct Hrb as (Hms1 & Hmd1 & Hxp1).
        rewrite Hmd, Hxp, Hms, Hmd1, Hxp1, Hms1.
        repeat split; [exists new | exists added]; auto.
      * destruct (is_meta c) eqn:Hmeta.
        -- apply bind_Ok in Hstep. destruct Hstep as ([] & s2 & Hrm & Hret).
           apply ret_Ok in Hret. destruct Hret as [-> <-].
           rewrite ReadMetadata_spec in Hrm. cbn [andb].
           destruct (String.eqb (meta_name_of c) ""); cbn [negb map];
             injection Hrm as <-; rewrite Hmd, Hxp, Hms.
           ++ repeat split; [exists new | exists added]; auto.
           ++ rewrite set_mMetaData_app. cbn [app].
              split; [reflexivity|]. split; [destruct s; reflexivity|].
              split; [exists new; destruct s; reflexivity | exists added; auto].
        -- injection Hstep as <- <-. cbn [andb].
           rewrite Hmd, Hxp, Hms.
           repeat split; [exists new | exists added]; auto.
Qed.

End Walk.

Section WalkInvariants.
Context {ai_real : Type} {E : AssimpEnv ai_real}.
Implicit Types (s : @XmlSerializer ai_real) (m : aiMesh.t ai_real)
               (sc : aiScene.t ai_real).

Lemma material_index_ok_mono n n' m :
  n <= n' -> material_index_ok n m -> material_index_ok n' m.
Proof. unfold material_index_ok. intros Hle [H|H]; [left; exact H | right; lia]. Qed.

(** Under the invariant, an index that comes from the dictionary is a slot
    below the counter. *)
Lemma index_from_ok s m :
  dictionary_ok s -> index_from s new_aiMesh m ->
  material_index_ok (mMaterialCount s) m.
Proof.
  intros (_ & _ & Hall) [H|H]; [left; exact H | right].
  rewrite Forall_forall in Hall. apply Hall. exact H.
Qed.

Lemma walk_members_cons c nodes :
  walk_members (c :: nodes)
  = ((if is_basematerials c then base_count c else 0) + walk_members nodes)%nat.
Proof.
  unfold walk_members, total_members. cbn [filter].
  destruct (is_basematerials c); reflexivity.
Qed.

(** The walk keeps the invariant of the dictionary while the counter does
    not wrap, and every mesh it adds has a material index that is the one
    of a new mesh or a slot below the counter. *)
Lemma walk_materials sc nodes : forall children s children' s',
  for_each (ImportXml_step sc) nodes children s = Ok (children', s') ->
  dictionary_ok s ->
  mMaterialCount s + Z.of_nat (walk_members nodes) < UINT_MOD ->
  Forall (material_index_ok (mMaterialCount s)) (mMeshes s) ->
  dictionary_ok s'
  /\ mMaterialCount s' = mMaterialCount s + Z.of_nat (walk_members nodes)
  /\ Forall (material_index_ok (mMaterialCount s')) (mMeshes s').
Proof.
  induction nodes as [|c nodes IH]; intros children s children' s' Hrun Hok Hwrap Hms.
  - cbn in Hrun. apply ret_Ok in Hrun. destruct Hrun as [_ ->].
    unfold walk_members, total_members. cbn. rewrite Z.add_0_r. auto.
  - cbn [for_each] in Hrun. apply bind_Ok in Hrun.
    destruct Hrun as (ch1 & s1 & Hstep & Hrest).
    rewrite walk_members_cons in *.
    rewrite ImportXml_step_cases in Hstep.
    destruct (is_object c) eqn:Hobj.
    + destruct (is_object_exclusive c Hobj) as [Hbm _]. rewrite Hbm in *.
      apply bind_Ok in Hstep. destruct Hstep as (n & s2 & Hro & Hret).
      apply ret_Ok in Hret. destruct Hret as [-> <-].
      apply ReadObject_inv in Hro.
      assert (Hs1 : dictionary_ok s1 /\ mMaterialCount s1 = mMaterialCount s
                    /\ Forall (material_index_ok (mMaterialCount s1)) (mMeshes s1)).
      { destruct (Xml.attribute c XmlTag.id).
        - destruct Hro as (n0 & new1 & _ & -> & _ & _ & _ & _ & _ & _ & _ & _ & Hall).
          split; [destruct s; exact Hok|]. split; [destruct s; reflexivity|].
          replace (mMaterialCount (set_mMeshes (mMeshes s ++ new1) s))
            with (mMaterialCount s) by (destruct s; reflexivity).
          replace (mMeshes (set_mMeshes (mMeshes s ++ new1) s))
            with (mMeshes s ++ new1) by (destruct s; reflexivity).
          apply Forall_app. split; [exact Hms|].
          eapply Forall_impl; [|exact Hall]. cbn. intros m [_ Hi].
          apply index_from_ok; assumption.
        - destruct Hro as [_ ->]. auto. }
      destruct Hs1 as (Hok1 & Hc1 & Hms1).
      destruct (IH _ _ _ _ Hrest Hok1) as (Hok' & Hc' & Hms'); [lia | exact Hms1 |].
      split; [exact Hok'|]. split; [lia | exact Hms'].
    + destruct (is_basematerials c) eqn:Hbm.
      * apply bind_Ok in Hstep. destruct Hstep as ([] & s2 & Hrb & Hret).
        apply ret_Ok in Hret. destruct Hret as [-> <-].
        destruct (@ReadBaseMaterials_dictionary_ok _ _ c s Hok)
          as (s1' & Hrb' & Hok1 & Hc1 & Hm1 & _); [lia|].
        rewrite Hrb in Hrb'. injection Hrb' as <-.
        destruct (IH _ _ _ _ Hrest Hok1) as (Hok' & Hc' & Hms'); [lia | |].
        { rewrite Hm1. eapply Forall_impl; [|exact Hms].
          intros m. apply material_index_ok_mono. lia. }
        split; [exact Hok'|]. split; [lia | exact Hms'].
      * assert (Hs1 : dictionary_ok s1 /\ mMaterialCount s1 = mMaterialCount s
                      /\ mMeshes s1 = mMeshes s).
        { destruct (is_meta c).
          - apply bind_Ok in Hstep. destruct Hstep as ([] & s2 & Hrm & Hret).
            apply ret_Ok in Hret. destruct Hret as [-> <-].
            rewrite ReadMetadata_spec in Hrm.
            destruct (String.eqb (meta_name_of c) ""); injection Hrm as <-.
            + auto.
            + destruct s; cbn in *. auto.
          - injection Hstep as _ <-. auto. }
        destruct Hs1 as (Hok1 & Hc1 & Hm1).
        destruct (IH _ _ _ _ Hrest Hok1) as (Hok' & Hc' & Hms'); [lia | |].
        { rewrite Hm1, Hc1. exact Hms. }
        split; [exact Hok'|]. split; [lia | exact Hms'].
Qed.

Lemma children_refs_ok_mono k k' children :
  k <= k' -> children_refs_ok k children -> children_refs_ok k' children.
Proof.
  intros Hle. unfold children_refs_ok. apply Forall_impl.
  intros [n|]; [|auto]. unfold node_refs_ok. intros [Hn Hall].
  split; [exact Hn|]. eapply Forall_impl; [|exact Hall]. cbn. intros i Hi. lia.
Qed.

(** The node that [ReadObject] returns refers to positions of the mesh list
    it leaves, as long as that list fits an [unsigned int] count. *)
Lemma ReadObject_refs_ok node sc s n s' :
  ReadObject node sc s = Ok (Some n, s') ->
  size (mMeshes s') < UINT_MOD ->
  node_refs_ok (size (mMeshes s')) n.
Proof.
  intros Hrun Hfit. apply ReadObject_inv in Hrun.
  destruct (Xml.attribute node XmlTag.id) as [id|]; [|destruct Hrun; discriminate].
  destruct Hrun as (n0 & new & Heq & -> & Hlen & _ & _ & _ & Hnum & Hidx & _).
  injection Heq as <-.
  assert (Hsz : mMeshes (set_mMeshes (mMeshes s ++ new) s) = mMeshes s ++ new)
    by (destruct s; reflexivity).
  rewrite Hsz in *. rewrite size_app in *.
  pose proof (size_nonneg (mMeshes s)) as H0.
  assert (Hnew : size new = Z.of_nat (List.length new)) by reflexivity.
  rewrite to_size_t_small in Hidx by lia.
  rewrite map_to_uint_counter_values in Hidx by lia.
  unfold node_refs_ok. rewrite Hnum, Hidx. split.
  - unfold size. rewrite counter_values_length, Hlen. reflexivity.
  - apply Forall_forall. intros i Hi. apply counter_values_In in Hi. lia.
Qed.

(** The walk keeps the mesh indices of the nodes it has pushed inside the
    mesh list. *)
Lemma walk_children sc nodes : forall children s children' s',
  for_each (ImportXml_step sc) nodes children s = Ok (children', s') ->
  size (mMeshes s') < UINT_MOD ->
  children_refs_ok (size (mMeshes s)) children ->
  children_refs_ok (size (mMeshes s')) children'.
Proof.
  induction nodes as [|c nodes IH]; intros children s children' s' Hrun Hfit Hch.
  - cbn in Hrun. apply ret_Ok in Hrun. destruct Hrun as [-> ->]. exact Hch.
  - cbn [for_each] in Hrun. apply bind_Ok in Hrun.
    destruct Hrun as (ch1 & s1 & Hstep & Hrest).
    pose proof (walk_frame _ _ _ _ Hrest) as (_ & _ & (new & Hgrow) & _).
    assert (Hfit1 : size (mMeshes s1) < UINT_MOD).
    { rewrite Hgrow, size_app in Hfit. pose proof (size_nonneg new). lia. }
    apply (IH _ _ _ _ Hrest Hfit). clear IH Hrest.
    rewrite ImportXml_step_cases in Hstep.
    destruct (is_object c).
    + apply bind_Ok in Hstep. destruct Hstep as (n & s2 & Hro & Hret).
      apply ret_Ok in Hret. destruct Hret as [-> <-].
      assert (Hle : size (mMeshes s) <= size (mMeshes s1)).
      { apply ReadObject_inv in Hro. destruct (Xml.attribute c XmlTag.id).
        - destruct Hro as (n0 & new1 & _ & -> & _).
          replace (mMeshes (set_mMeshes (mMeshes s ++ new1) s))
            with (mMeshes s ++ new1) by (destruct s; reflexivity).
          rewrite size_app. pose proof (size_nonneg new1). lia.
        - destruct Hro as [_ ->]. lia. }
      apply Forall_app. split.
      * exact (children_refs_ok_mono Hle Hch).
      * constructor; [|constructor]. destruct n as [n|]; [|exact I].
        exact (ReadObject_refs_ok _ _ _ Hro Hfit1).
    + assert (Hs1 : ch1 = children /\ mMeshes s1 = mMeshes s).
      { destruct (is_basematerials c).
        - apply bind_Ok in Hstep. destruct Hstep as ([] & s2 & Hrb & Hret).
          apply ret_Ok in Hret. destruct Hret as [-> <-].
          apply ReadBaseMaterials_frame in Hrb. destruct Hrb as (Hm & _).
          auto.
        - destruct (is_meta c).
          + apply bind_Ok in Hstep. destruct Hstep as ([] & s2 & Hrm & Hret).
            apply ret_Ok in Hret. destruct Hret as [-> <-].
            rewrite ReadMetadata_spec in Hrm.
            destruct (String.eqb (meta_name_of c) ""); injection Hrm as <-.
            * auto.
            * destruct s; auto.
          + injection Hstep as <- <-. auto. }
      destruct Hs1 as [-> ->]. exact Hch.
Qed.

End WalkInvariants.

(** ** The assembly of the scene *)

Section Assembly.
Context {ai_real : Type} {E : AssimpEnv ai_real}.
Implicit Types (s : @XmlSerializer ai_real) (m : aiMesh.t ai_real)
               (sc : aiScene.t ai_real).

(** What [ImportXml] returns on a scene that is not null, read off its
    code: without [model], the scene with a new root; otherwise the walk
    over the resources followed by the assembly. *)
Lemma ImportXml_inv sc s r s' :
  ImportXml (Some sc) s = Ok (r, s') ->
  match Xml.child (Some (mXmlParser s)) "model" with
  | None => r = Some (aiScene.set_mRootNode (Some new_aiNode) sc) /\ s' = s
  | Some _ =>
      exists children materials,
        for_each (ImportXml_step (aiScene.set_mRootNode (Some new_aiNode) sc))
                 (resources_of (mXmlParser s)) [] s = Ok (children, s')
        /\ size (mMeshes s') < UINT_MOD
        /\ size children < UINT_MOD
        /\ (if 0 =? to_uint (mMaterialCount s')
            then materials = aiScene.mMaterials sc
            else install_groups
                   (repeat None (Z.to_nat (to_uint (mMaterialCount s'))))
                   (mBasematerialsDictionnary s') = Ok materials)
        /\ r = Some (aiScene.mk
                       (Some (assembled_root children))
                       (assembled_metadata (mMetaData s') (aiScene.mMetaData sc))
                       (size (mMeshes s')) (mMeshes s')
                       (to_uint (mMaterialCount s')) materials)
  end.
Proof.
  unfold ImportXml, resources_of. intros Hrun.
  apply bind_Ok in Hrun. destruct Hrun as (s0 & s1 & Hget & Hrun).
  unfold get in Hget. injection Hget as <- <-.
  destruct (Xml.child (Some (mXmlParser s)) "model") as [model|] eqn:Hmodel.
  2:{ apply ret_Ok in Hrun. destruct Hrun as [-> ->]. split; reflexivity. }
  apply bind_Ok in Hrun. destruct Hrun as (children & s1 & Hwalk & Hrun).
  apply bind_Ok in Hrun. destruct Hrun as (s2 & s3 & Hget & Hrun).
  unfold get in Hget. injection Hget as <- <-.
  apply bind_Ok in Hrun. destruct Hrun as (meshes & s2 & Hcopy & Hrun).
  apply lift_Ok in Hcopy. destruct Hcopy as [Hcopy ->].
  apply copy_to_new_array_Ok in Hcopy. destruct Hcopy as (-> & Hfit & Hu).
  apply bind_Ok in Hrun. destruct Hrun as (materials & s2 & Hmat & Hrun).
  apply bind_Ok in Hrun. destruct Hrun as (a & s3 & Hcopy & Hret).
  apply lift_Ok in Hcopy. destruct Hcopy as [Hcopy ->].
  apply copy_to_new_array_Ok in Hcopy. destruct Hcopy as (-> & Hfitc & Huc).
  apply ret_Ok in Hret. destruct Hret as [-> ->].
  exists children, materials.
  cbn [aiScene.mNumMaterials aiScene.set_mNumMaterials aiScene.set_meshes
       aiScene.mMaterials] in Hmat.
  assert (Hs2 : s2 = s1
                /\ if 0 =? to_uint (mMaterialCount s1)
                   then materials
                        = aiScene.mMaterials
                            (update_root
                               (fun root =>
                                  if (String.length (aiNode.mName root) =? 0)%nat
                                  then aiNode.set_mName
                                         (aiString.set "3MF" (aiNode.mName root)) root
                                  else root)
                               (aiScene.set_mRootNode (Some new_aiNode) sc))
                   else install_groups
                          (repeat None (Z.to_nat (to_uint (mMaterialCount s1))))
                          (mBasematerialsDictionnary s1) = Ok materials).
  { destruct (0 =? to_uint (mMaterialCount s1)); cbn [negb] in Hmat.
    - destruct (mMetaData s1); apply ret_Ok in Hmat; destruct Hmat as [-> ->];
        split; reflexivity.
    - apply bind_Ok in Hmat. destruct Hmat as (a & s3 & Hinst & Hret).
      apply lift_Ok in Hinst. destruct Hinst as [Hinst ->].
      apply ret_Ok in Hret. destruct Hret as [-> ->].
      split; [reflexivity | exact Hinst]. }
  destruct Hs2 as [-> Hmaterials].
  split; [exact Hwalk|]. split; [exact Hfit|]. split; [exact Hfitc|].
  split.
  - destruct (0 =? to_uint (mMaterialCount s1)); [|exact Hmaterials].
    rewrite Hmaterials. unfold update_root. cbn. reflexivity.
  - rewrite Hu, Huc. unfold assembled_root, assembled_metadata, update_root.
    cbn. destruct (mMetaData s1); reflexivity.
Qed.

End Assembly.

(** ** The material array *)

Section MaterialArray.
Context {ai_real : Type} {E : AssimpEnv ai_real}.
Implicit Types (s : @XmlSerializer ai_real)
               (arr : list (option (option (aiMaterial.t ai_real))))
               (group : list (@material_entry ai_real))
               (d : StdMap.t (list (@material_entry ai_real))).

Lemma write_slot_length {A} i (x : A) l :
  List.length (write_slot i x l) = List.length l.
Proof.
  revert i. induction l as [|y l IH]; intros [|i]; cbn; try reflexivity.
  rewrite IH. reflexivity.
Qed.

Lemma write_slot_same {A} i (x : A) l :
  (i < List.length l)%nat -> nth_error (write_slot i x l) i = Some (Some x).
Proof.
  revert i. induction l as [|y l IH]; intros [|i] Hi; cbn in *; try lia.
  - reflexivity.
  - apply IH. lia.
Qed.

Lemma write_slot_other {A} i j (x : A) l :
  i <> j -> nth_error (write_slot i x l) j = nth_error l j.
Proof.
  revert i j. induction l as [|y l IH]; intros [|i] [|j] Hne; cbn;
    try reflexivity; try congruence.
  apply IH. congruence.
Qed.

(** The inner loop stays inside the array when every index is a slot of it;
    it writes the slots of its entries and no other. *)
Lemma install_entries_spec group : forall arr,
  Forall (fun e => 0 <= fst e < size arr) group ->
  exists arr',
    install_entries arr group = Ok arr'
    /\ List.length arr' = List.length arr
    /\ (forall j, ~ In j (map (fun e => Z.to_nat (fst e)) group) ->
                  nth_error arr' j = nth_error arr j)
    /\ (NoDup (map fst group) ->
        forall e, In e group ->
                  nth_error arr' (Z.to_nat (fst e)) = Some (Some (snd e))).
Proof.
  induction group as [|e group IH]; intros arr Hall.
  - exists arr. cbn. repeat split; auto. intros _ e [].
  - apply Forall_cons_iff in Hall. destruct Hall as [He Hall].
    cbn [install_entries]. unfold install_material.
    destruct (Z.ltb_spec (fst e) (size arr)) as [_|Hge]; [|lia].
    destruct (IH (write_slot (Z.to_nat (fst e)) (snd e) arr))
      as (arr' & Hrun & Hlen & Hother & Hsame).
    { eapply Forall_impl; [|exact Hall]. cbn. intros e' He'.
      unfold size in *. rewrite write_slot_length. exact He'. }
    exists arr'. split; [exact Hrun|].
    split; [rewrite Hlen; apply write_slot_length|]. split.
    + intros j Hj. cbn [map In] in Hj.
      rewrite Hother by tauto. apply write_slot_other. tauto.
    + intros Hnd e' [<-|Hin].
      * cbn [map] in Hnd. apply NoDup_cons_iff in Hnd. destruct Hnd as [Hnotin _].
        rewrite Hother.
        -- apply write_slot_same. unfold size in He. lia.
        -- intros Hj. apply in_map_iff in Hj. destruct Hj as (e2 & Heq & Hin2).
           apply Hnotin. apply in_map_iff. exists e2. split; [|exact Hin2].
           rewrite Forall_forall in Hall. apply Hall in Hin2. lia.
      * cbn [map] in Hnd. apply NoDup_cons_iff in Hnd. destruct Hnd as [_ Hnd].
        apply Hsame; assumption.
Qed.

(** A list of distinct values below [n] has at most [n] elements. *)
Lemma distinct_below_length (l : list Z) n :
  0 <= n ->
  NoDup l -> Forall (fun i => 0 <= i < n) l -> Z.of_nat (List.length l) <= n.
Proof.
  intros Hn Hnd Hall.
  assert (Hnd' : NoDup (map Z.to_nat l)).
  { clear - Hnd Hall. induction l as [|x l IH]; cbn; constructor.
    - apply NoDup_cons_iff in Hnd. destruct Hnd as [Hx _].
      apply Forall_cons_iff in Hall. destruct Hall as [Hx0 Hall].
      intros Hin. apply in_map_iff in Hin. destruct Hin as (y & Hy & Hin).
      apply Hx. rewrite Forall_forall in Hall. pose proof (Hall _ Hin).
      replace x with y by lia. exact Hin.
    - apply NoDup_cons_iff in Hnd. apply Forall_cons_iff in Hall.
      apply IH; tauto. }
  assert (Hincl : incl (map Z.to_nat l) (seq 0 (Z.to_nat n))).
  { intros j Hj. apply in_map_iff in Hj. destruct Hj as (y & <- & Hin).
    rewrite Forall_forall in Hall. apply Hall in Hin. apply in_seq. lia. }
  pose proof (NoDup_incl_length Hnd' Hincl) as Hlen.
  rewrite length_map, length_seq in Hlen. lia.
Qed.

Lemma NoDup_app_disjoint {A} (l1 l2 : list A) x :
  NoDup (l1 ++ l2) -> In x l1 -> In x l2 -> False.
Proof.
  induction l1 as [|y l1 IH]; cbn; intros Hnd H1 H2; [exact H1|].
  apply NoDup_cons_iff in Hnd. destruct Hnd as [Hy Hnd].
  destruct H1 as [->|H1].
  - apply Hy. apply in_or_app. right. exact H2.
  - exact (IH Hnd H1 H2).
Qed.

Lemma dictionary_indices_cons k group d :
  dictionary_indices ((k, group) :: d) = map fst group ++ dictionary_indices d.
Proof. reflexivity. Qed.

(** The outer loop, under the same conditions over the whole dictionary. *)
Lemma install_groups_spec d : forall arr,
  size arr < UINT_MOD ->
  NoDup (dictionary_indices d) ->
  Forall (fun i => 0 <= i < size arr) (dictionary_indices d) ->
  exists arr',
    install_groups arr d = Ok arr'
    /\ List.length arr' = List.length arr
    /\ (forall i, 0 <= i -> ~ In i (dictionary_indices d) ->
                  nth_error arr' (Z.to_nat i) = nth_error arr (Z.to_nat i))
    /\ (forall k group e, In (k, group) d -> In e group ->
                          nth_error arr' (Z.to_nat (fst e)) = Some (Some (snd e))).
Proof.
  induction d as [|[k group] d IH]; intros arr Hfit Hnd Hall.
  - exists arr. cbn. repeat split; auto. intros k group e [].
  - rewrite dictionary_indices_cons in *.
    apply Forall_app in Hall. destruct Hall as [Hg Hd].
    assert (Hndg : NoDup (map fst group)) by (apply NoDup_app_remove_r in Hnd; exact Hnd).
    assert (Hndd : NoDup (dictionary_indices d))
      by (apply NoDup_app_remove_l in Hnd; exact Hnd).
    assert (Hg' : Forall (fun e => 0 <= fst e < size arr) group).
    { apply Forall_forall. intros e He. rewrite Forall_forall in Hg.
      apply Hg. apply in_map. exact He. }
    destruct (install_entries_spec arr Hg') as (arr1 & Hrun1 & Hlen1 & Hother1 & Hsame1).
    assert (Hsize1 : size arr1 = size arr) by (unfold size; rewrite Hlen1; reflexivity).
    destruct (IH arr1) as (arr' & Hrun & Hlen & Hother & Hsame);
      [rewrite Hsize1; exact Hfit | exact Hndd | rewrite Hsize1; exact Hd |].
    assert (Hgl : size group < UINT_MOD).
    { pose proof (distinct_below_length (size_nonneg arr) Hndg Hg) as Hle.
      rewrite length_map in Hle. unfold size, material_entry in *. lia. }
    exists arr'. cbn [install_groups]. unfold install_group. rewrite Hrun1.
    destruct (Z.ltb_spec (size group) UINT_MOD) as [_|Hge]; [|lia].
    split; [exact Hrun|]. split; [rewrite Hlen; exact Hlen1|]. split.
    + intros i Hi Hnotin. rewrite Hother.
      * apply Hother1. intros Hj. apply in_map_iff in Hj.
        destruct Hj as (e & Heq & He). apply Hnotin. apply in_or_app. left.
        apply in_map_iff. exists e. split; [|exact He].
        rewrite Forall_forall in Hg'. apply Hg' in He. lia.
      * exact Hi.
      * intros Hin. apply Hnotin. apply in_or_app. right. exact Hin.
    + intros k' group' e [Heq|Hin] He.
      * injection Heq as <- <-.
        rewrite Forall_forall in Hg'. pose proof (Hg' _ He) as Hr.
        rewrite Hother.
        -- apply Hsame1; assumption.
        -- lia.
        -- intros Hin.
           apply (NoDup_app_disjoint _ _ (fst e) Hnd); [apply in_map; exact He | exact Hin].
      * apply (Hsame k' group' e Hin He).
Qed.

End MaterialArray.

(** ** The metadata table *)

Section MetadataTable.




End MetadataTable.

(** ** The imported scene *)

Section ImportedScene.
Context {ai_real : Type} {E : AssimpEnv ai_real}.
Implicit Types (s : @XmlSerializer ai_real) (m : aiMesh.t ai_real)
               (sc : aiScene.t ai_real).

Lemma new_XmlSerializer_ok doc : dictionary_ok (@new_XmlSerializer ai_real doc).
Proof.
  unfold dictionary_ok. cbn. split; [unfold UINT_MOD; lia|].
  split; constructor.
Qed.

(** X4: when [ImportXml] returns a scene for a document with a [model], the
    root has one child entry per [object] node and its child count is their
    number; the mesh count of the scene is the number of its meshes; and
    every mesh index of every child that is not null is a position in the
    mesh array of the scene. *)
Theorem ImportXml_node_references sc s sc' s' :
  ImportXml (Some sc) s = Ok (Some sc', s') ->
  Xml.child (Some (mXmlParser s)) "model" <> None ->
  exists root,
    aiScene.mRootNode sc' = Some root
    /\ aiNode.mNumChildren root = size (aiNode.mChildren root)
    /\ List.length (aiNode.mChildren root)
       = List.length (filter is_object (resources_of (mXmlParser s)))
    /\ aiScene.mNumMeshes sc' = size (aiScene.mMeshes sc')
    /\ children_refs_ok (aiScene.mNumMeshes sc') (aiNode.mChildren root).
Proof.
  intros Hrun Hmodel. apply ImportXml_inv in Hrun.
  destruct (Xml.child (Some (mXmlParser s)) "model"); [|contradiction].
  destruct Hrun as (children & materials & Hwalk & Hfit & _ & _ & Heq).
  injection Heq as ->. exists (assembled_root children).
  cbn [aiScene.mRootNode aiScene.mNumMeshes aiScene.mMeshes].
  pose proof (@walk_frame _ _ _ _ _ _ _ _ Hwalk) as (_ & _ & _ & (added & Hch & Hlen)).
  pose proof (@walk_children _ _ _ _ _ _ _ _ Hwalk Hfit) as Hrefs.
  cbn [app] in Hch. subst added.
  assert (Hroot : aiNode.mChildren (assembled_root children) = children
                  /\ aiNode.mNumChildren (assembled_root children) = size children).
  { unfold assembled_root.
    destruct (String.length (aiNode.mName new_aiNode) =? 0)%nat;
      destruct new_aiNode; split; reflexivity. }
  destruct Hroot as [-> ->].
  repeat split; try assumption.
  apply Hrefs. constructor.
Qed.

(** X5: when [ImportXml], started on a new serializer, returns a scene for a
    document with a [model] and fewer than 2^32 [base] members, the
    material count of the scene is the number of those members, the
    dictionary holds pairwise distinct indices below it, and every mesh of
    the scene has the material index of a new mesh or a slot of the
    material array. *)
Theorem ImportXml_material_indices doc sc sc' s' :
  ImportXml (Some sc) (new_XmlSerializer doc) = Ok (Some sc', s') ->
  Xml.child (Some doc) "model" <> None ->
  Z.of_nat (walk_members (resources_of doc)) < UINT_MOD ->
  aiScene.mNumMaterials sc' = Z.of_nat (walk_members (resources_of doc))
  /\ dictionary_ok s'
  /\ Forall (material_index_ok (aiScene.mNumMaterials sc')) (aiScene.mMeshes sc').
Proof.
  intros Hrun Hmodel Hwrap. apply ImportXml_inv in Hrun.
  cbn [mXmlParser new_XmlSerializer] in Hrun.
  destruct (Xml.child (Some doc) "model"); [|contradiction].
  destruct Hrun as (children & materials & Hwalk & _ & _ & _ & Heq).
  injection Heq as ->. cbn.
  destruct (@walk_materials _ _ _ _ _ _ _ _ Hwalk (new_XmlSerializer_ok doc))
    as (Hok & Hcount & Hms).
  - cbn. exact Hwrap.
  - constructor.
  - cbn in Hcount. rewrite Hcount in *.
    rewrite to_uint_small by lia. auto.
Qed.

(** X6: in a serializer whose dictionary holds pairwise distinct indices
    below the counter, the loops that fill the material array never leave
    the array; the array has one slot per value of the counter, every entry
    of the dictionary is in the slot of its global index, and a slot whose
    index is not in the dictionary is left unwritten. *)
Theorem materials_installed s :
  dictionary_ok s ->
  exists arr,
    install_groups (repeat None (Z.to_nat (mMaterialCount s)))
                   (mBasematerialsDictionnary s) = Ok arr
    /\ List.length arr = Z.to_nat (mMaterialCount s)
    /\ (forall k group e,
          In (k, group) (mBasematerialsDictionnary s) -> In e group ->
          nth_error arr (Z.to_nat (fst e)) = Some (Some (snd e)))
    /\ (forall i,
          0 <= i < mMaterialCount s ->
          ~ In i (dictionary_indices (mBasematerialsDictionnary s)) ->
          nth_error arr (Z.to_nat i) = Some None).
Proof.
  intros (Hc & Hnd & Hall).
  set (arr0 := repeat (@None (option (aiMaterial.t ai_real)))
                      (Z.to_nat (mMaterialCount s))).
  assert (Hsize : size arr0 = mMaterialCount s).
  { unfold size, arr0. rewrite repeat_length. lia. }
  destruct (install_groups_spec (mBasematerialsDictionnary s) arr0)
    as (arr & Hrun & Hlen & Hother & Hsame).
  - rewrite Hsize. lia.
  - exact Hnd.
  - rewrite Hsize. exact Hall.
  - exists arr. split; [exact Hrun|].
    split; [rewrite Hlen; apply repeat_length|]. split; [exact Hsame|].
    intros i Hi Hnotin. rewrite Hother by (lia || assumption).
    unfold arr0. apply nth_error_repeat. lia.
Qed.



End ImportedScene.

(** ** Triangles, colours and materials *)

Section TriangleOrder.
Context {ai_real : Type} {E : AssimpEnv ai_real}.
Implicit Types (s : @XmlSerializer ai_real) (m : aiMesh.t ai_real).

(** Nodes without a declared reference leave the material index alone. *)
Lemma ImportTriangles_loop_undeclared cs : forall faces m s faces' m' s',
  Forall (no_declared_reference s) cs ->
  for_each ImportTriangles_step cs (faces, m) s = Ok ((faces', m'), s') ->
  aiMesh.mMaterialIndex m' = aiMesh.mMaterialIndex m.
Proof.
  induction cs as [|c cs IH]; intros faces m s faces' m' s' Hall Hrun.
  - cbn in Hrun. apply ret_Ok in Hrun. destruct Hrun as [Heq _].
    injection Heq as _ ->. reflexivity.
  - apply Forall_cons_iff in Hall. destruct Hall as [Hc Hall].
    cbn [for_each] in Hrun. apply bind_Ok in Hrun.
    destruct Hrun as ([faces1 m1] & s1 & Hstep & Hrest).
    unfold ImportTriangles_step in Hstep. fold (is_triangle c) in Hstep.
    unfold no_declared_reference in Hc.
    destruct (is_triangle c).
    + apply bind_Ok in Hstep. destruct Hstep as (m2 & s2 & Htm & Hret).
      apply ret_Ok in Hret. destruct Hret as [Heq ->]. injection Heq as -> ->.
      rewrite (triangle_material_undeclared _ _ _ (Hc eq_refl)) in Htm.
      injection Htm as <- <-. exact (IH _ _ _ _ _ _ Hall Hrest).
    + apply ret_Ok in Hstep. destruct Hstep as [Heq ->]. injection Heq as -> ->.
      exact (IH _ _ _ _ _ _ Hall Hrest).
Qed.

(** X9: the last triangle whose group is declared decides: when
    [ImportTriangles] returns for children [before ++ t :: after], where
    [t] is a triangle whose group is in the dictionary and whose position
    is inside the group, and no triangle of [after] refers to a declared
    group, the material index of the mesh is the global index at that
    position, whatever the triangles of [before] refer to. *)
Theorem ImportTriangles_last_reference_wins (node : XmlNode) m s m' s'
    (before after : list XmlNode) (t : XmlNode)
    (group : list (@material_entry ai_real)) (entry : @material_entry ai_real) :
  ImportTriangles node m s = Ok (m', s') ->
  Xml.children node = before ++ t :: after ->
  is_triangle t = true ->
  StdMap.find (triangle_group t) (mBasematerialsDictionnary s) = Some group ->
  StdVector.at_int group (triangle_position t) = Ok entry ->
  Forall (no_declared_reference s) after ->
  aiMesh.mMaterialIndex m' = fst entry.
Proof.
  intros Hrun Hcs Ht Hfind Hat Hafter.
  unfold ImportTriangles in Hrun. rewrite Hcs in Hrun.
  apply bind_Ok in Hrun. destruct Hrun as ([faces m1] & s1 & Hloop & Hrest).
  rewrite for_each_app in Hloop. apply bind_Ok in Hloop.
  destruct Hloop as ([faces0 m0] & s0 & Hbefore & Hloop).
  apply ImportTriangles_loop in Hbefore. destruct Hbefore as (-> & _ & _).
  cbn [for_each] in Hloop. apply bind_Ok in Hloop.
  destruct Hloop as ([faces2 m2] & s2 & Hstep & Hloop).
  unfold ImportTriangles_step in Hstep. fold (is_triangle t) in Hstep.
  rewrite Ht in Hstep.
  apply bind_Ok in Hstep. destruct Hstep as (m3 & s3 & Htm & Hret).
  apply ret_Ok in Hret. destruct Hret as [Heq ->]. injection Heq as -> ->.
  rewrite triangle_material_spec in Htm. unfold resolve in Htm.
  fold (triangle_group t) (triangle_position t) in Htm.
  rewrite Hfind, Hat in Htm. cbn in Htm. injection Htm as <- <-.
  eapply ImportTriangles_loop_undeclared in Hloop; [|exact Hafter].
  apply bind_Ok in Hrest. destruct Hrest as (a & s4 & _ & Hret).
  apply ret_Ok in Hret. destruct Hret as [-> _].
  cbn. rewrite Hloop. destruct m0; reflexivity.
Qed.

End TriangleOrder.

Section ColourShape.
Context {ai_real : Type} {E : AssimpEnv ai_real}.

(** X10: [parseColor] accepts a string exactly when its length is 7 or 9
    and its first character is '#'; the characters after it are not
    examined, and a string that is refused leaves the colour as it was. *)
Theorem parseColor_accepts_by_shape (color : string)
    (diffuse : aiColor4D.t ai_real) :
  fst (parseColor (Some color) diffuse) = color_shape color
  /\ (color_shape color = false ->
      snd (parseColor (Some color) diffuse) = diffuse).
Proof.
  unfold parseColor, color_shape, LibC.char_at.
  rewrite (Z.eqb_sym 9), (Z.eqb_sym 7).
  destruct (LibC.strlen color =? 9) eqn:H9;
    destruct (LibC.strlen color =? 7) eqn:H7; cbn [negb andb orb];
    try (split; [reflexivity | intros _; reflexivity]).
  - apply Z.eqb_eq in H9, H7. lia.
  - destruct (String.get 0 color) as [c|]; [cbn -[Ascii.eqb] | cbn].
    + rewrite (Ascii.eqb_sym "#" c).
      destruct (Ascii.eqb c "#"); cbn; split; try reflexivity; discriminate.
    + split; reflexivity.
  - destruct (String.get 0 color) as [c|]; [cbn -[Ascii.eqb] | cbn].
    + rewrite (Ascii.eqb_sym "#" c).
      destruct (Ascii.eqb c "#"); cbn; split; try reflexivity; discriminate.
    + split; reflexivity.
Qed.

End ColourShape.

Section MaterialDefinitions.
Context {ai_real : Type} {E : AssimpEnv ai_real}.
Implicit Types (s : @XmlSerializer ai_real).

(** On a [base] node [readMaterialDef] returns a material, the same
    whatever the serializer holds. *)
Lemma readMaterialDef_base c id s :
  is_base c = true ->
  readMaterialDef c id s = Ok (Some (material_of id c), s).
Proof.
  unfold is_base, readMaterialDef, material_of. intros Hc.
  unfold bind, get. rewrite Hc. rewrite as_string_std. reflexivity.
Qed.

Lemma ReadBaseMaterials_loop_materials id cs : forall acc s acc' s',
  for_each (ReadBaseMaterials_step id) cs acc s = Ok (acc', s') ->
  map snd acc'
  = map snd acc ++ map (fun c => Some (material_of id c)) (filter is_base cs).
Proof.
  induction cs as [|c cs IH]; intros acc s acc' s' Hrun.
  - cbn in Hrun. apply ret_Ok in Hrun. destruct Hrun as [-> _].
    cbn. rewrite app_nil_r. reflexivity.
  - cbn [for_each filter] in Hrun. apply bind_Ok in Hrun.
    destruct Hrun as (acc1 & s1 & Hstep & Hrest).
    apply IH in Hrest. rewrite Hrest. clear IH Hrest.
    unfold ReadBaseMaterials_step in Hstep. fold (is_base c) in Hstep.
    cbn [filter]. destruct (is_base c) eqn:Hc.
    + apply bind_Ok in Hstep. destruct Hstep as (s0 & s2 & Hget & Hstep).
      unfold get in Hget. injection Hget as <- <-.
      apply bind_Ok in Hstep. destruct Hstep as (mat & s3 & Hmat & Hstep).
      rewrite (readMaterialDef_base c id s Hc) in Hmat. injection Hmat as <- <-.
      unfold bind, modify, ret in Hstep. injection Hstep as <- _.
      rewrite map_app. cbn. rewrite <- app_assoc. reflexivity.
    + apply ret_Ok in Hstep. destruct Hstep as [-> _]. reflexivity.
Qed.

(** X11: the vector that [ReadBaseMaterials] builds for a group holds one
    material per [base] child, in document order, none of them null; each
    is named "id<group id>_<name attribute>" (the name attribute read as
    the empty text when it is missing) and carries a diffuse colour exactly
    when [parseColor] accepts its [displaycolor]. *)
Theorem ReadBaseMaterials_materials (node : XmlNode) s :
  map snd (declared_materials node s)
  = map (fun c => Some (material_of (group_id node) c))
        (filter is_base (Xml.children node))
  /\ forall c,
       In (aiMaterial.AI_MATKEY_NAME,
           aiMaterial.PString
             (aiString.set
                (("id" ++ LibC.to_string (group_id node) ++ "_")
                   ++ Xml.as_std_string
                        (Xml.attribute c XmlTag.basematerials_name))%string ""))
          (material_of (group_id node) c)
       /\ aiMaterial.has_key aiMaterial.AI_MATKEY_COLOR_DIFFUSE
                             (material_of (group_id node) c)
          = fst (parseColor (Some (displaycolor_of c)) new_aiColor4D).
Proof.
  split.
  - destruct (ReadBaseMaterials_spec node s) as (c & _ & Hloop).
    apply ReadBaseMaterials_loop_materials in Hloop. exact Hloop.
  - intros c. unfold material_of, assignDiffuseColor, displaycolor_of.
    rewrite as_string_std.
    destruct (parseColor _ new_aiColor4D) as [ok diffuse].
    destruct ok; cbn; split; auto.
Qed.

End MaterialDefinitions.

Section WalkOrder.
Context {ai_real : Type} {E : AssimpEnv ai_real}.
Implicit Types (s : @XmlSerializer ai_real) (sc : aiScene.t ai_real).

(** X12: nodes whose tag is none of [object], [basematerials] and
    [metadata] (among them [build]) have no effect: the walk over the
    resources is the walk over those that carry one of the three tags. *)
Theorem walk_skips_other_tags sc (nodes : list XmlNode)
    (children : list (option aiNode.t)) s :
  for_each (ImportXml_step sc) nodes children s
  = for_each (ImportXml_step sc) (filter is_resource nodes) children s.
Proof.
  revert children s. induction nodes as [|c nodes IH]; intros children s.
  - reflexivity.
  - cbn [filter]. destruct (is_resource c) eqn:Hc.
    + cbn [for_each]. unfold bind.
      destruct (ImportXml_step sc children c s) as [[ch1 s1]| |]; [|reflexivity..].
      apply IH.
    + cbn [for_each]. unfold bind. rewrite ImportXml_step_cases.
      unfold is_resource in Hc.
      apply orb_false_iff in Hc. destruct Hc as [Hc Hm].
      apply orb_false_iff in Hc. destruct Hc as [Ho Hb].
      rewrite Ho, Hb, Hm. apply IH.
Qed.

(** X13: a group that is in the dictionary stays there with the same
    vector through the rest of the walk, whatever the later resources
    declare. *)
Theorem walk_keeps_declared_groups sc (nodes : list XmlNode)
    (children children' : list (option aiNode.t)) s s'
    (k : Z) (group : list (@material_entry ai_real)) :
  for_each (ImportXml_step sc) nodes children s = Ok (children', s') ->
  StdMap.find k (mBasematerialsDictionnary s) = Some group ->
  StdMap.find k (mBasematerialsDictionnary s') = Some group.
Proof.
  revert children s. induction nodes as [|c nodes IH]; intros children s Hrun Hk.
  - cbn in Hrun. apply ret_Ok in Hrun. destruct Hrun as [_ ->]. exact Hk.
  - cbn [for_each] in Hrun. apply bind_Ok in Hrun.
    destruct Hrun as (ch1 & s1 & Hstep & Hrest).
    apply (IH _ _ Hrest). clear IH Hrest.
    rewrite ImportXml_step_cases in Hstep.
    destruct (is_object c).
    + apply bind_Ok in Hstep. destruct Hstep as (n & s2 & Hro & Hret).
      apply ret_Ok in Hret. destruct Hret as [_ ->].
      apply ReadObject_inv in Hro. destruct (Xml.attribute c XmlTag.id).
      * destruct Hro as (n0 & new & _ & -> & _). destruct s; exact Hk.
      * destruct Hro as [_ ->]. exact Hk.
    + destruct (is_basematerials c).
      * apply bind_Ok in Hstep. destruct Hstep as ([] & s2 & Hrb & Hret).
        apply ret_Ok in Hret. destruct Hret as [_ ->].
        destruct (ReadBaseMaterials_keeps_present c s _ Hk) as (s3 & Hrb' & Hk').
        rewrite Hrb in Hrb'. injection Hrb' as <-. exact Hk'.
      * destruct (is_meta c).
        -- apply bind_Ok in Hstep. destruct Hstep as ([] & s2 & Hrm & Hret).
           apply ret_Ok in Hret. destruct Hret as [_ ->].
           rewrite ReadMetadata_spec in Hrm.
           destruct (String.eqb (meta_name_of c) ""); injection Hrm as <-.
           ++ exact Hk.
           ++ destruct s; exact Hk.
        -- injection Hstep as _ <-. exact Hk.
Qed.

(** X14: references are resolved against the groups read so far: while no
    [basematerials] node has been met, the dictionary is empty and every
    mesh that the walk adds keeps the material index of a new mesh,
    whatever its object and its triangles refer to. *)
Theorem walk_before_materials sc (nodes : list XmlNode)
    (children children' : list (option aiNode.t)) s s' :
  for_each (ImportXml_step sc) nodes children s = Ok (children', s') ->
  mBasematerialsDictionnary s = StdMap.empty ->
  Forall (fun c => is_basematerials c = false) nodes ->
  mBasematerialsDictionnary s' = StdMap.empty
  /\ exists new,
       mMeshes s' = mMeshes s ++ new
       /\ Forall (fun m => aiMesh.mMaterialIndex m
                           = aiMesh.mMaterialIndex new_aiMesh) new.
Proof.
  revert children s. induction nodes as [|c nodes IH]; intros children s Hrun Hd Hall.
  - cbn in Hrun. apply ret_Ok in Hrun. destruct Hrun as [_ ->].
    split; [exact Hd|]. exists []. rewrite app_nil_r. split; [reflexivity | constructor].
  - apply Forall_cons_iff in Hall. destruct Hall as [Hc Hall].
    cbn [for_each] in Hrun. apply bind_Ok in Hrun.
    destruct Hrun as (ch1 & s1 & Hstep & Hrest).
    rewrite ImportXml_step_cases in Hstep. rewrite Hc in Hstep.
    assert (Hs1 : mBasematerialsDictionnary s1 = StdMap.empty
                  /\ exists new1,
                       mMeshes s1 = mMeshes s ++ new1
                       /\ Forall (fun m => aiMesh.mMaterialIndex m
                                           = aiMesh.mMaterialIndex new_aiMesh) new1).
    { destruct (is_object c).
      - apply bind_Ok in Hstep. destruct Hstep as (n & s2 & Hro & Hret).
        apply ret_Ok in Hret. destruct Hret as [_ ->].
        apply ReadObject_inv in Hro. destruct (Xml.attribute c XmlTag.id).
        + destruct Hro as (n0 & new1 & _ & -> & _ & _ & _ & _ & _ & _ & _ & _ & Hnew).
          split; [destruct s; exact Hd|]. exists new1.
          split; [destruct s; reflexivity|].
          eapply Forall_impl; [|exact Hnew]. cbn. intros m [_ [Hi|Hi]]; [exact Hi|].
          rewrite Hd in Hi. destruct Hi.
        + destruct Hro as [_ ->]. split; [exact Hd|]. exists [].
          rewrite app_nil_r. split; [reflexivity | constructor].
      - assert (Heq : mBasematerialsDictionnary s1 = mBasematerialsDictionnary s
                      /\ mMeshes s1 = mMeshes s).
        { destruct (is_meta c).
          - apply bind_Ok in Hstep. destruct Hstep as ([] & s2 & Hrm & Hret).
            apply ret_Ok in Hret. destruct Hret as [_ ->].
            rewrite ReadMetadata_spec in Hrm.
            destruct (String.eqb (meta_name_of c) ""); injection Hrm as <-.
            + auto.
            + destruct s; auto.
          - injection Hstep as _ <-. auto. }
        destruct Heq as [Hd1 Hm1]. rewrite Hd1, Hm1.
        split; [exact Hd|]. exists []. rewrite app_nil_r.
        split; [reflexivity | constructor]. }
    destruct Hs1 as (Hd1 & new1 & Hm1 & Hnew1).
    destruct (IH _ _ Hrest Hd1 Hall) as (Hd' & new & Hm & Hnew).
    split; [exact Hd'|]. exists (new1 ++ new).
    rewrite Hm, Hm1, app_assoc. split; [reflexivity|].
    apply Forall_app. split; assumption.
Qed.

End WalkOrder.

(** ** The contents of the scene *)

Section SceneContents.
Context {ai_real : Type} {E : AssimpEnv ai_real}.
Implicit Types (s : @XmlSerializer ai_real) (m : aiMesh.t ai_real)
               (sc : aiScene.t ai_real).

(** Naming a mesh and setting its material index keep what was read. *)
Lemma mesh_read_from_same id (c : XmlNode) m0 m2 :
  aiMesh.mName m0 = aiMesh.mName new_aiMesh ->
  vertices_from (Xml.children c) new_aiMesh m0 ->
  faces_from (Xml.children c) new_aiMesh m0 ->
  same_geometry (aiMesh.set_mName (aiString.set id (aiMesh.mName m0)) m0) m2 ->
  mesh_read_from (id, c) m2.
Proof.
  intros Hn Hv Hf Hg. apply same_geometry_fields in Hg.
  destruct Hg as (Hn2 & Hv2 & Hnv2 & Hf2 & Hnf2 & Hp2).
  unfold mesh_read_from, vertices_from, faces_from in *. cbn [fst snd].
  destruct m0 as [nm nv vs nf fs pt mi]. cbn in Hn, Hv, Hf, Hn2, Hv2, Hnv2, Hf2, Hnf2, Hp2.
  rewrite Hn2, Hv2, Hnv2, Hf2, Hnf2, Hp2, Hn.
  split; [reflexivity|]. split; [exact Hv | exact Hf].
Qed.

(** The loop of [ReadObject] appends, for each [mesh] child in document
    order, the mesh read from it. *)
Lemma ReadObject_loop_geometry id hasPid hasPindex pid pindex cs :
  forall meshIds meshIdx s meshIds' meshIdx' s',
  for_each (ReadObject_step id hasPid hasPindex pid pindex) cs
           (meshIds, meshIdx) s = Ok ((meshIds', meshIdx'), s') ->
  exists new,
    s' = set_mMeshes (mMeshes s ++ new) s
    /\ Forall2 mesh_read_from (map (pair id) (filter is_mesh cs)) new.
Proof.
  induction cs as [|c cs IH]; intros meshIds meshIdx s meshIds' meshIdx' s' Hrun.
  - cbn in Hrun. apply ret_Ok in Hrun. destruct Hrun as [_ ->].
    exists []. rewrite set_mMeshes_nil. split; [reflexivity | constructor].
  - cbn [for_each filter] in Hrun. apply bind_Ok in Hrun.
    destruct Hrun as ([ids1 idx1] & s1 & Hstep & Hrest).
    unfold ReadObject_step in Hstep. fold (is_mesh c) in *.
    cbn [filter]. destruct (is_mesh c).
    + apply bind_Ok in Hstep. destruct Hstep as (m0 & s2 & Hmesh & Hstep).
      apply ReadMesh_loop in Hmesh. destruct Hmesh as (-> & Hname & Hv & Hf).
      apply bind_Ok in Hstep. destruct Hstep as (m1 & s3 & Hobj & Hstep).
      apply object_material_inv in Hobj. destruct Hobj as (-> & Hg & _).
      apply bind_Ok in Hstep. destruct Hstep as ([] & s4 & Hmod & Hret).
      unfold modify in Hmod. injection Hmod as <-.
      apply ret_Ok in Hret. destruct Hret as [_ ->].
      apply IH in Hrest. destruct Hrest as (new & -> & Hall).
      exists (m1 :: new). rewrite set_mMeshes_app. cbn [app map].
      split; [reflexivity|]. constructor; [|exact Hall].
      exact (mesh_read_from_same id c Hname Hv Hf Hg).
    + apply ret_Ok in Hstep. destruct Hstep as [Heq ->]. injection Heq as -> ->.
      apply IH in Hrest. exact Hrest.
Qed.

Lemma ReadObject_geometry node sc s r s' :
  ReadObject node sc s = Ok (r, s') ->
  exists new,
    s' = set_mMeshes (mMeshes s ++ new) s
    /\ Forall2 mesh_read_from (object_meshes node) new.
Proof.
  unfold object_meshes.
  destruct (Xml.attribute node XmlTag.id) as [id|] eqn:Hid.
  2:{ rewrite (ReadObject_without_id _ _ _ Hid). intros H.
      injection H as _ <-. exists []. rewrite set_mMeshes_nil.
      split; [reflexivity | constructor]. }
  unfold ReadObject. rewrite (getNodeAttribute_present _ _ _ Hid).
  destruct (getNodeAttribute node XmlTag.pid "") as [hasPid pid].
  destruct (getNodeAttribute node XmlTag.pindex "") as [hasPindex pindex].
  cbn [negb]. intros Hrun.
  apply bind_Ok in Hrun. destruct Hrun as (s0 & s1 & Hget & Hrun).
  unfold get in Hget. injection Hget as <- <-.
  apply bind_Ok in Hrun. destruct Hrun as ([ids idx] & s2 & Hloop & Hrun).
  apply ReadObject_loop_geometry in Hloop. destruct Hloop as (new & -> & Hall).
  apply bind_Ok in Hrun. destruct Hrun as (a & s3 & Hcopy & Hret).
  apply lift_Ok in Hcopy. destruct Hcopy as [_ ->].
  apply ret_Ok in Hret. destruct Hret as [_ ->].
  exists new. split; [reflexivity | exact Hall].
Qed.

Lemma ReadObject_child node sc s r s' (root : aiNode.t) :
  ReadObject node sc s = Ok (r, s') ->
  aiScene.mRootNode sc = Some root ->
  child_of node r.
Proof.
  intros Hrun Hroot. apply ReadObject_inv in Hrun. unfold child_of.
  destruct (Xml.attribute node XmlTag.id) as [id|].
  - destruct Hrun as (n & new & -> & _ & _ & _ & Hn & Hp & Hnm & _ & Hnc & Hc & _).
    rewrite Hroot in Hp. repeat split; assumption.
  - destruct Hrun as [-> _]. exact I.
Qed.

Lemma mesh_sources_cons c nodes :
  mesh_sources (c :: nodes)
  = (if is_object c then object_meshes c else []) ++ mesh_sources nodes.
Proof. unfold mesh_sources. cbn [filter]. destruct (is_object c); reflexivity. Qed.

(** The walk appends the meshes of the objects in document order, and one
    entry of [children] per [object] node. *)
Lemma walk_contents sc (root : aiNode.t) nodes :
  aiScene.mRootNode sc = Some root ->
  forall children s children' s',
  for_each (ImportXml_step sc) nodes children s = Ok (children', s') ->
  exists new added,
    mMeshes s' = mMeshes s ++ new
    /\ children' = children ++ added
    /\ Forall2 mesh_read_from (mesh_sources nodes) new
    /\ Forall2 child_of (filter is_object nodes) added.
Proof.
  intros Hroot.
  induction nodes as [|c nodes IH]; intros children s children' s' Hrun.
  - cbn in Hrun. apply ret_Ok in Hrun. destruct Hrun as [-> ->].
    exists [], []. rewrite !app_nil_r. repeat split; constructor.
  - cbn [for_each] in Hrun. apply bind_Ok in Hrun.
    destruct Hrun as (ch1 & s1 & Hstep & Hrest).
    apply IH in Hrest. destruct Hrest as (new & added & Hms & -> & Hall & Hch).
    rewrite ImportXml_step_cases in Hstep. rewrite mesh_sources_cons.
    cbn [filter]. destruct (is_object c) eqn:Hobj.
    + apply bind_Ok in Hstep. destruct Hstep as (n & s2 & Hro & Hret).
      apply ret_Ok in Hret. destruct Hret as [-> <-].
      pose proof (ReadObject_child _ _ _ Hro Hroot) as Hn.
      apply ReadObject_geometry in Hro. destruct Hro as (new1 & -> & Hall1).
      exists (new1 ++ new), (n :: added). rewrite Hms.
      split; [destruct s; cbn; rewrite app_assoc; reflexivity|].
      split; [rewrite <- app_assoc; reflexivity|].
      split; [apply Forall2_app; assumption | constructor; assumption].
    + assert (Hs1 : mMeshes s1 = mMeshes s /\ ch1 = children).
      { destruct (is_basematerials c).
        - apply bind_Ok in Hstep. destruct Hstep as (u & s2 & Hrb & Hret).
          apply ret_Ok in Hret. destruct Hret as [-> <-].
          apply ReadBaseMaterials_frame in Hrb. destruct Hrb as (Hms1 & _).
          split; [exact Hms1 | reflexivity].
        - destruct (is_meta c).
          + apply bind_Ok in Hstep. destruct Hstep as ([] & s2 & Hrm & Hret).
            apply ret_Ok in Hret. destruct Hret as [-> <-].
            rewrite ReadMetadata_spec in Hrm. injection Hrm as <-.
            split; [|reflexivity].
            destruct (String.eqb (meta_name_of c) ""); destruct s; reflexivity.
          + injection Hstep as <- <-. split; reflexivity. }
      destruct Hs1 as [Hms1 ->]. exists new, added. rewrite Hms, Hms1.
      repeat split; assumption.
Qed.

(** X15: the meshes of the scene are the [mesh] children of the objects
    that have an [id], object by object in document order: each is named
    after the id of its object and holds the vertices and the faces that
    [ReadMesh] reads from its node. *)
Theorem ImportXml_meshes doc sc sc' s' :
  ImportXml (Some sc) (new_XmlSerializer doc) = Ok (Some sc', s') ->
  Xml.child (Some doc) "model" <> None ->
  Forall2 mesh_read_from (mesh_sources (resources_of doc)) (aiScene.mMeshes sc').
Proof.
  intros Hrun Hmodel. apply ImportXml_inv in Hrun.
  cbn [mXmlParser new_XmlSerializer] in Hrun.
  destruct (Xml.child (Some doc) "model"); [|contradiction].
  destruct Hrun as (children & materials & Hwalk & _ & _ & _ & Heq).
  injection Heq as ->. cbn [aiScene.mMeshes].
  assert (Hroot : aiScene.mRootNode (aiScene.set_mRootNode (Some new_aiNode) sc)
                  = Some new_aiNode) by (destruct sc; reflexivity).
  destruct (@walk_contents _ _ _ Hroot _ _ _ _ Hwalk)
    as (new & added & Hms & _ & Hall & _).
  rewrite Hms. cbn. exact Hall.
Qed.

(** X16: the children of the root are the [object] nodes of the resources
    in document order: the entry of an object without [id] is null, the
    entry of an object with an [id] is a node named after it, below the
    root, with one mesh index per [mesh] child and no children. *)
Theorem ImportXml_children doc sc sc' s' :
  ImportXml (Some sc) (new_XmlSerializer doc) = Ok (Some sc', s') ->
  Xml.child (Some doc) "model" <> None ->
  exists root,
    aiScene.mRootNode sc' = Some root
    /\ Forall2 child_of (filter is_object (resources_of doc))
               (aiNode.mChildren root).
Proof.
  intros Hrun Hmodel. apply ImportXml_inv in Hrun.
  cbn [mXmlParser new_XmlSerializer] in Hrun.
  destruct (Xml.child (Some doc) "model"); [|contradiction].
  destruct Hrun as (children & materials & Hwalk & _ & _ & _ & Heq).
  injection Heq as ->. exists (assembled_root children).
  split; [reflexivity|].
  assert (Hroot : aiScene.mRootNode (aiScene.set_mRootNode (Some new_aiNode) sc)
                  = Some new_aiNode) by (destruct sc; reflexivity).
  destruct (@walk_contents _ _ _ Hroot _ _ _ _ Hwalk)
    as (new & added & _ & -> & _ & Hch).
  unfold assembled_root.
  destruct (String.length (aiNode.mName new_aiNode) =? 0)%nat;
    destruct new_aiNode; cbn; exact Hch.
Qed.

End SceneContents.

(** ** The materials that the meshes refer to *)

Section MeshMaterials.
Context {ai_real : Type} {E : AssimpEnv ai_real}.
Implicit Types (s : @XmlSerializer ai_real) (m : aiMesh.t ai_real)
               (sc : aiScene.t ai_real)
               (d : StdMap.t (list (@material_entry ai_real))).

Lemma dictionary_indices_elim i d :
  In i (dictionary_indices d) ->
  exists k group e, In (k, group) d /\ In e group /\ fst e = i.
Proof.
  unfold dictionary_indices. intros Hin. apply in_concat in Hin.
  destruct Hin as (l & Hl & Hi). apply in_map_iff in Hl.
  destruct Hl as ([k group] & <- & Hd). cbn in Hi. apply in_map_iff in Hi.
  destruct Hi as (e & He & Hin). exists k, group, e. auto.
Qed.

(** [insert] never takes an index out of the dictionary. *)
Lemma dictionary_indices_insert k group d i :
  In i (dictionary_indices d) ->
  In i (dictionary_indices (StdMap.insert k group d)).
Proof.
  intros Hin. unfold StdMap.insert. destruct (StdMap.find k d); [exact Hin|].
  eapply Permutation_in.
  - symmetry. apply dictionary_indices_insert_sorted.
  - apply in_or_app. right. exact Hin.
Qed.

Lemma index_from_insert s s1 m0 m :
  (forall i, In i (dictionary_indices (mBasematerialsDictionnary s)) ->
             In i (dictionary_indices (mBasematerialsDictionnary s1))) ->
  index_from s m0 m -> index_from s1 m0 m.
Proof. intros Hincl [H|H]; [left; exact H | right; apply Hincl; exact H]. Qed.

(** Along the walk, the material index of every mesh stays the one of a
    new mesh or an index of the dictionary. *)
Lemma walk_declared sc nodes : forall children s children' s',
  for_each (ImportXml_step sc) nodes children s = Ok (children', s') ->
  Forall (index_from s new_aiMesh) (mMeshes s) ->
  Forall (index_from s' new_aiMesh) (mMeshes s').
Proof.
  induction nodes as [|c nodes IH]; intros children s children' s' Hrun Hms.
  - cbn in Hrun. apply ret_Ok in Hrun. destruct Hrun as [_ ->]. exact Hms.
  - cbn [for_each] in Hrun. apply bind_Ok in Hrun.
    destruct Hrun as (ch1 & s1 & Hstep & Hrest).
    apply (IH _ _ _ _ Hrest). clear IH Hrest.
    rewrite ImportXml_step_cases in Hstep.
    destruct (is_object c).
    + apply bind_Ok in Hstep. destruct Hstep as (n & s2 & Hro & Hret).
      apply ret_Ok in Hret. destruct Hret as [_ <-].
      apply ReadObject_inv in Hro.
      destruct (Xml.attribute c XmlTag.id).
      * destruct Hro as (n0 & new & _ & -> & _ & _ & _ & _ & _ & _ & _ & _ & Hall).
        assert (Heq : mMeshes (set_mMeshes (mMeshes s ++ new) s) = mMeshes s ++ new)
          by (destruct s; reflexivity).
        rewrite Heq. apply Forall_app. split.
        -- eapply Forall_impl; [|exact Hms]. intros m Hm. destruct s; exact Hm.
        -- eapply Forall_impl; [|exact Hall]. cbn. intros m [_ Hm].
           destruct s; exact Hm.
      * destruct Hro as [_ ->]. exact Hms.
    + destruct (is_basematerials c).
      * apply bind_Ok in Hstep. destruct Hstep as (u & s2 & Hrb & Hret).
        apply ret_Ok in Hret. destruct Hret as [_ <-].
        destruct (ReadBaseMaterials_spec c s) as (k & Hrun & _).
        rewrite Hrun in Hrb. injection Hrb as _ <-.
        assert (Heq : mMeshes
                        (set_mBasematerialsDictionnary
                           (StdMap.insert (group_id c) (declared_materials c s)
                                          (mBasematerialsDictionnary s))
                           (set_mMaterialCount k s)) = mMeshes s)
          by (destruct s; reflexivity).
        rewrite Heq. eapply Forall_impl; [|exact Hms]. intros m.
        apply index_from_insert. intros i Hi. destruct s. cbn in *.
        apply dictionary_indices_insert. exact Hi.
      * destruct (is_meta c).
        -- apply bind_Ok in Hstep. destruct Hstep as ([] & s2 & Hrm & Hret).
           apply ret_Ok in Hret. destruct Hret as [_ <-].
           rewrite ReadMetadata_spec in Hrm. injection Hrm as <-.
           destruct (String.eqb (meta_name_of c) ""); [exact Hms|].
           destruct s; exact Hms.
        -- injection Hstep as _ <-. exact Hms.
Qed.

(** X17: when [ImportXml], started on a new serializer, returns a scene for
    a document with a [model] and fewer than 2^32 [base] members, every
    mesh of the scene has the material index of a new mesh, or the global
    index of an entry of the dictionary, and then the slot of that index in
    the material array of the scene holds the material of that entry. *)
Theorem ImportXml_mesh_materials doc sc sc' s' :
  ImportXml (Some sc) (new_XmlSerializer doc) = Ok (Some sc', s') ->
  Xml.child (Some doc) "model" <> None ->
  Z.of_nat (walk_members (resources_of doc)) < UINT_MOD ->
  Forall (material_installed s' (aiScene.mMaterials sc')) (aiScene.mMeshes sc').
Proof.
  intros Hrun Hmodel Hwrap. apply ImportXml_inv in Hrun.
  cbn [mXmlParser new_XmlSerializer] in Hrun.
  destruct (Xml.child (Some doc) "model"); [|contradiction].
  destruct Hrun as (children & materials & Hwalk & _ & _ & Hmat & Heq).
  injection Heq as ->. cbn [aiScene.mMeshes aiScene.mMaterials].
  destruct (@walk_materials _ _ _ _ _ _ _ _ Hwalk (new_XmlSerializer_ok doc))
    as (Hok & Hcount & _); [cbn; exact Hwrap | constructor |].
  assert (Hms : Forall (index_from s' new_aiMesh) (mMeshes s')).
  { apply (@walk_declared _ _ _ _ _ _ Hwalk). constructor. }
  eapply Forall_impl; [|exact Hms]. intros m [Hm|Hm]; [left; exact Hm | right].
  destruct Hok as (Hc & Hnd & Hall).
  assert (Hi : 0 <= aiMesh.mMaterialIndex m < mMaterialCount s').
  { rewrite Forall_forall in Hall. apply Hall. exact Hm. }
  rewrite to_uint_small in Hmat by exact Hc.
  destruct (0 =? mMaterialCount s') eqn:H0; [apply Z.eqb_eq in H0; lia|].
  set (arr0 := repeat (@None (option (aiMaterial.t ai_real)))
                      (Z.to_nat (mMaterialCount s'))) in *.
  assert (Hsize : size arr0 = mMaterialCount s').
  { unfold size, arr0. rewrite repeat_length. lia. }
  destruct (install_groups_spec (mBasematerialsDictionnary s') arr0)
    as (arr & Hinst & _ & _ & Hsame).
  - rewrite Hsize. lia.
  - exact Hnd.
  - rewrite Hsize. exact Hall.
  - rewrite Hinst in Hmat. injection Hmat as <-.
    apply dictionary_indices_elim in Hm. destruct Hm as (k & group & e & Hd & He & Hfst).
    exists k, group, e. split; [exact Hd|]. split; [exact He|].
    split; [symmetry; exact Hfst|]. rewrite <- Hfst. exact (Hsame _ _ _ Hd He).
Qed.

End MeshMaterials.

(** ** When the triangles are read without leaving a vector *)

Section TriangleBounds.
Context {ai_real : Type} {E : AssimpEnv ai_real}.
Implicit Types (s : @XmlSerializer ai_real) (m : aiMesh.t ai_real).

Lemma at_int_returns {A} (v : list A) (i : Z) :
  (exists x, StdVector.at_int v i = Ok x) <-> to_size_t i < size v.
Proof.
  unfold StdVector.at_int.
  destruct (to_size_t i <? size v) eqn:Hlt.
  - apply Z.ltb_lt in Hlt. split; [intros _; exact Hlt | intros _].
    destruct (nth_error v (Z.to_nat (to_size_t i))) as [x|] eqn:Hn.
    + exists x. reflexivity.
    + apply nth_error_None in Hn. unfold size in Hlt.
      assert (H0 : 0 <= to_size_t i).
      { unfold to_size_t, SIZE_MOD. apply Z.mod_pos_bound. lia. }
      lia.
  - apply Z.ltb_ge in Hlt. split; [intros [x Hx]; discriminate | lia].
Qed.

Lemma triangle_material_returns c m s :
  (exists m', triangle_material c m s = Ok (m', s)) <-> reference_in_bounds s c.
Proof.
  rewrite triangle_material_spec.
  unfold reference_in_bounds, resolve, triangle_group, triangle_position.
  destruct (StdMap.find _ (mBasematerialsDictionnary s)) as [group|].
  - rewrite <- at_int_returns.
    destruct (StdVector.at_int group _) as [e| |]; cbn.
    + split; intros _; eexists; reflexivity.
    + split; intros [x Hx]; discriminate.
    + split; intros [x Hx]; discriminate.
  - cbn. split; [intros _; exact I | intros _; eexists; reflexivity].
Qed.

Lemma ImportTriangles_loop_returns cs : forall faces m s,
  (exists st, for_each ImportTriangles_step cs (faces, m) s = Ok (st, s))
  <-> Forall (reference_in_bounds s) (filter is_triangle cs).
Proof.
  induction cs as [|c cs IH]; intros faces m s.
  - cbn. split; [intros _; constructor | intros _; eexists; reflexivity].
  - cbn [for_each filter]. split.
    + intros [st Hrun]. apply bind_Ok in Hrun.
      destruct Hrun as ([faces1 m1] & s1 & Hstep & Hrest).
      unfold ImportTriangles_step in Hstep. fold (is_triangle c) in *.
      destruct (is_triangle c).
      * apply bind_Ok in Hstep. destruct Hstep as (m2 & s2 & Hm & Hret).
        apply ret_Ok in Hret. destruct Hret as [Heq ->]. injection Heq as -> ->.
        pose proof Hm as Hs. rewrite triangle_material_spec in Hs.
        apply lift_Ok in Hs. destruct Hs as [_ ->].
        constructor.
        -- apply (triangle_material_returns c m s). exists m2. exact Hm.
        -- apply (IH (faces ++ [ReadTriangle c]) m2 s). exists st. exact Hrest.
      * apply ret_Ok in Hstep. destruct Hstep as [Heq ->]. injection Heq as -> ->.
        apply (IH faces m s). exists st. exact Hrest.
    + intros Hall. destruct (is_triangle c) eqn:Ht.
      * inversion Hall as [|c0 cs0 Hc Hcs]; subst.
        apply (triangle_material_returns c m s) in Hc. destruct Hc as [m1 Hm].
        assert (Hstep : ImportTriangles_step (faces, m) c s
                        = Ok ((faces ++ [ReadTriangle c], m1), s)).
        { unfold ImportTriangles_step. fold (is_triangle c). rewrite Ht.
          unfold bind. rewrite Hm. reflexivity. }
        unfold bind. rewrite Hstep. apply IH. exact Hcs.
      * assert (Hstep : ImportTriangles_step (faces, m) c s = Ok ((faces, m), s)).
        { unfold ImportTriangles_step. fold (is_triangle c). rewrite Ht.
          reflexivity. }
        unfold bind. rewrite Hstep. apply IH. exact Hall.
Qed.

(** X18: for a node with fewer than 2^32 triangles, [ImportTriangles]
    returns a mesh exactly when the reference of every triangle stays
    inside the vector it indexes; otherwise a vector is indexed outside its
    bounds. *)
Theorem ImportTriangles_returns (node : XmlNode) m s :
  size (faces_of node) < UINT_MOD ->
  (exists m' s', ImportTriangles node m s = Ok (m', s'))
  <-> Forall (reference_in_bounds s) (filter is_triangle (Xml.children node)).
Proof.
  intros Hfit. rewrite <- (ImportTriangles_loop_returns (Xml.children node) [] m s).
  unfold ImportTriangles, bind. split.
  - intros (m' & s' & Hrun).
    destruct (for_each ImportTriangles_step (Xml.children node) ([], m) s)
      as [[[faces m1] s1]| |] eqn:Hloop; [|discriminate..].
    apply ImportTriangles_loop in Hloop. destruct Hloop as (-> & _ & _).
    eexists. reflexivity.
  - intros [[faces m1] Hloop]. rewrite Hloop.
    apply ImportTriangles_loop in Hloop. destruct Hloop as (_ & -> & _).
    cbn [app]. fold (faces_of node).
    unfold lift, StdVector.copy_to_new_array.
    pose proof (size_nonneg (faces_of node)) as H0.
    rewrite to_uint_small by lia. rewrite Z.leb_refl. cbn.
    eexists. exists s. reflexivity.
Qed.

End TriangleBounds.

(** ** The properties on the sample runs *)

(** [ImportTriangles_faces] on the three triangles of
    [ExtraSamples.triangles_node]. *)
Lemma ImportTriangles_faces_witness :
  ReferenceSamples.declared = ReferenceSamples.declared
  /\ aiMesh.mFaces ExtraSamples.triangles_mesh
     = faces_of ExtraSamples.triangles_node
  /\ aiMesh.mNumFaces ExtraSamples.triangles_mesh
     = Z.of_nat (List.length (faces_of ExtraSamples.triangles_node))
  /\ Forall is_triangle_face (aiMesh.mFaces ExtraSamples.triangles_mesh)
  /\ aiMesh.mPrimitiveTypes ExtraSamples.triangles_mesh = aiPrimitiveType_TRIANGLE
  /\ aiMesh.mVertices ExtraSamples.triangles_mesh
     = aiMesh.mVertices (@new_aiMesh Q QEnv)
  /\ aiMesh.mNumVertices ExtraSamples.triangles_mesh
     = aiMesh.mNumVertices (@new_aiMesh Q QEnv)
  /\ aiMesh.mName ExtraSamples.triangles_mesh = aiMesh.mName (@new_aiMesh Q QEnv).
Proof.
  assert (Hrun : @ImportTriangles Q ExtraSamples.triangles_node (@new_aiMesh Q QEnv)
                                  ReferenceSamples.declared
                 = Ok (ExtraSamples.triangles_mesh, ReferenceSamples.declared))
    by (vm_compute; reflexivity).
  exact (@ImportTriangles_faces Q _ _ _ _ _ Hrun).
Defined.

(** [ReadMesh_geometry] on a mesh node with three vertices and two
    triangles. *)
Lemma ReadMesh_geometry_witness :
  ReferenceSamples.declared = ReferenceSamples.declared
  /\ aiMesh.mName ExtraSamples.mesh_read = aiMesh.mName (@new_aiMesh Q QEnv)
  /\ @vertices_from Q QEnv (Xml.children ExtraSamples.mesh_node)
                    (@new_aiMesh Q QEnv) ExtraSamples.mesh_read
  /\ faces_from (Xml.children ExtraSamples.mesh_node)
                (@new_aiMesh Q QEnv) ExtraSamples.mesh_read.
Proof.
  assert (Hrun : @ReadMesh Q QEnv ExtraSamples.mesh_node ReferenceSamples.declared
                 = Ok (ExtraSamples.mesh_read, ReferenceSamples.declared))
    by (vm_compute; reflexivity).
  exact (@ReadMesh_geometry Q QEnv _ _ _ _ Hrun).
Defined.

(** [ReadObject_mesh_references] on an object with two meshes. *)
Lemma ReadObject_mesh_references_witness :
  exists new,
    ExtraSamples.object_state
    = set_mMeshes (mMeshes ReferenceSamples.declared ++ new)
                  ReferenceSamples.declared
    /\ List.length new = mesh_children ExtraSamples.object_node
    /\ aiNode.mNumMeshes ExtraSamples.object_read = Z.of_nat (List.length new)
    /\ aiNode.mMeshes ExtraSamples.object_read
       = counter_values (size (mMeshes ReferenceSamples.declared))
                        (List.length new)
    /\ forall k, (k < List.length new)%nat ->
         nth_error (mMeshes ExtraSamples.object_state)
                   (Z.to_nat (nth k (aiNode.mMeshes ExtraSamples.object_read) 0))
         = nth_error new k.
Proof.
  assert (Hrun : @ReadObject Q QEnv ExtraSamples.object_node blank_scene
                             ReferenceSamples.declared
                 = Ok (Some ExtraSamples.object_read, ExtraSamples.object_state))
    by (vm_compute; reflexivity).
  assert (Hfit : size (mMeshes ExtraSamples.object_state) < UINT_MOD)
    by (vm_compute; reflexivity).
  exact (@ReadObject_mesh_references Q QEnv _ _ _ _ _ Hrun Hfit).
Defined.

(** [ImportXml_node_references] on the document [ExtraSamples.full]. *)
Lemma ImportXml_node_references_witness :
  exists root,
    aiScene.mRootNode ExtraSamples.full_scene = Some root
    /\ aiNode.mNumChildren root = size (aiNode.mChildren root)
    /\ List.length (aiNode.mChildren root)
       = List.length
           (filter is_object (resources_of (mXmlParser ExtraSamples.start)))
    /\ aiScene.mNumMeshes ExtraSamples.full_scene
       = size (aiScene.mMeshes ExtraSamples.full_scene)
    /\ children_refs_ok (aiScene.mNumMeshes ExtraSamples.full_scene)
                        (aiNode.mChildren root).
Proof.
  assert (Hrun : @ImportXml Q QEnv (Some blank_scene) ExtraSamples.start
                 = Ok (Some ExtraSamples.full_scene, ExtraSamples.full_state))
    by (vm_compute; reflexivity).
  assert (Hmodel : Xml.child (Some (mXmlParser ExtraSamples.start)) "model" <> None)
    by (vm_compute; discriminate).
  exact (@ImportXml_node_references Q QEnv _ _ _ _ Hrun Hmodel).
Defined.

(** [ImportXml_material_indices] on the document [ExtraSamples.full]. *)
Lemma ImportXml_material_indices_witness :
  aiScene.mNumMaterials ExtraSamples.full_scene
  = Z.of_nat (walk_members (resources_of ExtraSamples.full))
  /\ dictionary_ok ExtraSamples.full_state
  /\ Forall (@material_index_ok Q QEnv
               (aiScene.mNumMaterials ExtraSamples.full_scene))
            (aiScene.mMeshes ExtraSamples.full_scene).
Proof.
  assert (Hrun : @ImportXml Q QEnv (Some blank_scene)
                            (new_XmlSerializer ExtraSamples.full)
                 = Ok (Some ExtraSamples.full_scene, ExtraSamples.full_state))
    by (vm_compute; reflexivity).
  assert (Hmodel : Xml.child (Some ExtraSamples.full) "model" <> None)
    by (vm_compute; discriminate).
  assert (Hwrap : Z.of_nat (walk_members (resources_of ExtraSamples.full))
                  < UINT_MOD)
    by (vm_compute; reflexivity).
  exact (@ImportXml_material_indices Q QEnv _ _ _ _ Hrun Hmodel Hwrap).
Defined.

(** [materials_installed] on the serializer that group 1 has been read
    into. *)
Lemma materials_installed_witness :
  exists arr,
    install_groups
      (repeat None (Z.to_nat (mMaterialCount ReferenceSamples.declared)))
      (mBasematerialsDictionnary ReferenceSamples.declared) = Ok arr
    /\ List.length arr = Z.to_nat (mMaterialCount ReferenceSamples.declared)
    /\ (forall k group e,
          In (k, group) (mBasematerialsDictionnary ReferenceSamples.declared) ->
          In e group ->
          nth_error arr (Z.to_nat (fst e)) = Some (Some (snd e)))
    /\ (forall i,
          0 <= i < mMaterialCount ReferenceSamples.declared ->
          ~ In i (dictionary_indices
                    (mBasematerialsDictionnary ReferenceSamples.declared)) ->
          nth_error arr (Z.to_nat i) = Some None).
Proof.
  assert (Hc : mMaterialCount ReferenceSamples.declared = 2)
    by (vm_compute; reflexivity).
  assert (Hd : dictionary_indices
                 (mBasematerialsDictionnary ReferenceSamples.declared) = [0; 1])
    by (vm_compute; reflexivity).
  assert (Hok : dictionary_ok ReferenceSamples.declared).
  { unfold dictionary_ok. rewrite Hc, Hd. split; [unfold UINT_MOD; lia|].
    split.
    - constructor; [intros [H|[]]; discriminate|].
      constructor; [intros []|constructor].
    - repeat constructor; lia. }
  exact (@materials_installed Q _ Hok).
Defined.



(** [ImportTriangles_last_reference_wins] on
    [ExtraSamples.triangles_node]: the first triangle refers to member 1,
    the second to member 0, the third to a group that is not declared. *)
Lemma ImportTriangles_last_reference_wins_witness :
  aiMesh.mMaterialIndex ExtraSamples.triangles_mesh = fst ReferenceSamples.entry_A.
Proof.
  assert (Hrun : @ImportTriangles Q ExtraSamples.triangles_node (@new_aiMesh Q QEnv)
                                  ReferenceSamples.declared
                 = Ok (ExtraSamples.triangles_mesh, ReferenceSamples.declared))
    by (vm_compute; reflexivity).
  assert (Hcs : Xml.children ExtraSamples.triangles_node
                = [Sample.triangle [("pid", "1"); ("p1", "1")]]
                    ++ ExtraSamples.referring_last
                    :: [Sample.triangle [("pid", "9"); ("p1", "0")]])
    by reflexivity.
  assert (Ht : is_triangle ExtraSamples.referring_last = true) by reflexivity.
  assert (Hfind : StdMap.find (triangle_group ExtraSamples.referring_last)
                    (mBasematerialsDictionnary ReferenceSamples.declared)
                  = Some ReferenceSamples.group_1_entries)
    by (vm_compute; reflexivity).
  assert (Hat : StdVector.at_int ReferenceSamples.group_1_entries
                                 (triangle_position ExtraSamples.referring_last)
                = Ok ReferenceSamples.entry_A)
    by (vm_compute; reflexivity).
  assert (Hafter : Forall (no_declared_reference ReferenceSamples.declared)
                          [Sample.triangle [("pid", "9"); ("p1", "0")]]).
  { constructor; [|constructor]. intros _. vm_compute. reflexivity. }
  exact (@ImportTriangles_last_reference_wins Q _ _ _ _ _ _ _ _ _ _
           Hrun Hcs Ht Hfind Hat Hafter).
Defined.

(** [walk_keeps_declared_groups] on a walk that meets a second
    [basematerials] node with the id of group 1. *)
Lemma walk_keeps_declared_groups_witness :
  StdMap.find 1 (mBasematerialsDictionnary ExtraSamples.late_state)
  = Some ReferenceSamples.group_1_entries.
Proof.
  assert (Hrun : for_each (@ImportXml_step Q QEnv blank_scene)
                          ExtraSamples.late_resources [] ReferenceSamples.declared
                 = Ok (ExtraSamples.late_children, ExtraSamples.late_state))
    by (vm_compute; reflexivity).
  assert (Hfind : StdMap.find 1 (mBasematerialsDictionnary ReferenceSamples.declared)
                  = Some ReferenceSamples.group_1_entries)
    by (vm_compute; reflexivity).
  exact (@walk_keeps_declared_groups Q QEnv _ _ _ _ _ _ _ _ Hrun Hfind).
Defined.

(** [walk_before_materials] on resources whose object and triangle refer
    to group 1, which no node declares. *)
Lemma walk_before_materials_witness :
  mBasematerialsDictionnary ExtraSamples.early_state = StdMap.empty
  /\ exists new,
       mMeshes ExtraSamples.early_state = mMeshes ExtraSamples.start ++ new
       /\ Forall (fun m => aiMesh.mMaterialIndex m
                           = aiMesh.mMaterialIndex (@new_aiMesh Q QEnv)) new.
Proof.
  assert (Hrun : for_each (@ImportXml_step Q QEnv blank_scene)
                          ExtraSamples.early_resources [] ExtraSamples.start
                 = Ok (ExtraSamples.early_children, ExtraSamples.early_state))
    by (vm_compute; reflexivity).
  assert (Hd : mBasematerialsDictionnary ExtraSamples.start = StdMap.empty)
    by reflexivity.
  assert (Hall : Forall (fun c => is_basematerials c = false)
                        ExtraSamples.early_resources)
    by (repeat constructor).
  exact (@walk_before_materials Q QEnv _ _ _ _ _ _ Hrun Hd Hall).
Defined.

(** [ImportXml_meshes] on the document [ExtraSamples.full]. *)
Lemma ImportXml_meshes_witness :
  Forall2 (@mesh_read_from Q QEnv)
          (mesh_sources (resources_of ExtraSamples.full))
          (aiScene.mMeshes ExtraSamples.full_scene).
Proof.
  assert (Hrun : @ImportXml Q QEnv (Some blank_scene)
                            (new_XmlSerializer ExtraSamples.full)
                 = Ok (Some ExtraSamples.full_scene, ExtraSamples.full_state))
    by (vm_compute; reflexivity).
  assert (Hmodel : Xml.child (Some ExtraSamples.full) "model" <> None)
    by (vm_compute; discriminate).
  exact (@ImportXml_meshes Q QEnv _ _ _ _ Hrun Hmodel).
Defined.

(** [ImportXml_children] on the document [ExtraSamples.full]. *)
Lemma ImportXml_children_witness :
  exists root,
    aiScene.mRootNode ExtraSamples.full_scene = Some root
    /\ Forall2 (@child_of Q QEnv)
               (filter is_object (resources_of ExtraSamples.full))
               (aiNode.mChildren root).
Proof.
  assert (Hrun : @ImportXml Q QEnv (Some blank_scene)
                            (new_XmlSerializer ExtraSamples.full)
                 = Ok (Some ExtraSamples.full_scene, ExtraSamples.full_state))
    by (vm_compute; reflexivity).
  assert (Hmodel : Xml.child (Some ExtraSamples.full) "model" <> None)
    by (vm_compute; discriminate).
  exact (@ImportXml_children Q QEnv _ _ _ _ Hrun Hmodel).
Defined.

(** [ImportXml_mesh_materials] on the document [ExtraSamples.full], whose
    mesh refers to member 0 of group 1. *)
Lemma ImportXml_mesh_materials_witness :
  Forall (@material_installed Q QEnv ExtraSamples.full_state
            (aiScene.mMaterials ExtraSamples.full_scene))
         (aiScene.mMeshes ExtraSamples.full_scene).
Proof.
  assert (Hrun : @ImportXml Q QEnv (Some blank_scene)
                            (new_XmlSerializer ExtraSamples.full)
                 = Ok (Some ExtraSamples.full_scene, ExtraSamples.full_state))
    by (vm_compute; reflexivity).
  assert (Hmodel : Xml.child (Some ExtraSamples.full) "model" <> None)
    by (vm_compute; discriminate).
  assert (Hwrap : Z.of_nat (walk_members (resources_of ExtraSamples.full))
                  < UINT_MOD)
    by (vm_compute; reflexivity).
  exact (@ImportXml_mesh_materials Q QEnv _ _ _ _ Hrun Hmodel Hwrap).
Defined.

(** [ImportTriangles_returns] on the three triangles of
    [ExtraSamples.triangles_node]. *)
Lemma ImportTriangles_returns_witness :
  (exists m' s',
     @ImportTriangles Q ExtraSamples.triangles_node (@new_aiMesh Q QEnv)
                      ReferenceSamples.declared = Ok (m', s'))
  <-> Forall (reference_in_bounds ReferenceSamples.declared)
             (filter is_triangle (Xml.children ExtraSamples.triangles_node)).
Proof.
  assert (Hfit : size (faces_of ExtraSamples.triangles_node) < UINT_MOD)
    by (vm_compute; reflexivity).
  exact (@ImportTriangles_returns Q ExtraSamples.triangles_node
           (@new_aiMesh Q QEnv) ReferenceSamples.declared Hfit).
Defined.
